(** * RADIS line-by-line front end: [radis/lbl/calc.py]

    A shallow embedding of [calc_spectrum] and [_calc_spectrum], the public
    entry points that validate the user's request, build a
    [SpectrumFactory], load a line database and dispatch to the equilibrium
    or non-equilibrium synthesis routine.

    The factory, the database loaders, the synthesis routines, the unit
    conversions and [MergeSlabs] live in other modules of the package; they
    are collaborators here, gathered in the class [Collaborators].  Every
    call to one of them is recorded in a trace, so that statements such as
    "nothing was loaded before the error" can be read off the result. *)

From Stdlib Require Import ZArith QArith String List Bool Lia Lqa.
From Stdlib Require Import Reals Lra.
From stdpp Require Import base option list strings gmap.

#[local] Set Warnings "-register-all".
#[local] Open Scope string_scope.
#[local] Open Scope list_scope.

(** ** Python values *)

(** Dictionary keys met in this module: molecule names, HITRAN molecule
    ids and level names. *)
Inductive key : Type :=
| KStr (s : string)
| KInt (n : Z).

#[global] Instance key_eq_dec : EqDecision key.
Proof. solve_decision. Defined.

#[global] Instance key_countable : Countable key.
Proof.
  refine (inj_countable'
            (fun k => match k with KStr s => inl s | KInt n => inr n end)
            (fun x => match x with inl s => KStr s | inr n => KInt n end) _).
  by intros [].
Defined.

(** The dynamically typed values that travel through the keyword
    arguments.  Floats are idealised as rationals. *)
Inductive pyval : Type :=
| PyNone
| PyBool (b : bool)
| PyInt (n : Z)
| PyFloat (q : Q)
| PyStr (s : string)
| PyTuple (items : list pyval)
| PyList (items : list pyval)
| PyDict (d : gmap key pyval).

Definition key_val (k : key) : pyval :=
  match k with
  | KStr s => PyStr s
  | KInt n => PyInt n
  end.

(** [bool(v)] *)
Definition truthy (v : pyval) : bool :=
  match v with
  | PyNone => false
  | PyBool b => b
  | PyInt n => negb (n =? 0)%Z
  | PyFloat q => negb (Qeq_bool q 0)
  | PyStr s => negb (String.eqb s "")
  | PyTuple l | PyList l => match l with [] => false | _ => true end
  | PyDict d => negb (bool_decide (d = ∅))
  end.

Definition is_none (v : pyval) : bool :=
  match v with PyNone => true | _ => false end.

(** [v == s] for a string literal [s] *)
Definition eq_str (v : pyval) (s : string) : bool :=
  match v with PyStr s' => String.eqb s' s | _ => false end.

(** [v in [s1, s2, ...]] for a list of string literals *)
Definition in_strs (v : pyval) (l : list string) : bool :=
  existsb (eq_str v) l.

(** The exceptions this module raises or lets through. *)
Inductive exn : Type :=
| ValueError
| NotImplementedError
| AssertionError
| DeprecationWarning
| TypeError
| IndexError
| AttributeError
| KeyError
| ZeroDivisionError
| OtherError (name : string).

#[global] Instance exn_eq_dec : EqDecision exn.
Proof. solve_decision. Defined.

(** Result of a computation that may raise. *)
Definition res (A : Type) : Type := exn + A.

Definition ok {A} (a : A) : res A := inr a.
Definition throw {A} (e : exn) : res A := inl e.

Definition res_bind {A B} (r : res A) (k : A -> res B) : res B :=
  match r with
  | inl e => inl e
  | inr a => k a
  end.

#[global] Instance res_ret : MRet res := fun _ a => inr a.
#[global] Instance res_mbind : MBind res := fun _ _ k r => res_bind r k.

(** [v >= 2] *)
Definition ge_two (v : pyval) : res bool :=
  match v with
  | PyBool _ => ok false
  | PyInt n => ok (2 <=? n)%Z
  | PyFloat q => ok (Qle_bool 2 q)
  | _ => throw TypeError
  end.

(** [s.endswith(suffix)] *)
Definition str_endswith (s suffix : string) : bool :=
  let n := String.length s in
  let m := String.length suffix in
  (m <=? n)%nat && String.eqb (substring (n - m) m s) suffix.

Definition endswith (v : pyval) (suffix : string) : res bool :=
  match v with
  | PyStr s => ok (str_endswith s suffix)
  | _ => throw AttributeError
  end.

(** [t[i]] on a tuple *)
Definition tuple_item (v : pyval) (i : nat) : res pyval :=
  match v with
  | PyTuple l | PyList l =>
      match l !! i with Some x => ok x | None => throw IndexError end
  | _ => throw TypeError
  end.

(** [a == b] on temperatures that may be [None]. *)
Definition temp_eq (a b : option Q) : bool :=
  match a, b with
  | Some x, Some y => Qeq_bool x y
  | None, None => true
  | _, _ => false
  end.

Definition opt_none {A} (o : option A) : bool :=
  match o with None => true | Some _ => false end.

(** ** Arguments *)

(** The keyword arguments of [_calc_spectrum]. *)
Record calc_args : Type := CalcArgs {
  wavenum_min : option Q;
  wavenum_max : option Q;
  wavelength_min : option Q;
  wavelength_max : option Q;
  Tgas : option Q;
  Tvib : option Q;
  Trot : option Q;
  pressure : pyval;
  overpopulation : pyval;
  molecule : pyval;
  isotope : pyval;
  mole_fraction : pyval;
  path_length : pyval;
  databank : pyval;
  medium : string;
  wstep : pyval;
  broadening_max_width : pyval;
  cutoff : pyval;
  parsum_mode : pyval;
  optimization : pyval;
  name : pyval;
  use_cached : pyval;
  verbose : pyval;
  mode : string;
  export_lines : pyval;
  kwargs : gmap string pyval
}.

(** What [SpectrumFactory(...)] receives. *)
Record factory_args : Type := FactoryArgs {
  fa_wavenum_min : Q;
  fa_wavenum_max : Q;
  fa_medium : string;
  fa_molecule : pyval;
  fa_isotope : pyval;
  fa_pressure : pyval;
  fa_wstep : pyval;
  fa_broadening_max_width : pyval;
  fa_cutoff : pyval;
  fa_parsum_mode : pyval;
  fa_verbose : pyval;
  fa_optimization : pyval;
  fa_export_lines : pyval;
  fa_kwargs : gmap string pyval
}.

Record eq_args : Type := EqArgs {
  eq_Tgas : option Q;
  eq_mole_fraction : pyval;
  eq_path_length : pyval;
  eq_name : pyval
}.

Record eq_gpu_args : Type := EqGpuArgs {
  gpu_Tgas : option Q;
  gpu_mole_fraction : pyval;
  gpu_pressure : pyval;
  gpu_path_length : pyval;
  gpu_name : pyval
}.

Record non_eq_args : Type := NonEqArgs {
  ne_Tvib : option Q;
  ne_Trot : option Q;
  ne_Ttrans : option Q;
  ne_overpopulation : pyval;
  ne_mole_fraction : pyval;
  ne_path_length : pyval;
  ne_name : pyval
}.

(** ** Effects *)

(** One entry per call that leaves this module. *)
Inductive event : Type :=
| EvSpectrumFactory (a : factory_args)
| EvFetchDatabank (conditions : gmap string pyval)
| EvLoadDatabank (name : option pyval) (conditions : gmap string pyval)
| EvExists (path : pyval)
| EvPrint (msg : string)
| EvEqSpectrum (a : eq_args)
| EvEqSpectrumGpu (a : eq_gpu_args)
| EvNonEqSpectrum (a : non_eq_args)
| EvMergeSlabs (n : nat)
| EvStore (path : pyval).

(** A computation: the calls made so far and either an exception or a
    value. *)
Definition M (A : Type) : Type := list event * res A.

Definition trace {A} (m : M A) : list event := fst m.
Definition outcome {A} (m : M A) : res A := snd m.

Definition M_bind {A B} (m : M A) (k : A -> M B) : M B :=
  match m with
  | (t, inl e) => (t, inl e)
  | (t, inr a) => (t ++ trace (k a), outcome (k a))
  end.

#[global] Instance M_ret : MRet M := fun _ a => ([], inr a).
#[global] Instance M_mbind : MBind M := fun _ _ k m => M_bind m k.

Definition raise {A} (e : exn) : M A := ([], inl e).
Definition lift {A} (r : res A) : M A := ([], r).
Definition call {A} (ev : event) (r : res A) : M A := ([ev], r).
Definition emit (ev : event) : M unit := ([ev], inr tt).

(** The other modules of the package, as far as this one calls them,
    and the interpreter's iteration over a set.  The two unit
    conversions are functions of [radis.phys] that may raise (a
    wavelength of 0 has no wavenumber); the order in which a set is
    iterated is some enumeration of its elements, fixed for the run. *)
Class Collaborators : Type := {
  Factory : Type;
  Spectrum : Type;
  SpectrumFactory : factory_args -> res Factory;
  fetch_databank : Factory -> gmap string pyval -> res Factory;
  load_databank : Factory -> option pyval -> gmap string pyval -> res Factory;
  export_rovib_fraction : Factory -> Factory;
  eq_spectrum : Factory -> eq_args -> res Spectrum;
  eq_spectrum_gpu : Factory -> eq_gpu_args -> res Spectrum;
  non_eq_spectrum : Factory -> non_eq_args -> res Spectrum;
  path_exists : pyval -> res bool;
  nm2cm : Q -> res Q;
  air2vacuum : Q -> res Q;
  MergeSlabs : list Spectrum -> res Spectrum;
  store : Spectrum -> pyval -> res unit;
  set_iteration : gset key -> list key;
  set_iteration_elements : forall s, set_iteration s ≡ₚ elements s
}.

(** ** [_calc_spectrum] *)

Section CalcSpectrum.
Context `{C : Collaborators}.

(** Lines 507-526: the wavelength / wavenumber checks and the working
    wavenumber range. *)
Definition wavenum_range (a : calc_args) : res (Q * Q) :=
  if (negb (opt_none (wavelength_min a)) || negb (opt_none (wavelength_max a)))
     && (negb (opt_none (wavenum_min a)) || negb (opt_none (wavenum_max a)))
  then throw ValueError
  else if negb (String.eqb (medium a) "air" || String.eqb (medium a) "vacuum")
  then throw NotImplementedError
  else
    match wavenum_min a, wavenum_max a with
    | None, None =>
        match wavelength_max a with
        | None => throw AssertionError
        | Some wl_max =>
            match wavelength_min a with
            | None => throw AssertionError
            | Some wl_min =>
                if String.eqb (medium a) "vacuum"
                then
                  wn_min ← nm2cm wl_max;
                  wn_max ← nm2cm wl_min;
                  ok (wn_min, wn_max)
                else
                  vacuum_max ← air2vacuum wl_max;
                  wn_min ← nm2cm vacuum_max;
                  vacuum_min ← air2vacuum wl_min;
                  wn_max ← nm2cm vacuum_min;
                  ok (wn_min, wn_max)
            end
        end
    | None, Some _ => throw AssertionError
    | Some _, None => throw AssertionError
    | Some wn_min, Some wn_max => ok (wn_min, wn_max)
    end.

(** Lines 528-548: temperatures, databank, [save_memory] default and the
    retired [chunksize] argument.  Returns the updated [kwargs]. *)
Definition check_conditions (a : calc_args) : res (gmap string pyval) :=
  if opt_none (Tgas a) && opt_none (Trot a) then throw ValueError
  else if (opt_none (Tvib a) && negb (opt_none (Trot a)))
          || (negb (opt_none (Tvib a)) && opt_none (Trot a))
  then throw ValueError
  else if is_none (databank a) then throw ValueError
  else
    let kw := match kwargs a !! "save_memory" with
              | Some _ => kwargs a
              | None => <["save_memory" := PyBool true]> (kwargs a)
              end in
    match kw !! "chunksize" with
    | Some _ => throw DeprecationWarning
    | None => ok kw
    end.

(** Lines 550-559.  Each failed [assert] is caught and turned into
    [False]. *)
Definition _is_at_equilibrium (a : calc_args) (kw : gmap string pyval) : bool :=
  if negb (opt_none (Tvib a) || temp_eq (Tvib a) (Tgas a)) then false
  else if negb (opt_none (Trot a) || temp_eq (Trot a) (Tgas a)) then false
  else if negb (is_none (overpopulation a)) then false
  else match kw !! "self_absorption" with
       | Some v => truthy v
       | None => true
       end.

(** Lines 564-567 *)
Definition drop_columns_for (kw : gmap string pyval) (_equilibrium : bool) : res pyval :=
  match kw !! "save_memory" with
  | None => throw KeyError
  | Some v =>
      b ← ge_two v;
      ok (if b && _equilibrium then PyStr "all" else PyStr "auto")
  end.

Definition factory_args_of (a : calc_args) (wn : Q * Q) (kw : gmap string pyval)
  : factory_args :=
  {| fa_wavenum_min := fst wn;
     fa_wavenum_max := snd wn;
     fa_medium := medium a;
     fa_molecule := molecule a;
     fa_isotope := isotope a;
     fa_pressure := pressure a;
     fa_wstep := wstep a;
     fa_broadening_max_width := broadening_max_width a;
     fa_cutoff := cutoff a;
     fa_parsum_mode := parsum_mode a;
     fa_verbose := verbose a;
     fa_optimization := optimization a;
     fa_export_lines := export_lines a;
     fa_kwargs := kw |}.

(** Line 586: is the databank one that is fetched automatically? *)
Definition is_fetched_databank (db : pyval) : res bool :=
  if in_strs db ["fetch"; "hitran"; "hitemp"; "exomol"] then ok true
  else match db with
       | PyTuple _ => x ← tuple_item db 0; ok (eq_str x "exomol")
       | _ => ok false
       end.

(** Lines 590-626 *)
Definition fetch_conditions (a : calc_args) (_equilibrium : bool)
  : res (gmap string pyval) :=
  let db := databank a in
  conditions ←
    (if in_strs db ["fetch"; "hitran"] then
       ok (<["parfuncfmt" := PyStr "hapi"]> (<["source" := PyStr "hitran"]> ∅))
     else if in_strs db ["hitemp"] then
       ok (<["parfuncfmt" := PyStr "hapi"]> (<["source" := PyStr "hitemp"]> ∅))
     else if in_strs db ["exomol"] then
       ok (<["parfuncfmt" := PyStr "exomol"]> (<["source" := PyStr "exomol"]> ∅))
     else
       is_exomol ← match db with
                   | PyTuple _ => x ← tuple_item db 0; ok (eq_str x "exomol")
                   | _ => ok false
                   end;
       if is_exomol : bool then
         x ← tuple_item db 1;
         ok (<["parfuncfmt" := PyStr "exomol"]>
               (<["exomol_database" := x]> (<["source" := PyStr "exomol"]> ∅)))
       else throw (OtherError "UnboundLocalError"));
  let conditions :=
    <["db_use_cached" := use_cached a]> (<["levelsfmt" := PyNone]> conditions) in
  let conditions :=
    if negb _equilibrium
    then <["lvl_use_cached" := use_cached a]>
           (<["levelsfmt" := PyStr "radis"]> conditions)
    else conditions in
  let conditions := <["load_energies" := PyBool (negb _equilibrium)]> conditions in
  ok (<["parse_local_global_quanta" :=
          if negb _equilibrium then PyBool true else export_lines a]> conditions).

Definition print_if (v : pyval) (msg : string) : M unit :=
  if truthy v then emit (EvPrint msg) else mret tt.

Definition databank_text (db : pyval) : string :=
  match db with PyStr s => s | _ => "" end.

(** Lines 629-666: a database file on disk; the format is guessed from
    the file name. *)
Definition file_conditions (a : calc_args) (_equilibrium : bool)
    (drop_columns : pyval) : M (gmap string pyval) :=
  let db := databank a in
  let conditions :=
    <["db_use_cached" := use_cached a]>
      (<["levelsfmt" := PyNone]>
         (<["parfuncfmt" := PyStr "hapi"]>
            (<["drop_columns" := drop_columns]>
               (<["path" := db]> ∅)))) in
  is_par ← lift (endswith db ".par");
  conditions ←
    (if is_par : bool then
       _ ← print_if (verbose a)
             ("Infered " ++ databank_text db ++ " is a HITRAN-format file.");
       let conditions := <["format" := PyStr "hitran"]> conditions in
       mret (if negb _equilibrium
             then <["lvl_use_cached" := use_cached a]>
                    (<["levelsfmt" := PyStr "radis"]> conditions)
             else conditions)
     else
       is_h5 ← lift (endswith db ".h5");
       is_hdf5 ← (if is_h5 : bool then mret true else lift (endswith db ".hdf5"));
       if is_hdf5 : bool then
         _ ← print_if (verbose a)
               ("Infered " ++ databank_text db
                  ++ " is a HDF5 file with RADISDB columns format");
         let conditions := <["format" := PyStr "hdf5-radisdb"]> conditions in
         mret (if negb _equilibrium
               then <["levelsfmt" := PyStr "radis"]> conditions
               else conditions)
       else raise ValueError);
  mret (<["load_energies" := PyBool (negb _equilibrium)]> conditions).

(** Lines 586-674: load the line database into the factory. *)
Definition load_lines (a : calc_args) (_equilibrium : bool)
    (drop_columns : pyval) (sf : Factory) : M Factory :=
  fetched ← lift (is_fetched_databank (databank a));
  if fetched : bool then
    conditions ← lift (fetch_conditions a _equilibrium);
    call (EvFetchDatabank conditions) (fetch_databank sf conditions)
  else
    on_disk ← call (EvExists (databank a)) (path_exists (databank a));
    if on_disk : bool then
      conditions ← file_conditions a _equilibrium drop_columns;
      call (EvLoadDatabank None conditions) (load_databank sf None conditions)
    else
      let conditions :=
        <["drop_columns" := drop_columns]>
          (<["load_energies" := PyBool (negb _equilibrium)]> ∅) in
      call (EvLoadDatabank (Some (databank a)) conditions)
           (load_databank sf (Some (databank a)) conditions).

(** Line 684: [overpopulation is not None or overpopulation != {}] *)
Definition wants_rovib_fraction (ov : pyval) : bool :=
  negb (is_none ov)
  || negb (match ov with PyDict d => bool_decide (d = ∅) | _ => false end).

(** Lines 504-685: everything up to the choice of the synthesis routine.
    Returns the equilibrium flag and the loaded factory. *)
Definition prepare (a : calc_args) : M (bool * Factory) :=
  wn ← lift (wavenum_range a);
  kw ← lift (check_conditions a);
  let _equilibrium := _is_at_equilibrium a kw in
  drop_columns ← lift (drop_columns_for kw _equilibrium);
  let fa := factory_args_of a wn kw in
  sf ← call (EvSpectrumFactory fa) (SpectrumFactory fa);
  sf ← load_lines a _equilibrium drop_columns sf;
  let sf := if wants_rovib_fraction (overpopulation a)
            then export_rovib_fraction sf else sf in
  mret (_equilibrium, sf).

Definition eq_args_of (a : calc_args) : eq_args :=
  {| eq_Tgas := Tgas a;
     eq_mole_fraction := mole_fraction a;
     eq_path_length := path_length a;
     eq_name := name a |}.

Definition eq_gpu_args_of (a : calc_args) : eq_gpu_args :=
  {| gpu_Tgas := Tgas a;
     gpu_mole_fraction := mole_fraction a;
     gpu_pressure := pressure a;
     gpu_path_length := path_length a;
     gpu_name := name a |}.

Definition non_eq_args_of (a : calc_args) : non_eq_args :=
  {| ne_Tvib := Tvib a;
     ne_Trot := Trot a;
     ne_Ttrans := Tgas a;
     ne_overpopulation := overpopulation a;
     ne_mole_fraction := mole_fraction a;
     ne_path_length := path_length a;
     ne_name := name a |}.

(** Lines 688-717: the standard [eq_spectrum] / [non_eq_spectrum]
    functions. *)
Definition synthesize (a : calc_args) (_equilibrium : bool) (sf : Factory)
  : M Spectrum :=
  if _equilibrium then
    if String.eqb (mode a) "cpu" then
      call (EvEqSpectrum (eq_args_of a)) (eq_spectrum sf (eq_args_of a))
    else if String.eqb (mode a) "gpu" then
      call (EvEqSpectrumGpu (eq_gpu_args_of a))
           (eq_spectrum_gpu sf (eq_gpu_args_of a))
    else raise ValueError
  else
    if negb (String.eqb (mode a) "cpu") then raise NotImplementedError
    else call (EvNonEqSpectrum (non_eq_args_of a))
              (non_eq_spectrum sf (non_eq_args_of a)).

Definition _calc_spectrum (a : calc_args) : M Spectrum :=
  p ← prepare a;
  synthesize a (fst p) (snd p).

(** ** [calc_spectrum] *)

(** The molecules found so far: the list given as [molecule=], or the
    key set of a dictionary argument. *)
Inductive molecule_set : Type :=
| MolList (l : list key)
| MolKeys (s : gset key).

Definition as_set (r : molecule_set) : gset key :=
  match r with
  | MolList l => list_to_set l
  | MolKeys s => s
  end.

(** Iteration order of [for molecule in molecule_reference_set]: the
    order of the list given as [molecule=], the interpreter's order for
    the key set of a dictionary. *)
Definition members (r : molecule_set) : list key :=
  match r with
  | MolList l => l
  | MolKeys s => set_iteration s
  end.

(** Lines 330-362 *)
Definition _check_molecules_are_consistent
    (molecule_reference_set : option molecule_set) (reference_name : string)
    (new_argument : pyval) (new_argument_name : string)
  : res (option molecule_set * string) :=
  match new_argument with
  | PyDict d =>
      match molecule_reference_set with
      | None => ok (Some (MolKeys (dom d)), new_argument_name)
      | Some r =>
          if bool_decide (dom d ≠ as_set r) then throw ValueError
          else ok (Some (MolKeys (dom d)), new_argument_name)
      end
  | _ => ok (molecule_reference_set, reference_name)
  end.

Definition DICT_INPUT_ARGUMENTS (a : calc_args) : list (string * pyval) :=
  [("isotope", isotope a);
   ("mole_fraction", mole_fraction a);
   ("databank", databank a)].

Definition DICT_INPUT_DICT_ARGUMENTS (a : calc_args) : list (string * pyval) :=
  [("overpopulation", overpopulation a)].

(** Lines 365-370: parse all inputs. *)
Fixpoint parse_inputs (arguments : list (string * pyval))
    (molecule_reference_set : option molecule_set) (reference_name : string)
  : res (option molecule_set * string) :=
  match arguments with
  | [] => ok (molecule_reference_set, reference_name)
  | (argument_name, argument) :: rest =>
      p ← _check_molecules_are_consistent
            molecule_reference_set reference_name argument argument_name;
      parse_inputs rest (fst p) (snd p)
  end.

(** [d[k] = v] on a dictionary that remembers insertion order. *)
Fixpoint dict_set {V} (k : key) (v : V) (d : list (key * V)) : list (key * V) :=
  match d with
  | [] => [(k, v)]
  | (k', v') :: rest =>
      if decide (k' = k) then (k, v) :: rest else (k', v') :: dict_set k v rest
  end.

(** Lines 388-397: the arguments of one molecule. *)
Fixpoint molecule_arguments (arguments : list (string * pyval)) (mol : key)
    (entry : gmap string pyval) : res (gmap string pyval) :=
  match arguments with
  | [] => ok entry
  | (argument_name, argument_dict) :: rest =>
      match argument_dict with
      | PyDict d =>
          match d !! mol with
          | Some v => molecule_arguments rest mol (<[argument_name := v]> entry)
          | None => throw KeyError
          end
      | _ => molecule_arguments rest mol (<[argument_name := argument_dict]> entry)
      end
  end.

(** Lines 383-397: the master dictionary. *)
Fixpoint fill_master (arguments : list (string * pyval)) (mols : list key)
    (molecule_dict : list (key * gmap string pyval))
  : res (list (key * gmap string pyval)) :=
  match mols with
  | [] => ok molecule_dict
  | mol :: rest =>
      entry ← molecule_arguments arguments mol ∅;
      fill_master arguments rest (dict_set mol entry molecule_dict)
  end.

(** Lines 400-411: is a dictionary-valued argument keyed by molecule, or
    the same for every molecule? *)
Definition is_same_for_all_molecules (r : molecule_set) (argument_dict : pyval)
  : bool :=
  match argument_dict with
  | PyDict d => negb (bool_decide (dom d ⊆ as_set r))
  | _ => true
  end.

Definition entry_set (mol : key) (argument_name : string) (v : pyval)
    (molecule_dict : list (key * gmap string pyval))
  : list (key * gmap string pyval) :=
  map (fun e => if decide (fst e = mol)
                then (fst e, <[argument_name := v]> (snd e)) else e)
      molecule_dict.

(** Lines 413-422, for one argument. *)
Fixpoint fill_dict_argument (same : bool) (argument_name : string)
    (argument_dict : pyval) (mols : list key)
    (molecule_dict : list (key * gmap string pyval))
  : res (list (key * gmap string pyval)) :=
  match mols with
  | [] => ok molecule_dict
  | mol :: rest =>
      v ← (if same then ok argument_dict
           else match argument_dict with
                | PyDict d =>
                    match d !! mol with
                    | Some v => ok v
                    | None => throw KeyError
                    end
                | _ => throw TypeError
                end);
      fill_dict_argument same argument_name argument_dict rest
        (entry_set mol argument_name v molecule_dict)
  end.

Fixpoint fill_dict_arguments (r : molecule_set)
    (arguments : list (string * pyval))
    (molecule_dict : list (key * gmap string pyval))
  : res (list (key * gmap string pyval)) :=
  match arguments with
  | [] => ok molecule_dict
  | (argument_name, argument_dict) :: rest =>
      md ← fill_dict_argument (is_same_for_all_molecules r argument_dict)
             argument_name argument_dict (members r) molecule_dict;
      fill_dict_arguments r rest md
  end.

Definition required (kw : gmap string pyval) (n : string) : res pyval :=
  match kw !! n with
  | Some v => ok v
  | None => throw TypeError
  end.

(** Lines 427-462: the keyword arguments of the call for one molecule. *)
Definition molecule_call (a : calc_args) (mol : key)
    (dict_arguments : gmap string pyval) : res calc_args :=
  let kwargs_molecule := dict_arguments ∪ kwargs a in
  ov ← required kwargs_molecule "overpopulation";
  iso ← required kwargs_molecule "isotope";
  mf ← required kwargs_molecule "mole_fraction";
  db ← required kwargs_molecule "databank";
  ok {| wavenum_min := wavenum_min a;
        wavenum_max := wavenum_max a;
        wavelength_min := wavelength_min a;
        wavelength_max := wavelength_max a;
        Tgas := Tgas a;
        Tvib := Tvib a;
        Trot := Trot a;
        pressure := pressure a;
        overpopulation := ov;
        molecule := key_val mol;
        isotope := iso;
        mole_fraction := mf;
        path_length := path_length a;
        databank := db;
        medium := medium a;
        wstep := wstep a;
        broadening_max_width := broadening_max_width a;
        cutoff := cutoff a;
        parsum_mode := parsum_mode a;
        optimization := optimization a;
        name := name a;
        use_cached := use_cached a;
        verbose := verbose a;
        mode := mode a;
        export_lines := export_lines a;
        kwargs := delete "databank"
                    (delete "mole_fraction"
                       (delete "isotope"
                          (delete "overpopulation" kwargs_molecule))) |}.

(** Lines 425-463: one spectrum per molecule. *)
Fixpoint calc_all (a : calc_args)
    (molecule_dict : list (key * gmap string pyval)) : M (list Spectrum) :=
  match molecule_dict with
  | [] => mret []
  | (mol, dict_arguments) :: rest =>
      a' ← lift (molecule_call a mol dict_arguments);
      s ← _calc_spectrum a';
      s_list ← calc_all a rest;
      mret (s :: s_list)
  end.

(** The [molecule] argument: [None], one molecule, or a list. *)
Inductive molecule_arg : Type :=
| OneMolecule (k : key)
| Molecules (l : list key).

(** Line 315 *)
Definition initial_reference (molecule : option molecule_arg)
  : option molecule_set :=
  match molecule with
  | None => None
  | Some (OneMolecule k) => Some (MolList [k])
  | Some (Molecules l) => Some (MolList l)
  end.

(** Lines 313-471.  [a] holds the keyword arguments as the user gave
    them; its [molecule] field is filled in for each molecule in turn. *)
Definition calc_spectrum (molecule : option molecule_arg) (save_to : pyval)
    (a : calc_args) : M Spectrum :=
  p ← lift (parse_inputs (DICT_INPUT_ARGUMENTS a)
              (initial_reference molecule) "molecule");
  match fst p with
  | None => raise ValueError
  | Some molecule_reference_set =>
      molecule_dict ←
        lift (fill_master (DICT_INPUT_ARGUMENTS a)
                (members molecule_reference_set) []);
      molecule_dict ←
        lift (fill_dict_arguments molecule_reference_set
                (DICT_INPUT_DICT_ARGUMENTS a) molecule_dict);
      s_list ← calc_all a molecule_dict;
      s ← call (EvMergeSlabs (length s_list)) (MergeSlabs s_list);
      _ ← (if truthy save_to then call (EvStore save_to) (store s save_to)
           else mret tt);
      mret s
  end.

End CalcSpectrum.

(** ** The claims' vocabulary *)

Section Vocabulary.
Context `{C : Collaborators}.

(** [a == b] as a proposition. *)
Definition same_temperature (a b : option Q) : Prop :=
  match a, b with
  | Some x, Some y => (x == y)%Q
  | None, None => True
  | _, _ => False
  end.

(** "(Tvib is None or Tvib == Tgas) and (Trot is None or Trot == Tgas) and
    overpopulation is None and self-absorption is not disabled" *)
Definition equilibrium_conditions (a : calc_args) : Prop :=
  (Tvib a = None \/ same_temperature (Tvib a) (Tgas a))
  /\ (Trot a = None \/ same_temperature (Trot a) (Tgas a))
  /\ overpopulation a = PyNone
  /\ (forall v, kwargs a !! "self_absorption" = Some v -> truthy v = true).

(** The calls that synthesize a spectrum. *)
Definition is_synthesis (ev : event) : bool :=
  match ev with
  | EvEqSpectrum _ | EvEqSpectrumGpu _ | EvNonEqSpectrum _ => true
  | _ => false
  end.

(** The calls that load the line database. *)
Definition is_loading (ev : event) : bool :=
  match ev with
  | EvFetchDatabank _ | EvLoadDatabank _ _ | EvExists _ | EvPrint _ => true
  | _ => false
  end.

Definition is_equilibrium_call (ev : event) : Prop :=
  match ev with
  | EvEqSpectrum _ | EvEqSpectrumGpu _ => True
  | _ => False
  end.

(** "a dict whose key set differs from the already-established set of
    molecules" *)
Definition keys_differ (established : option molecule_set) (argument : pyval)
  : Prop :=
  exists d r,
    argument = PyDict d /\ established = Some r /\ dom d <> as_set r.

(** The set of molecules established once [argument] has been read. *)
Definition established_after (established : option molecule_set)
    (argument : pyval) : option molecule_set :=
  match argument with
  | PyDict d => Some (MolKeys (dom d))
  | _ => established
  end.

(** The wavelength in vacuum of a wavelength bound. *)
Definition vacuum_wavelength (medium : string) (wl : Q) : res Q :=
  if String.eqb medium "air" then air2vacuum wl else ok wl.

(** The wavenumber that a wavelength bound is turned into. *)
Definition to_wavenumber (medium : string) (wl : Q) : res Q :=
  wl ← vacuum_wavelength medium wl;
  nm2cm wl.

(** The dispatch rule read literally, for one call: the equilibrium
    routine is invoked exactly under the equilibrium conditions, and the
    non-equilibrium routine is invoked with [Tvib], [Trot] and
    [Ttrans = Tgas] otherwise. *)
Definition dispatch_as_stated (a : calc_args) : Prop :=
  (equilibrium_conditions a
   <-> exists ev, In ev (trace (_calc_spectrum a)) /\ is_equilibrium_call ev)
  /\ (~ equilibrium_conditions a ->
      In (EvNonEqSpectrum (non_eq_args_of a)) (trace (_calc_spectrum a))).

(** The rejection rule read literally, for one call: away from
    equilibrium and off the CPU, the exception is
    [NotImplementedError]. *)
Definition rejection_as_stated (a : calc_args) : Prop :=
  ~ equilibrium_conditions a -> mode a <> "cpu" ->
  outcome (_calc_spectrum a) = inl NotImplementedError.


End Vocabulary.

(** ** A small offline world, used to run the embedding *)

Module Offline.

(** Every collaborator succeeds, except that a wavelength of 0 has no
    wavenumber; the air correction is a constant refractive index; a
    spectrum is the name of the routine that produced it; no file
    exists on disk; a set is iterated in the order of [elements]. *)
#[local] Open Scope Q_scope.

Definition world : Collaborators :=
  {| Factory := unit;
     Spectrum := string;
     SpectrumFactory := fun _ => ok tt;
     fetch_databank := fun _ _ => ok tt;
     load_databank := fun _ _ _ => ok tt;
     export_rovib_fraction := fun sf => sf;
     eq_spectrum := fun _ _ => ok "eq_spectrum"%string;
     eq_spectrum_gpu := fun _ _ => ok "eq_spectrum_gpu"%string;
     non_eq_spectrum := fun _ _ => ok "non_eq_spectrum"%string;
     path_exists := fun _ => ok false;
     nm2cm := fun wl => if Qeq_bool wl 0 then throw ZeroDivisionError
                        else ok (10000000 / wl);
     air2vacuum := fun wl => ok (wl * (1000293 # 1000000));
     MergeSlabs := fun l => match l with
                            | [] => throw ValueError
                            | s :: _ => ok s
                            end;
     store := fun _ _ => ok tt;
     set_iteration := elements;
     set_iteration_elements := fun s => Permutation_refl (elements s) |}.

(** [calc_spectrum]'s defaults, on the 1900-2300 cm-1 range of the
    docstring example. *)
Definition defaults : calc_args :=
  {| wavenum_min := Some 1900;
     wavenum_max := Some 2300;
     wavelength_min := None;
     wavelength_max := None;
     Tgas := Some 1000;
     Tvib := None;
     Trot := None;
     pressure := PyFloat 1.01325;
     overpopulation := PyNone;
     molecule := PyStr "CO";
     isotope := PyStr "all";
     mole_fraction := PyInt 1;
     path_length := PyInt 1;
     databank := PyStr "hitran";
     medium := "air";
     wstep := PyFloat 0.01;
     broadening_max_width := PyInt 10;
     cutoff := PyFloat (1 # 1000000000000000000000000000);
     parsum_mode := PyStr "full summation";
     optimization := PyStr "min-RMS";
     name := PyNone;
     use_cached := PyBool true;
     verbose := PyBool true;
     mode := "cpu";
     export_lines := PyBool false;
     kwargs := ∅ |}.

Definition with_temperatures (a : calc_args) (tgas tvib trot : option Q)
  : calc_args :=
  {| wavenum_min := wavenum_min a; wavenum_max := wavenum_max a;
     wavelength_min := wavelength_min a; wavelength_max := wavelength_max a;
     Tgas := tgas; Tvib := tvib; Trot := trot;
     pressure := pressure a; overpopulation := overpopulation a;
     molecule := molecule a; isotope := isotope a;
     mole_fraction := mole_fraction a; path_length := path_length a;
     databank := databank a; medium := medium a; wstep := wstep a;
     broadening_max_width := broadening_max_width a; cutoff := cutoff a;
     parsum_mode := parsum_mode a; optimization := optimization a;
     name := name a; use_cached := use_cached a; verbose := verbose a;
     mode := mode a; export_lines := export_lines a; kwargs := kwargs a |}.

Definition with_mode (a : calc_args) (m : string) : calc_args :=
  {| wavenum_min := wavenum_min a; wavenum_max := wavenum_max a;
     wavelength_min := wavelength_min a; wavelength_max := wavelength_max a;
     Tgas := Tgas a; Tvib := Tvib a; Trot := Trot a;
     pressure := pressure a; overpopulation := overpopulation a;
     molecule := molecule a; isotope := isotope a;
     mole_fraction := mole_fraction a; path_length := path_length a;
     databank := databank a; medium := medium a; wstep := wstep a;
     broadening_max_width := broadening_max_width a; cutoff := cutoff a;
     parsum_mode := parsum_mode a; optimization := optimization a;
     name := name a; use_cached := use_cached a; verbose := verbose a;
     mode := m; export_lines := export_lines a; kwargs := kwargs a |}.

Definition with_range (a : calc_args) (wn_min wn_max wl_min wl_max : option Q)
  : calc_args :=
  {| wavenum_min := wn_min; wavenum_max := wn_max;
     wavelength_min := wl_min; wavelength_max := wl_max;
     Tgas := Tgas a; Tvib := Tvib a; Trot := Trot a;
     pressure := pressure a; overpopulation := overpopulation a;
     molecule := molecule a; isotope := isotope a;
     mole_fraction := mole_fraction a; path_length := path_length a;
     databank := databank a; medium := medium a; wstep := wstep a;
     broadening_max_width := broadening_max_width a; cutoff := cutoff a;
     parsum_mode := parsum_mode a; optimization := optimization a;
     name := name a; use_cached := use_cached a; verbose := verbose a;
     mode := mode a; export_lines := export_lines a; kwargs := kwargs a |}.

Definition with_dicts (a : calc_args) (iso mf db : pyval) : calc_args :=
  {| wavenum_min := wavenum_min a; wavenum_max := wavenum_max a;
     wavelength_min := wavelength_min a; wavelength_max := wavelength_max a;
     Tgas := Tgas a; Tvib := Tvib a; Trot := Trot a;
     pressure := pressure a; overpopulation := overpopulation a;
     molecule := molecule a; isotope := iso;
     mole_fraction := mf; path_length := path_length a;
     databank := db; medium := medium a; wstep := wstep a;
     broadening_max_width := broadening_max_width a; cutoff := cutoff a;
     parsum_mode := parsum_mode a; optimization := optimization a;
     name := name a; use_cached := use_cached a; verbose := verbose a;
     mode := mode a; export_lines := export_lines a; kwargs := kwargs a |}.

(** Tvib = Trot = 2000 K in a gas at 300 K. *)
Definition two_temperatures : calc_args :=
  with_temperatures defaults (Some 300) (Some 2000) (Some 2000).

(** The same request, sent to the GPU. *)
Definition two_temperatures_gpu : calc_args := with_mode two_temperatures "gpu".

(** A vibrational temperature without a rotational one, on the GPU. *)
Definition tvib_only_gpu : calc_args :=
  with_mode (with_temperatures defaults (Some 300) (Some 2000) None) "gpu".

(** Both a wavenumber and a wavelength bound. *)
Definition both_units : calc_args :=
  with_range defaults (Some 1900) None (Some 4000) None.


(** [molecule=["CO", "CO2"]] with [isotope={"CO": "1"}]. *)
Definition isotopes_of_CO_only : calc_args :=
  with_dicts defaults (PyDict (<[KStr "CO" := PyStr "1"]> ∅))
    (PyInt 1) (PyStr "hitran").




End Offline.

(** ** The synthesis core

    The broadening calculator, the template bank and the range filter
    belong to the factory, which is not part of this module.  What
    follows renders the design document's description of them. *)

(** Modelled from the spec: the error taxonomy of the synthesis core
    (section 7), with the arithmetic exception that section 4.2 guards
    against. *)
Inductive synthesis_error : Type :=
| InvalidPhysicalParameter
| MissingCoefficient
| InconsistentRange
| NumericUnderflow
| DivisionByZero.

Module RangeFilter.

#[local] Open Scope Q_scope.

(** Modelled from the spec: one row of the line table (section 3), the
    columns that the range filter and the density arrays read. *)
Record line : Type := Line {
  molecule_id : Z;
  isotope_id : Z;
  wavenumber : Q;
  linestrength : Q
}.

(** Modelled from the spec: "a margin of broadening_max_width/2 on each
    side". *)
Definition margin (broadening_max_width : Q) : Q := broadening_max_width / 2.

(** Modelled from the spec: the calculation bound
    [[wavenum_min - margin, wavenum_max + margin]], ends included. *)
Definition in_calculation_range (wavenum_min wavenum_max broadening_max_width : Q)
    (w : Q) : bool :=
  Qle_bool (wavenum_min - margin broadening_max_width) w
  && Qle_bool w (wavenum_max + margin broadening_max_width).

(** Modelled from the spec: "lines outside [wavenum_min - margin,
    wavenum_max + margin] must be excluded before synthesis". *)
Definition included_lines (wavenum_min wavenum_max broadening_max_width : Q)
    (lines : list line) : list line :=
  List.filter
    (fun l => in_calculation_range wavenum_min wavenum_max broadening_max_width
                (wavenumber l))
    lines.

End RangeFilter.

Module Doppler.

#[local] Open Scope R_scope.

(** Modelled from the spec: the Doppler width of section 4.1,
    [gamma_gaussian = wavenumber * sqrt(2 ln2 * k_B * T / (mass * c^2))],
    which "fails with InvalidPhysicalParameter if mass <= 0 or T <= 0".
    The Boltzmann constant and the speed of light are left as
    arguments. *)
Definition gamma_gaussian (k_B c : R) (wavenumber mass T : R)
  : synthesis_error + R :=
  if Rle_dec mass 0 then inl InvalidPhysicalParameter
  else if Rle_dec T 0 then inl InvalidPhysicalParameter
  else inr (wavenumber * sqrt (2 * ln 2 * k_B * T / (mass * c ^ 2))).

(** Multiply a computed width by a factor; an error stays as it is. *)
Definition scaled (factor : R) (r : synthesis_error + R) : synthesis_error + R :=
  match r with
  | inl e => inl e
  | inr g => inr (factor * g)
  end.

End Doppler.

Module LDM.

#[local] Open Scope R_scope.

(** Modelled from the spec: the two weighting policies of section 3. *)
Inductive optimization_mode : Type :=
| Simple
| MinRMS.

(** Division as the program performs it: a zero divisor raises. *)
Definition checked_div (a b : R) : synthesis_error + R :=
  if Req_EM_T b 0 then inl DivisionByZero else inr (a / b).

(** Modelled from the spec: a log-spaced axis from [lo] up to [hi], with
    [points_per_decade] templates per factor of ten (section 4.2). *)
Definition log_axis (points_per_decade : nat) (lo hi : R) : list R :=
  let steps := Z.to_nat (up (INR points_per_decade * (ln hi - ln lo) / ln 10)) in
  List.map (fun k => lo * exp (INR k * ln 10 / INR points_per_decade))
           (seq 0 (S steps)).

(** Modelled from the spec: the axis of one width dimension, "covering
    [min, max] of the computed per-line widths"; "if fewer than 2 distinct
    widths exist ... degenerate to a single template".  An empty line set
    is the fatal [InconsistentRange] of section 7. *)
Definition width_axis (points_per_decade : nat) (values : list R)
  : synthesis_error + list R :=
  match values with
  | [] => inl InconsistentRange
  | v :: rest =>
      let lo := fold_left Rmin rest v in
      let hi := fold_left Rmax rest v in
      if Req_EM_T lo hi then inr [lo]
      else inr (log_axis points_per_decade lo hi)
  end.

(** Modelled from the spec: the template bank, "M_g x M_l reference
    points" (section 3).  The Voigt profile that each template owns is
    not represented. *)
Record template_bank : Type := TemplateBank {
  gaussian_axis : list R;
  lorentzian_axis : list R
}.

Definition templates (bank : template_bank) : list (R * R) :=
  list_prod (gaussian_axis bank) (lorentzian_axis bank).

(** Modelled from the spec: [build_templates(gaussian_values,
    lorentzian_values, grid)] of section 4.2, without the profiles. *)
Definition build_templates (points_per_decade : nat)
    (gaussian_values lorentzian_values : list R)
  : synthesis_error + template_bank :=
  match width_axis points_per_decade gaussian_values with
  | inl e => inl e
  | inr ga =>
      match width_axis points_per_decade lorentzian_values with
      | inl e => inl e
      | inr la => inr {| gaussian_axis := ga; lorentzian_axis := la |}
      end
  end.

(** Index of the lower template of the pair that brackets [x]. *)
Definition bracket (axis : list R) (x : R) : nat :=
  let below := List.length (List.filter (fun t => if Rle_dec t x then true else false) axis) in
  Nat.min (Nat.pred below) (List.length axis - 2).

Section Weights.

(** The closed form of the "min-RMS" weight is left open by the design
    document (section 9); it is an argument here: from the relative
    position and the log-spacing of the pair to the weight of the upper
    template. *)
Variable min_rms_weight : R -> R -> R.

(** Modelled from the spec: the weights of one line along one axis
    (section 4.3): on a single-template axis the weight is 1; otherwise
    the two bracketing templates share the line according to its
    relative position in log-width. *)
Definition axis_weights (mode : optimization_mode) (axis : list R) (x : R)
  : synthesis_error + list (nat * R) :=
  match axis with
  | [] => inl InconsistentRange
  | [_] => inr [(0%nat, 1)]
  | _ =>
      let i := bracket axis x in
      let x0 := nth i axis 0 in
      let x1 := nth (S i) axis 0 in
      match checked_div (ln x - ln x0) (ln x1 - ln x0) with
      | inl e => inl e
      | inr t =>
          let a := match mode with
                   | Simple => t
                   | MinRMS => min_rms_weight t (ln x1 - ln x0)
                   end in
          inr [(i, 1 - a); (S i, a)]
      end
  end.

(** Modelled from the spec: the corner weights of a line with widths
    [(g, l)], the product of its weights along the two axes. *)
Definition ldm_weights (mode : optimization_mode) (bank : template_bank)
    (widths : R * R) : synthesis_error + list ((nat * nat) * R) :=
  match axis_weights mode (gaussian_axis bank) (fst widths) with
  | inl e => inl e
  | inr wg =>
      match axis_weights mode (lorentzian_axis bank) (snd widths) with
      | inl e => inl e
      | inr wl =>
          inr (List.map (fun p => ((fst (fst p), fst (snd p)), snd (fst p) * snd (snd p)))
                        (list_prod wg wl))
      end
  end.

End Weights.

(** The weight a line puts on the bank, summed over its corners. *)
Definition total_weight {I : Type} (ws : list (I * R)) : R :=
  fold_right (fun p acc => snd p + acc) 0 ws.

End LDM.

(** ** More vocabulary

    Notions used to state what the code does beyond the dispatch rules
    above. *)

Section MoreVocabulary.
Context `{C : Collaborators}.

Definition valid_medium (m : string) : Prop := m = "air" \/ m = "vacuum".

(** At least one bound is given in each unit. *)
Definition units_mixed (a : calc_args) : Prop :=
  (is_Some (wavelength_min a) \/ is_Some (wavelength_max a))
  /\ (is_Some (wavenum_min a) \/ is_Some (wavenum_max a)).

(** [fetch_databank] and [load_databank] *)
Definition is_database_call (ev : event) : bool :=
  match ev with
  | EvFetchDatabank _ | EvLoadDatabank _ _ => true
  | _ => false
  end.

(** [exists(path)] and [print]: calls that neither load nor compute. *)
Definition is_quiet (ev : event) : bool :=
  match ev with
  | EvExists _ | EvPrint _ => true
  | _ => false
  end.

(** The conditions that a database call carries. *)
Definition call_conditions (ev : event) : option (gmap string pyval) :=
  match ev with
  | EvFetchDatabank c | EvLoadDatabank _ c => Some c
  | _ => None
  end.

(** The databanks that are downloaded: one of the four names, or a tuple
    that starts with "exomol". *)
Definition fetched_databank (db : pyval) : Prop :=
  db = PyStr "fetch" \/ db = PyStr "hitran" \/ db = PyStr "hitemp"
  \/ db = PyStr "exomol"
  \/ exists rest, db = PyTuple (PyStr "exomol" :: rest).

(** The same request on another databank. *)
Definition set_databank (a : calc_args) (db : pyval) : calc_args :=
  {| wavenum_min := wavenum_min a; wavenum_max := wavenum_max a;
     wavelength_min := wavelength_min a; wavelength_max := wavelength_max a;
     Tgas := Tgas a; Tvib := Tvib a; Trot := Trot a;
     pressure := pressure a; overpopulation := overpopulation a;
     molecule := molecule a; isotope := isotope a;
     mole_fraction := mole_fraction a; path_length := path_length a;
     databank := db; medium := medium a; wstep := wstep a;
     broadening_max_width := broadening_max_width a; cutoff := cutoff a;
     parsum_mode := parsum_mode a; optimization := optimization a;
     name := name a; use_cached := use_cached a; verbose := verbose a;
     mode := mode a; export_lines := export_lines a; kwargs := kwargs a |}.

(** The temperature and databank checks of lines 530-540 all pass. *)
Definition conditions_given (a : calc_args) : Prop :=
  ~ (Tgas a = None /\ Trot a = None)
  /\ (Tvib a = None <-> Trot a = None)
  /\ databank a <> PyNone.

(** What one molecule receives from an argument: its own entry when the
    argument is a dictionary, the argument itself otherwise. *)
Definition value_for (argument : pyval) (mol : key) : pyval :=
  match argument with
  | PyDict d => default PyNone (d !! mol)
  | _ => argument
  end.

(** The entry of one molecule in the master dictionary after lines
    383-397. *)
Definition entry_of (a : calc_args) (mol : key) : gmap string pyval :=
  <["databank" := value_for (databank a) mol]>
    (<["mole_fraction" := value_for (mole_fraction a) mol]>
       (<["isotope" := value_for (isotope a) mol]> ∅)).

(** The same request for one molecule. *)
Definition set_molecule (a : calc_args) (mol : pyval) : calc_args :=
  {| wavenum_min := wavenum_min a; wavenum_max := wavenum_max a;
     wavelength_min := wavelength_min a; wavelength_max := wavelength_max a;
     Tgas := Tgas a; Tvib := Tvib a; Trot := Trot a;
     pressure := pressure a; overpopulation := overpopulation a;
     molecule := mol; isotope := isotope a;
     mole_fraction := mole_fraction a; path_length := path_length a;
     databank := databank a; medium := medium a; wstep := wstep a;
     broadening_max_width := broadening_max_width a; cutoff := cutoff a;
     parsum_mode := parsum_mode a; optimization := optimization a;
     name := name a; use_cached := use_cached a; verbose := verbose a;
     mode := mode a; export_lines := export_lines a; kwargs := kwargs a |}.

(** What one molecule receives as [overpopulation]: the argument itself,
    unless it is a dictionary whose keys are all molecules of the
    request, in which case the molecule's own entry. *)
Definition overpopulation_for (r : molecule_set) (a : calc_args) (mol : key)
  : pyval :=
  match overpopulation a with
  | PyDict d =>
      if bool_decide (dom d ⊆ as_set r) then default PyNone (d !! mol)
      else overpopulation a
  | _ => overpopulation a
  end.

(** The request that is made for one molecule. *)
Definition request_for (r : molecule_set) (a : calc_args) (mol : key)
  : calc_args :=
  {| wavenum_min := wavenum_min a; wavenum_max := wavenum_max a;
     wavelength_min := wavelength_min a; wavelength_max := wavelength_max a;
     Tgas := Tgas a; Tvib := Tvib a; Trot := Trot a;
     pressure := pressure a; overpopulation := overpopulation_for r a mol;
     molecule := key_val mol; isotope := value_for (isotope a) mol;
     mole_fraction := value_for (mole_fraction a) mol;
     path_length := path_length a;
     databank := value_for (databank a) mol; medium := medium a;
     wstep := wstep a;
     broadening_max_width := broadening_max_width a; cutoff := cutoff a;
     parsum_mode := parsum_mode a; optimization := optimization a;
     name := name a; use_cached := use_cached a; verbose := verbose a;
     mode := mode a; export_lines := export_lines a; kwargs := kwargs a |}.

(** The elements of a list, each once, in the order of their first
    occurrence. *)
Fixpoint distinct (l : list key) : list key :=
  match l with
  | [] => []
  | x :: rest => x :: filter (fun y => y <> x) (distinct rest)
  end.

(** One spectrum per request, in turn; the first failure stops the
    run. *)
Fixpoint spectra_of (requests : list calc_args) : M (list Spectrum) :=
  match requests with
  | [] => mret []
  | q :: rest =>
      s ← _calc_spectrum q;
      s_list ← spectra_of rest;
      mret (s :: s_list)
  end.

(** Merge the spectra and store the result when a path is given. *)
Definition merged (save_to : pyval) (spectra : M (list Spectrum))
  : M Spectrum :=
  s_list ← spectra;
  s ← call (EvMergeSlabs (length s_list)) (MergeSlabs s_list);
  _ ← (if truthy save_to then call (EvStore save_to) (store s save_to)
       else mret tt);
  mret s.

(** The four arguments that [calc_spectrum] names itself cannot arrive
    through [**kwargs]. *)
Definition named_apart (kw : gmap string pyval) : Prop :=
  kw !! "overpopulation" = None /\ kw !! "isotope" = None
  /\ kw !! "mole_fraction" = None /\ kw !! "databank" = None.

(** The master dictionary while [argument_name] is being filled in: the
    entries of the molecules in [seen] carry it already. *)
Definition entries_with (argument_name : string) (h : key -> pyval)
    (g : key -> gmap string pyval) (seen : list key) (m : key)
  : gmap string pyval :=
  if decide (m ∈ seen) then <[argument_name := h m]> (g m) else g m.

(** [MergeSlabs] and [store] *)
Definition is_assembly (ev : event) : bool :=
  match ev with
  | EvMergeSlabs _ | EvStore _ => true
  | _ => false
  end.

(** How many synthesis routines were called. *)
Definition syntheses (t : list event) : nat :=
  length (List.filter is_synthesis t).

End MoreVocabulary.

(** ** More requests *)

Module OnDisk.

(** As [Offline.world], but every path exists on disk. *)
Definition disk_world : Collaborators :=
  {| Factory := unit;
     Spectrum := string;
     SpectrumFactory := fun _ => ok tt;
     fetch_databank := fun _ _ => ok tt;
     load_databank := fun _ _ _ => ok tt;
     export_rovib_fraction := fun sf => sf;
     eq_spectrum := fun _ _ => ok "eq_spectrum";
     eq_spectrum_gpu := fun _ _ => ok "eq_spectrum_gpu";
     non_eq_spectrum := fun _ _ => ok "non_eq_spectrum";
     path_exists := fun _ => ok true;
     nm2cm := @nm2cm Offline.world;
     air2vacuum := @air2vacuum Offline.world;
     MergeSlabs := @MergeSlabs Offline.world;
     store := fun _ _ => ok tt;
     set_iteration := elements;
     set_iteration_elements := fun s => Permutation_refl (elements s) |}.

End OnDisk.

Module Requests.

Definition with_kwargs (a : calc_args) (kw : gmap string pyval) : calc_args :=
  {| wavenum_min := wavenum_min a; wavenum_max := wavenum_max a;
     wavelength_min := wavelength_min a; wavelength_max := wavelength_max a;
     Tgas := Tgas a; Tvib := Tvib a; Trot := Trot a;
     pressure := pressure a; overpopulation := overpopulation a;
     molecule := molecule a; isotope := isotope a;
     mole_fraction := mole_fraction a; path_length := path_length a;
     databank := databank a; medium := medium a; wstep := wstep a;
     broadening_max_width := broadening_max_width a; cutoff := cutoff a;
     parsum_mode := parsum_mode a; optimization := optimization a;
     name := name a; use_cached := use_cached a; verbose := verbose a;
     mode := mode a; export_lines := export_lines a; kwargs := kw |}.

Definition with_overpopulation (a : calc_args) (ov : pyval) : calc_args :=
  {| wavenum_min := wavenum_min a; wavenum_max := wavenum_max a;
     wavelength_min := wavelength_min a; wavelength_max := wavelength_max a;
     Tgas := Tgas a; Tvib := Tvib a; Trot := Trot a;
     pressure := pressure a; overpopulation := ov;
     molecule := molecule a; isotope := isotope a;
     mole_fraction := mole_fraction a; path_length := path_length a;
     databank := databank a; medium := medium a; wstep := wstep a;
     broadening_max_width := broadening_max_width a; cutoff := cutoff a;
     parsum_mode := parsum_mode a; optimization := optimization a;
     name := name a; use_cached := use_cached a; verbose := verbose a;
     mode := mode a; export_lines := export_lines a; kwargs := kwargs a |}.


(** [databank="fetch"] *)
Definition fetch : calc_args := set_databank Offline.defaults (PyStr "fetch").

(** [databank=("exomol", "EBJT")] *)
Definition exomol_EBJT : calc_args :=
  set_databank Offline.defaults (PyTuple [PyStr "exomol"; PyStr "EBJT"]).

(** A HITRAN-format file. *)
Definition par_file : calc_args :=
  set_databank Offline.defaults (PyStr "CO.par").

(** A file whose name tells nothing about its format. *)
Definition txt_file : calc_args :=
  set_databank Offline.defaults (PyStr "CO.txt").

(** [save_memory="yes"] *)
Definition save_memory_yes : calc_args :=
  with_kwargs Offline.defaults (<["save_memory" := PyStr "yes"]> ∅).

(** [molecule=["CO", "CO2"]] *)
Definition CO_and_CO2 : option molecule_arg :=
  Some (Molecules [KStr "CO"; KStr "CO2"]).

(** [isotope={"CO": "1,2", "CO2": "1"}] *)
Definition isotopes_of_both : gmap key pyval :=
  <[KStr "CO" := PyStr "1,2"]> (<[KStr "CO2" := PyStr "1"]> ∅).

Definition isotopes_by_molecule : calc_args :=
  Offline.with_dicts Offline.defaults (PyDict isotopes_of_both)
    (PyInt 1) (PyStr "hitran").

(** [overpopulation={}] *)
Definition overpopulation_empty : calc_args :=
  with_overpopulation Offline.defaults (PyDict ∅).

End Requests.
(** ** Facts about [_calc_spectrum] *)

Section CalcFacts.
Context `{C : Collaborators}.

Lemma bind_eq {A B} (m : M A) (k : A -> M B) : (m ≫= k) = M_bind m k.
Proof. reflexivity. Qed.

Lemma bind_lift_ok {A B} (x : A) (k : A -> M B) : (lift (inr x) ≫= k) = k x.
Proof. rewrite bind_eq. unfold M_bind, lift, trace, outcome. simpl. by destruct (k x). Qed.

Lemma bind_lift_err {A B} (e : exn) (k : A -> M B) :
  (lift (inl e) ≫= k) = ([], inl e).
Proof. reflexivity. Qed.

Lemma trace_bind {A B} (m : M A) (k : A -> M B) :
  trace (m ≫= k)
  = trace m ++ match outcome m with inl _ => [] | inr x => trace (k x) end.
Proof.
  rewrite bind_eq. destruct m as [t [e | x]]; simpl.
  - by rewrite app_nil_r.
  - reflexivity.
Qed.

Lemma outcome_bind {A B} (m : M A) (k : A -> M B) :
  outcome (m ≫= k)
  = match outcome m with inl e => inl e | inr x => outcome (k x) end.
Proof. rewrite bind_eq. by destruct m as [t [e | x]]. Qed.

(** The first check of [_calc_spectrum] (lines 507-510). *)
Lemma wavenum_range_contradictory (a : calc_args) :
  (is_Some (wavelength_min a) \/ is_Some (wavelength_max a)) ->
  (is_Some (wavenum_min a) \/ is_Some (wavenum_max a)) ->
  wavenum_range a = inl ValueError.
Proof.
  intros Hwl Hwn. unfold wavenum_range.
  assert (negb (opt_none (wavelength_min a)) || negb (opt_none (wavelength_max a)) = true) as ->.
  { destruct Hwl as [[x ->] | [x ->]]; simpl; [done | apply orb_true_r]. }
  assert (negb (opt_none (wavenum_min a)) || negb (opt_none (wavenum_max a)) = true) as ->.
  { destruct Hwn as [[x ->] | [x ->]]; simpl; [done | apply orb_true_r]. }
  reflexivity.
Qed.

(** An exception of the range checks leaves [_calc_spectrum] at once. *)
Lemma calc_spectrum_stops_at_range (a : calc_args) (e : exn) :
  wavenum_range a = inl e -> _calc_spectrum a = ([], inl e).
Proof. intros H. unfold _calc_spectrum, prepare. by rewrite H. Qed.

(** C2. Fail-fast on contradictory range input: when at least one
    wavelength bound and at least one wavenumber bound are given,
    [_calc_spectrum] raises [ValueError] and its trace is empty: no
    factory was constructed, no database was loaded and no synthesis was
    started. *)
Theorem contradictory_range_fails_fast (a : calc_args) :
  (is_Some (wavelength_min a) \/ is_Some (wavelength_max a)) ->
  (is_Some (wavenum_min a) \/ is_Some (wavenum_max a)) ->
  _calc_spectrum a = ([], inl ValueError).
Proof.
  intros Hwl Hwn. apply calc_spectrum_stops_at_range.
  by apply wavenum_range_contradictory.
Qed.

End CalcFacts.

(** The docstring example, and its variants, in the offline world. *)
Example default_request_runs :
  outcome (@_calc_spectrum Offline.world Offline.defaults) = inr "eq_spectrum"
  /\ List.map is_synthesis (trace (@_calc_spectrum Offline.world Offline.defaults))
     = [false; false; true].
Proof. split; vm_compute; reflexivity. Qed.

Example default_request_on_gpu :
  outcome (@_calc_spectrum Offline.world
             (Offline.with_mode Offline.defaults "gpu"))
  = inr "eq_spectrum_gpu".
Proof. vm_compute. reflexivity. Qed.

Example two_temperatures_run :
  outcome (@_calc_spectrum Offline.world Offline.two_temperatures)
  = inr "non_eq_spectrum".
Proof. vm_compute. reflexivity. Qed.

Example two_molecules_inconsistent :
  @calc_spectrum Offline.world (Some (Molecules [KStr "CO"; KStr "CO2"]))
    PyNone Offline.isotopes_of_CO_only
  = ([], inl ValueError).
Proof. vm_compute. reflexivity. Qed.

Lemma contradictory_range_fails_fast_witness :
  let a := Offline.both_units in
  (is_Some (wavelength_min a) \/ is_Some (wavelength_max a))
  /\ (is_Some (wavenum_min a) \/ is_Some (wavenum_max a))
  /\ @_calc_spectrum Offline.world a = ([], inl ValueError).
Proof.
  intros a.
  assert (H1 : is_Some (wavelength_min a) \/ is_Some (wavelength_max a))
    by (left; eexists; reflexivity).
  assert (H2 : is_Some (wavenum_min a) \/ is_Some (wavenum_max a))
    by (left; eexists; reflexivity).
  split; [exact H1 | split; [exact H2 |]].
  exact (@contradictory_range_fails_fast Offline.world a H1 H2).
Defined.

Section TraceFacts.
Context `{C : Collaborators}.

Lemma Forall_trace_bind {A B} (P : event -> Prop) (m : M A) (k : A -> M B) :
  Forall P (trace m) -> (forall x, Forall P (trace (k x))) ->
  Forall P (trace (m ≫= k)).
Proof.
  intros Hm Hk. rewrite trace_bind. apply Forall_app. split; [exact Hm |].
  destruct (outcome m); [constructor | apply Hk].
Qed.

Ltac trace_steps :=
  repeat match goal with
    | |- Forall _ (trace (_ ≫= _)) => apply Forall_trace_bind; [| intros ?]
    | |- Forall _ (trace (if ?b then _ else _)) => destruct b
    | |- Forall _ (trace (lift _)) => constructor
    | |- Forall _ (trace (mret _)) => constructor
    | |- Forall _ (trace (raise _)) => constructor
    | |- Forall _ (trace (emit _)) => constructor; [reflexivity | constructor]
    | |- Forall _ (trace (call _ _)) => constructor; [reflexivity | constructor]
    end.

Lemma print_if_trace v msg :
  Forall (fun ev => is_loading ev = true) (trace (print_if v msg)).
Proof. unfold print_if. trace_steps. Qed.

Lemma file_conditions_trace a e dc :
  Forall (fun ev => is_loading ev = true) (trace (file_conditions a e dc)).
Proof.
  unfold file_conditions. cbv zeta. trace_steps; apply print_if_trace.
Qed.

Lemma load_lines_trace a e dc sf :
  Forall (fun ev => is_loading ev = true) (trace (load_lines a e dc sf)).
Proof.
  unfold load_lines. cbv zeta. trace_steps. apply file_conditions_trace.
Qed.

(** What [prepare] has done when it stops: either nothing at all, or the
    factory was built on the resolved range and only loading calls
    followed. *)
Lemma prepare_shape (a : calc_args) :
  (exists e, prepare a = ([], inl e))
  \/ (exists wn kw tl,
        wavenum_range a = inr wn
        /\ check_conditions a = inr kw
        /\ trace (prepare a) = EvSpectrumFactory (factory_args_of a wn kw) :: tl
        /\ Forall (fun ev => is_loading ev = true) tl
        /\ (forall p, outcome (prepare a) = inr p ->
              fst p = _is_at_equilibrium a kw)).
Proof.
  unfold prepare.
  destruct (wavenum_range a) as [e | wn]; [left; by exists e |].
  rewrite bind_lift_ok.
  destruct (check_conditions a) as [e | kw]; [left; by exists e |].
  rewrite bind_lift_ok.
  destruct (drop_columns_for kw (_is_at_equilibrium a kw)) as [e | dc];
    [left; by exists e |].
  rewrite bind_lift_ok.
  right. exists wn, kw.
  rewrite trace_bind, outcome_bind. simpl.
  destruct (SpectrumFactory (factory_args_of a wn kw)) as [e | sf]; simpl.
  - exists []. repeat split; auto. intros p Hp. discriminate.
  - rewrite trace_bind, outcome_bind.
    pose proof (load_lines_trace a (_is_at_equilibrium a kw) dc sf) as Hl.
    destruct (outcome (load_lines a (_is_at_equilibrium a kw) dc sf)) as [e | sf'];
      simpl; eexists; repeat split; eauto.
    + by rewrite app_nil_r.
    + intros p Hp. discriminate.
    + by rewrite app_nil_r.
    + intros p Hp. by inversion Hp.
Qed.

Lemma calc_spectrum_prepared (a : calc_args) tr p :
  prepare a = (tr, inr p) ->
  _calc_spectrum a
  = (tr ++ trace (synthesize a (fst p) (snd p)),
     outcome (synthesize a (fst p) (snd p))).
Proof. intros H. unfold _calc_spectrum. by rewrite bind_eq, H. Qed.

Lemma calc_spectrum_not_prepared (a : calc_args) tr e :
  prepare a = (tr, inl e) -> _calc_spectrum a = (tr, inl e).
Proof. intros H. unfold _calc_spectrum. by rewrite bind_eq, H. Qed.

Lemma temperature_test (t tgas : option Q) :
  opt_none t || temp_eq t tgas = true
  <-> t = None \/ same_temperature t tgas.
Proof.
  destruct t as [x |], tgas as [y |]; simpl; split; intros H; auto.
  - right. by apply Qeq_bool_iff.
  - destruct H as [H | H]; [discriminate | by apply Qeq_bool_iff].
  - discriminate.
  - destruct H as [H | H]; [discriminate | contradiction].
Qed.

Lemma check_conditions_self_absorption (a : calc_args) kw :
  check_conditions a = inr kw ->
  kw !! "self_absorption" = kwargs a !! "self_absorption".
Proof.
  unfold check_conditions.
  destruct (opt_none (Tgas a) && opt_none (Trot a)); [discriminate |].
  destruct (opt_none (Tvib a) && negb (opt_none (Trot a))
            || negb (opt_none (Tvib a)) && opt_none (Trot a)); [discriminate |].
  destruct (is_none (databank a)); [discriminate |].
  destruct (kwargs a !! "save_memory") eqn:Hsm.
  - destruct (kwargs a !! "chunksize"); [discriminate |].
    intros H. by inversion H.
  - destruct (<["save_memory" := PyBool true]> (kwargs a) !! "chunksize");
      [discriminate |].
    intros H. inversion H. by rewrite lookup_insert_ne.
Qed.

(** [_is_at_equilibrium] decides the condition of the claim. *)
Lemma is_at_equilibrium_iff (a : calc_args) kw :
  check_conditions a = inr kw ->
  _is_at_equilibrium a kw = true <-> equilibrium_conditions a.
Proof.
  intros Hkw. unfold _is_at_equilibrium, equilibrium_conditions.
  rewrite (check_conditions_self_absorption a kw Hkw).
  rewrite <- !temperature_test.
  destruct (opt_none (Tvib a) || temp_eq (Tvib a) (Tgas a)); simpl;
    [| split; [discriminate | intros [H _]; discriminate]].
  destruct (opt_none (Trot a) || temp_eq (Trot a) (Tgas a)); simpl;
    [| split; [discriminate | intros (_ & H & _); discriminate]].
  destruct (overpopulation a) eqn:Hov; simpl;
    try (split; [discriminate | intros (_ & _ & H & _); discriminate]).
  destruct (kwargs a !! "self_absorption") as [v |]; split.
  - intros Hv. repeat split; auto. intros v' Hv'. by inversion Hv'; subst.
  - intros (_ & _ & _ & H). by apply H.
  - intros _. repeat split; auto. intros v' Hv'. discriminate.
  - done.
Qed.

Lemma prepare_flag (a : calc_args) tr e sf :
  prepare a = (tr, inr (e, sf)) ->
  e = true <-> equilibrium_conditions a.
Proof.
  intros Hp. destruct (prepare_shape a) as [[x Hx] | (wn & kw & tl & _ & Hkw & _ & _ & Hflag)].
  - rewrite Hp in Hx. discriminate.
  - specialize (Hflag (e, sf)). rewrite Hp in Hflag. simpl in Hflag.
    rewrite (Hflag eq_refl). by apply is_at_equilibrium_iff.
Qed.

End TraceFacts.

Section Dispatch.
Context `{C : Collaborators}.

Lemma synthesize_trace (a : calc_args) e sf :
  trace (synthesize a e sf) = []
  \/ (e = true /\ mode a = "cpu"
      /\ trace (synthesize a e sf) = [EvEqSpectrum (eq_args_of a)])
  \/ (e = true /\ mode a = "gpu"
      /\ trace (synthesize a e sf) = [EvEqSpectrumGpu (eq_gpu_args_of a)])
  \/ (e = false /\ mode a = "cpu"
      /\ trace (synthesize a e sf) = [EvNonEqSpectrum (non_eq_args_of a)]).
Proof.
  unfold synthesize. destruct e.
  - destruct (String.eqb_spec (mode a) "cpu"); [right; left; auto |].
    destruct (String.eqb_spec (mode a) "gpu"); [right; right; left; auto |].
    by left.
  - destruct (String.eqb_spec (mode a) "cpu"); simpl; [| by left].
    right; right; right; auto.
Qed.

(** Every synthesis call in the trace of [_calc_spectrum] is the one
    chosen by [synthesize] under the flag computed by [prepare]. *)
Lemma synthesis_events (a : calc_args) (ev : event) :
  In ev (trace (_calc_spectrum a)) -> is_synthesis ev = true ->
  exists tr e sf,
    prepare a = (tr, inr (e, sf)) /\ In ev (trace (synthesize a e sf)).
Proof.
  intros Hin Hsyn.
  destruct (prepare a) as [tr [x | [e sf]]] eqn:Hp.
  - rewrite (calc_spectrum_not_prepared a tr x Hp) in Hin. simpl in Hin.
    destruct (prepare_shape a) as [[x' Hx] | (wn & kw & tl & _ & _ & Htr & Hl & _)].
    + rewrite Hp in Hx. inversion Hx; subst. contradiction.
    + rewrite Hp in Htr. simpl in Htr. subst tr.
      destruct Hin as [<- | Hin]; [discriminate |].
      rewrite Forall_forall in Hl. specialize (Hl ev).
      rewrite list_elem_of_In in Hl. specialize (Hl Hin).
      destruct ev; discriminate.
  - exists tr, e, sf. split; [done |].
    rewrite (calc_spectrum_prepared a tr (e, sf) Hp) in Hin. simpl in Hin.
    apply in_app_or in Hin. destruct Hin as [Hin | Hin]; [| done].
    destruct (prepare_shape a) as [[x' Hx] | (wn & kw & tl & _ & _ & Htr & Hl & _)].
    + rewrite Hp in Hx. discriminate.
    + rewrite Hp in Htr. simpl in Htr. subst tr.
      destruct Hin as [<- | Hin]; [discriminate |].
      rewrite Forall_forall in Hl. specialize (Hl ev).
      rewrite list_elem_of_In in Hl. specialize (Hl Hin).
      destruct ev; discriminate.
Qed.

(** C3, amended. Equilibrium dispatch.  For a call that gets past the
    input checks and the loading of the database ([prepare] returns a
    factory): under the equilibrium conditions the equilibrium routine
    of the requested mode is invoked ([eq_spectrum] on "cpu",
    [eq_spectrum_gpu] on "gpu", [ValueError] for any other mode);
    otherwise [non_eq_spectrum] is invoked on "cpu" and
    [NotImplementedError] is raised for any other mode.  For every call,
    an equilibrium routine in the trace implies the equilibrium
    conditions and carries [Tgas]; a non-equilibrium call in the trace
    implies that the conditions fail and carries [Tvib], [Trot] and
    [Ttrans = Tgas]. *)
Theorem equilibrium_dispatch (a : calc_args) :
  (forall tr e sf, prepare a = (tr, inr (e, sf)) ->
     (equilibrium_conditions a ->
        (mode a = "cpu" ->
           _calc_spectrum a
           = (tr ++ [EvEqSpectrum (eq_args_of a)],
              eq_spectrum sf (eq_args_of a)))
        /\ (mode a = "gpu" ->
           _calc_spectrum a
           = (tr ++ [EvEqSpectrumGpu (eq_gpu_args_of a)],
              eq_spectrum_gpu sf (eq_gpu_args_of a)))
        /\ (mode a <> "cpu" -> mode a <> "gpu" ->
           _calc_spectrum a = (tr, inl ValueError)))
     /\ (~ equilibrium_conditions a ->
        (mode a = "cpu" ->
           _calc_spectrum a
           = (tr ++ [EvNonEqSpectrum (non_eq_args_of a)],
              non_eq_spectrum sf (non_eq_args_of a)))
        /\ (mode a <> "cpu" ->
           _calc_spectrum a = (tr, inl NotImplementedError))))
  /\ (forall ev, In ev (trace (_calc_spectrum a)) ->
        (forall x, ev = EvEqSpectrum x ->
           equilibrium_conditions a /\ eq_Tgas x = Tgas a)
        /\ (forall x, ev = EvEqSpectrumGpu x ->
           equilibrium_conditions a /\ gpu_Tgas x = Tgas a)
        /\ (forall x, ev = EvNonEqSpectrum x ->
           ~ equilibrium_conditions a
           /\ ne_Tvib x = Tvib a /\ ne_Trot x = Trot a /\ ne_Ttrans x = Tgas a)).
Proof.
  split.
  - intros tr e sf Hp.
    pose proof (prepare_flag a tr e sf Hp) as Hflag.
    rewrite (calc_spectrum_prepared a tr (e, sf) Hp). simpl.
    split.
    + intros Heq. apply Hflag in Heq. subst e. unfold synthesize.
      repeat split.
      * intros ->. reflexivity.
      * intros ->. reflexivity.
      * intros H1 H2.
        destruct (String.eqb_spec (mode a) "cpu"); [contradiction |].
        destruct (String.eqb_spec (mode a) "gpu"); [contradiction |].
        simpl. by rewrite app_nil_r.
    + intros Hne.
      assert (e = false) as ->.
      { destruct e; [| done]. exfalso. apply Hne. by apply Hflag. }
      unfold synthesize. split.
      * intros ->. reflexivity.
      * intros H1. destruct (String.eqb_spec (mode a) "cpu"); [contradiction |].
        simpl. by rewrite app_nil_r.
  - intros ev Hin.
    assert (Hcases : is_synthesis ev = true ->
              exists tr e sf, prepare a = (tr, inr (e, sf))
                /\ In ev (trace (synthesize a e sf)))
      by (apply synthesis_events; exact Hin).
    split; [| split]; intros x ->;
      destruct (Hcases eq_refl) as (tr & e & sf & Hp & Hev);
      pose proof (prepare_flag a tr e sf Hp) as Hflag;
      destruct (synthesize_trace a e sf)
        as [Ht | [(He & _ & Ht) | [(He & _ & Ht) | (He & _ & Ht)]]];
      rewrite Ht in Hev; simpl in Hev;
      try contradiction;
      destruct Hev as [Hev | []]; try discriminate;
      inversion Hev; subst; simpl.
    + split; [by apply Hflag | done].
    + split; [by apply Hflag | done].
    + split; [| done]. intros Heq. apply Hflag in Heq. discriminate.
Qed.

(** C8, amended. Non-equilibrium conditions with a mode other than
    "cpu": no spectrum is returned and no synthesis routine is invoked,
    whatever happens before; and when the input checks and the loading
    of the database succeed, the exception is [NotImplementedError]. *)
Theorem non_equilibrium_off_cpu_rejected (a : calc_args) :
  ~ equilibrium_conditions a -> mode a <> "cpu" ->
  (exists e, outcome (_calc_spectrum a) = inl e)
  /\ Forall (fun ev => is_synthesis ev = false) (trace (_calc_spectrum a))
  /\ (forall tr p, prepare a = (tr, inr p) ->
        _calc_spectrum a = (tr, inl NotImplementedError)).
Proof.
  intros Hne Hmode.
  assert (Hsyn : forall tr e sf, prepare a = (tr, inr (e, sf)) ->
            synthesize a e sf = ([], inl NotImplementedError)).
  { intros tr e sf Hp. pose proof (prepare_flag a tr e sf Hp) as Hflag.
    assert (e = false) as ->.
    { destruct e; [| done]. exfalso. apply Hne. by apply Hflag. }
    unfold synthesize.
    by destruct (String.eqb_spec (mode a) "cpu"); [contradiction |]. }
  repeat split.
  - destruct (prepare a) as [tr [x | [e sf]]] eqn:Hp.
    + exists x. by rewrite (calc_spectrum_not_prepared a tr x Hp).
    + exists NotImplementedError.
      rewrite (calc_spectrum_prepared a tr (e, sf) Hp). simpl.
      by rewrite (Hsyn tr e sf eq_refl).
  - apply Forall_forall. intros ev Hin. apply list_elem_of_In in Hin.
    destruct (is_synthesis ev) eqn:Hev; [| done].
    destruct (synthesis_events a ev Hin Hev) as (tr & e & sf & Hp & Hin').
    rewrite (Hsyn tr e sf Hp) in Hin'. contradiction.
  - intros tr [e sf] Hp.
    rewrite (calc_spectrum_prepared a tr (e, sf) Hp). simpl.
    rewrite (Hsyn tr e sf Hp). simpl. by rewrite app_nil_r.
Qed.

End Dispatch.

Section Range.
Context `{C : Collaborators}.



End Range.




Lemma not_at_equilibrium_two_temperatures (m : string) :
  ~ @equilibrium_conditions
      (Offline.with_mode Offline.two_temperatures m).
Proof.
  intros ([H | H] & _); [discriminate |]. vm_compute in H. discriminate.
Qed.

Lemma equilibrium_dispatch_counterexample :
  ~ @dispatch_as_stated Offline.world Offline.two_temperatures_gpu.
Proof.
  intros [_ H].
  specialize (H (not_at_equilibrium_two_temperatures "gpu")).
  vm_compute in H. destruct H as [H | [H | []]]; discriminate.
Qed.

Lemma equilibrium_dispatch_witness :
  @prepare Offline.world Offline.two_temperatures
  = (trace (@prepare Offline.world Offline.two_temperatures), inr (false, tt))
  /\ @_calc_spectrum Offline.world Offline.two_temperatures
     = (trace (@prepare Offline.world Offline.two_temperatures)
          ++ [EvNonEqSpectrum
                {| ne_Tvib := Some 2000%Q; ne_Trot := Some 2000%Q;
                   ne_Ttrans := Some 300%Q; ne_overpopulation := PyNone;
                   ne_mole_fraction := PyInt 1; ne_path_length := PyInt 1;
                   ne_name := PyNone |}],
        inr "non_eq_spectrum").
Proof.
  assert (Hp : @prepare Offline.world Offline.two_temperatures
               = (trace (@prepare Offline.world Offline.two_temperatures),
                  inr (false, tt))) by (vm_compute; reflexivity).
  split; [exact Hp |].
  destruct (@equilibrium_dispatch Offline.world Offline.two_temperatures) as [H _].
  destruct (H _ false tt Hp) as [_ Hne].
  destruct (Hne (not_at_equilibrium_two_temperatures "cpu")) as [Hcpu _].
  exact (Hcpu eq_refl).
Defined.

Lemma non_equilibrium_off_cpu_rejected_counterexample :
  ~ @rejection_as_stated Offline.world Offline.tvib_only_gpu.
Proof.
  intros H.
  assert (Hne : ~ @equilibrium_conditions Offline.tvib_only_gpu).
  { intros ([H' | H'] & _); [discriminate |]. vm_compute in H'. discriminate. }
  assert (Hmode : mode Offline.tvib_only_gpu <> "cpu") by discriminate.
  specialize (H Hne Hmode). vm_compute in H. discriminate.
Qed.

Lemma non_equilibrium_off_cpu_rejected_witness :
  mode Offline.two_temperatures_gpu <> "cpu"
  /\ (exists e, outcome (@_calc_spectrum Offline.world Offline.two_temperatures_gpu) = inl e)
  /\ @_calc_spectrum Offline.world Offline.two_temperatures_gpu
     = (trace (@prepare Offline.world Offline.two_temperatures_gpu),
        inl NotImplementedError).
Proof.
  assert (Hmode : mode Offline.two_temperatures_gpu <> "cpu") by discriminate.
  destruct (@non_equilibrium_off_cpu_rejected Offline.world
              Offline.two_temperatures_gpu
              (not_at_equilibrium_two_temperatures "gpu") Hmode)
    as (Herr & _ & Hraise).
  split; [exact Hmode |]. split; [exact Herr |].
  apply (Hraise _ (false, tt)). vm_compute. reflexivity.
Defined.

Section Molecules.
Context `{C : Collaborators}.

Lemma check_differs established reference_name argument argument_name :
  keys_differ established argument ->
  _check_molecules_are_consistent established reference_name argument argument_name
  = inl ValueError.
Proof.
  intros (d & r & -> & -> & Hne). simpl.
  by rewrite bool_decide_eq_true_2.
Qed.

Lemma check_agrees established reference_name argument argument_name :
  _check_molecules_are_consistent established reference_name argument argument_name
  = inl ValueError
  \/ exists n,
      _check_molecules_are_consistent established reference_name argument argument_name
      = inr (established_after established argument, n).
Proof.
  unfold _check_molecules_are_consistent, established_after.
  destruct argument; try (right; eexists; reflexivity).
  destruct established as [r |]; [| right; eexists; reflexivity].
  destruct (bool_decide (dom d <> as_set r)); [by left |].
  right; eexists; reflexivity.
Qed.

Lemma parse_inputs_cons argument_name argument rest established reference_name :
  parse_inputs ((argument_name, argument) :: rest) established reference_name
  = res_bind
      (_check_molecules_are_consistent established reference_name
         argument argument_name)
      (fun p => parse_inputs rest (fst p) (snd p)).
Proof. reflexivity. Qed.

Lemma parse_inputs_differ (a : calc_args) (molecule : option molecule_set) :
  let e0 := molecule in
  let e1 := established_after e0 (isotope a) in
  let e2 := established_after e1 (mole_fraction a) in
  keys_differ e0 (isotope a)
  \/ keys_differ e1 (mole_fraction a)
  \/ keys_differ e2 (databank a) ->
  parse_inputs (DICT_INPUT_ARGUMENTS a) molecule "molecule" = inl ValueError.
Proof.
  intros e0 e1 e2 H. subst e0 e1 e2. unfold DICT_INPUT_ARGUMENTS.
  rewrite parse_inputs_cons.
  destruct (check_agrees molecule "molecule" (isotope a) "isotope")
    as [Hc | [n1 Hc]]; rewrite Hc; [reflexivity |].
  destruct H as [H | H].
  { rewrite (check_differs _ "molecule" _ "isotope" H) in Hc. discriminate. }
  unfold res_bind. simpl fst. simpl snd. rewrite parse_inputs_cons.
  destruct (check_agrees (established_after molecule (isotope a)) n1
              (mole_fraction a) "mole_fraction")
    as [Hc' | [n2 Hc']]; rewrite Hc'; [reflexivity |].
  destruct H as [H | H].
  { rewrite (check_differs _ n1 _ "mole_fraction" H) in Hc'. discriminate. }
  unfold res_bind. simpl fst. simpl snd. rewrite parse_inputs_cons.
  by rewrite (check_differs _ n2 _ "databank" H).
Qed.

(** C9. Multi-molecule argument consistency: when one of [isotope],
    [mole_fraction], [databank] (read in this order) is a dictionary
    whose key set differs from the set of molecules established so far,
    by [molecule] or by an earlier dictionary, [calc_spectrum] raises
    [ValueError] with an empty trace: no spectrum was computed. *)
Theorem inconsistent_molecules_rejected
    (molecule : option molecule_arg) (save_to : pyval) (a : calc_args) :
  let e0 := initial_reference molecule in
  let e1 := established_after e0 (isotope a) in
  let e2 := established_after e1 (mole_fraction a) in
  keys_differ e0 (isotope a)
  \/ keys_differ e1 (mole_fraction a)
  \/ keys_differ e2 (databank a) ->
  calc_spectrum molecule save_to a = ([], inl ValueError).
Proof.
  intros e0 e1 e2 H. unfold calc_spectrum.
  by rewrite (parse_inputs_differ a (initial_reference molecule) H).
Qed.

End Molecules.

Lemma inconsistent_molecules_rejected_witness :
  keys_differ (initial_reference (Some (Molecules [KStr "CO"; KStr "CO2"])))
    (isotope Offline.isotopes_of_CO_only)
  /\ @calc_spectrum Offline.world (Some (Molecules [KStr "CO"; KStr "CO2"]))
       PyNone Offline.isotopes_of_CO_only
     = ([], inl ValueError).
Proof.
  assert (H : keys_differ
                (initial_reference (Some (Molecules [KStr "CO"; KStr "CO2"])))
                (isotope Offline.isotopes_of_CO_only)).
  { eexists _, _. split; [reflexivity |]. split; [reflexivity |].
    apply (bool_decide_eq_true_1 _). vm_compute. reflexivity. }
  split; [exact H |].
  apply (@inconsistent_molecules_rejected Offline.world). left. exact H.
Defined.

(** ** Facts about the synthesis core *)

Section RangeFilterFacts.
Import RangeFilter.
#[local] Open Scope Q_scope.

Lemma in_calculation_range_iff (wavenum_min wavenum_max broadening_max_width w : Q) :
  in_calculation_range wavenum_min wavenum_max broadening_max_width w = true
  <-> wavenum_min - broadening_max_width / 2 <= w
      /\ w <= wavenum_max + broadening_max_width / 2.
Proof.
  unfold in_calculation_range, margin.
  rewrite andb_true_iff, !Qle_bool_iff. reflexivity.
Qed.

Lemma included_lines_iff (wavenum_min wavenum_max broadening_max_width : Q)
    (lines : list line) (l : line) :
  In l (included_lines wavenum_min wavenum_max broadening_max_width lines)
  <-> In l lines
      /\ wavenum_min - broadening_max_width / 2 <= wavenumber l
      /\ wavenumber l <= wavenum_max + broadening_max_width / 2.
Proof.
  unfold included_lines. rewrite filter_In, in_calculation_range_iff.
  reflexivity.
Qed.

(** C4. Range-filter boundary: on a range with
    [wavenum_min <= wavenum_max] and a non-negative
    [broadening_max_width], a line centred exactly at
    [wavenum_min - broadening_max_width/2] is kept, a line strictly
    outside [[wavenum_min - broadening_max_width/2,
    wavenum_max + broadening_max_width/2]] is dropped; with
    [wavenum_min = 2000] and [broadening_max_width = 10], a line at
    1994.9 is dropped and a line at 1995.1 is kept. *)
Theorem range_filter_boundary (lines : list line)
    (wavenum_min wavenum_max broadening_max_width : Q) :
  wavenum_min <= wavenum_max -> 0 <= broadening_max_width ->
  let kept := included_lines wavenum_min wavenum_max broadening_max_width lines in
  (forall l, In l lines ->
     wavenumber l == wavenum_min - broadening_max_width / 2 -> In l kept)
  /\ (forall l,
        wavenumber l < wavenum_min - broadening_max_width / 2
        \/ wavenum_max + broadening_max_width / 2 < wavenumber l ->
        ~ In l kept)
  /\ (wavenum_min == 2000 -> broadening_max_width == 10 ->
      forall l, In l lines ->
        (wavenumber l == 1994.9 -> ~ In l kept)
        /\ (wavenumber l == 1995.1 -> In l kept)).
Proof.
  intros Hrange Hwidth kept. subst kept.
  assert (Hhalf : 0 <= broadening_max_width / 2)
    by (apply Qle_shift_div_l; [reflexivity | Lqa.lra]).
  split; [| split].
  - intros l Hl Hw. apply included_lines_iff. split; [exact Hl |].
    rewrite Hw. split; Lqa.lra.
  - intros l Hout Hin. apply included_lines_iff in Hin.
    destruct Hin as (_ & Hlo & Hhi). destruct Hout; Lqa.lra.
  - intros Hmin Hbmw l Hl. split.
    + intros Hw Hin. apply included_lines_iff in Hin.
      destruct Hin as (_ & Hlo & _). rewrite Hw, Hmin, Hbmw in Hlo.
      revert Hlo. apply Qlt_not_le. reflexivity.
    + intros Hw. apply included_lines_iff. split; [exact Hl |].
      rewrite Hw. split.
      * rewrite Hmin, Hbmw. discriminate.
      * rewrite Hmin in Hrange. Lqa.lra.
Qed.

End RangeFilterFacts.

Lemma range_filter_boundary_witness :
  let lines := [RangeFilter.Line 5 1 1995 1;
                RangeFilter.Line 5 1 1994.9 1;
                RangeFilter.Line 5 1 1995.1 1]%Q in
  (2000 <= 2300)%Q /\ (0 <= 10)%Q
  /\ In (RangeFilter.Line 5 1 1995 1) (RangeFilter.included_lines 2000 2300 10 lines)
  /\ ~ In (RangeFilter.Line 5 1 1994.9 1) (RangeFilter.included_lines 2000 2300 10 lines)
  /\ In (RangeFilter.Line 5 1 1995.1 1) (RangeFilter.included_lines 2000 2300 10 lines).
Proof.
  intros lines.
  assert (H1 : (2000 <= 2300)%Q) by discriminate.
  assert (H2 : (0 <= 10)%Q) by discriminate.
  destruct (range_filter_boundary lines 2000 2300 10 H1 H2) as (Hedge & _ & Hlit).
  split; [exact H1 | split; [exact H2 |]].
  split; [| split].
  - apply Hedge; [left; reflexivity | reflexivity].
  - apply (Hlit (Qeq_refl _) (Qeq_refl _) (RangeFilter.Line 5 1 1994.9 1)).
    + right; left; reflexivity.
    + reflexivity.
  - apply (Hlit (Qeq_refl _) (Qeq_refl _) (RangeFilter.Line 5 1 1995.1 1)).
    + right; right; left; reflexivity.
    + reflexivity.
Defined.

Section DopplerFacts.
Import Doppler.
#[local] Open Scope R_scope.

Lemma sqrt_double (x : R) : sqrt (2 * x) = sqrt 2 * sqrt x.
Proof.
  destruct (Rle_dec 0 x) as [Hx | Hx].
  - apply sqrt_mult; lra.
  - rewrite (sqrt_neg_0 x) by lra. rewrite (sqrt_neg_0 (2 * x)) by lra. ring.
Qed.

(** C5. Doppler-width temperature scaling: for a fixed line and every
    [T > 0], the width computed at [2 T] is [sqrt 2] times the width
    computed at [T] (when the mass is not positive both computations
    fail alike); the width is computed whenever the mass is positive. *)
Theorem doppler_width_doubling (k_B c wavenumber mass T : R) :
  0 < T ->
  gamma_gaussian k_B c wavenumber mass (2 * T)
  = scaled (sqrt 2) (gamma_gaussian k_B c wavenumber mass T)
  /\ (0 < mass ->
      exists g, gamma_gaussian k_B c wavenumber mass T = inr g
                /\ gamma_gaussian k_B c wavenumber mass (2 * T) = inr (sqrt 2 * g)).
Proof.
  intros HT.
  assert (Heq : gamma_gaussian k_B c wavenumber mass (2 * T)
                = scaled (sqrt 2) (gamma_gaussian k_B c wavenumber mass T)).
  { unfold gamma_gaussian, scaled.
    destruct (Rle_dec mass 0); [reflexivity |].
    destruct (Rle_dec T 0); [lra |].
    destruct (Rle_dec (2 * T) 0); [lra |].
    f_equal.
    replace (2 * ln 2 * k_B * (2 * T) / (mass * c ^ 2))
      with (2 * (2 * ln 2 * k_B * T / (mass * c ^ 2)))
      by (unfold Rdiv; ring).
    rewrite sqrt_double. ring. }
  split; [exact Heq |].
  intros Hm. rewrite Heq. unfold gamma_gaussian.
  destruct (Rle_dec mass 0); [lra |].
  destruct (Rle_dec T 0); [lra |].
  eexists. split; reflexivity.
Qed.

End DopplerFacts.

Lemma doppler_width_doubling_witness :
  (0 < 300)%R
  /\ Doppler.gamma_gaussian (1380649 / 10 ^ 29) 299792458 2000 44 (2 * 300)
     = Doppler.scaled (sqrt 2)
         (Doppler.gamma_gaussian (1380649 / 10 ^ 29) 299792458 2000 44 300).
Proof.
  assert (H : (0 < 300)%R) by lra.
  split; [exact H |].
  exact (proj1 (doppler_width_doubling (1380649 / 10 ^ 29) 299792458 2000 44 300 H)).
Defined.

Section TemplateBankFacts.
Import LDM.
#[local] Open Scope R_scope.

Variable min_rms_weight : R -> R -> R.

Lemma fold_Rmin_constant (v : R) (rest : list R) :
  (forall x, In x rest -> x = v) -> fold_left Rmin rest v = v.
Proof.
  induction rest as [| x rest IH]; intros Hall; simpl; [reflexivity |].
  rewrite (Hall x) by (by left).
  replace (Rmin v v) with v by (symmetry; apply Rmin_left; lra).
  apply IH. intros y Hy. apply Hall. by right.
Qed.

Lemma fold_Rmax_constant (v : R) (rest : list R) :
  (forall x, In x rest -> x = v) -> fold_left Rmax rest v = v.
Proof.
  induction rest as [| x rest IH]; intros Hall; simpl; [reflexivity |].
  rewrite (Hall x) by (by left).
  replace (Rmax v v) with v by (symmetry; apply Rmax_left; lra).
  apply IH. intros y Hy. apply Hall. by right.
Qed.

(** With fewer than two distinct values the axis has one template. *)
Lemma width_axis_degenerate (points_per_decade : nat) (v : R) (rest : list R) :
  (forall x, In x rest -> x = v) ->
  width_axis points_per_decade (v :: rest) = inr [v].
Proof.
  intros Hall. unfold width_axis.
  rewrite (fold_Rmin_constant v rest Hall), (fold_Rmax_constant v rest Hall).
  destruct (Req_EM_T v v) as [_ | Hne]; [reflexivity | contradiction].
Qed.

Lemma axis_weights_shape (mode : optimization_mode) (axis : list R) (x : R)
    (ws : list (nat * R)) :
  axis_weights min_rms_weight mode axis x = inr ws ->
  ws = [(0%nat, 1)] \/ exists i a, ws = [(i, 1 - a); (S i, a)].
Proof.
  unfold axis_weights. destruct axis as [| t0 [| t1 rest]].
  - discriminate.
  - intros H. inversion H. by left.
  - destruct (checked_div _ _) as [e | t]; [discriminate |].
    intros H. inversion H. right. eauto.
Qed.

(** The invariant of section 3, per unit of linestrength: whatever the
    mode, the corner weights of a line add up to one. *)
Lemma ldm_weights_total (mode : optimization_mode) (bank : template_bank)
    (widths : R * R) (ws : list ((nat * nat) * R)) :
  ldm_weights min_rms_weight mode bank widths = inr ws ->
  total_weight ws = 1.
Proof.
  unfold ldm_weights.
  destruct (axis_weights _ mode (gaussian_axis bank) _) as [e | wg] eqn:Hg;
    [discriminate |].
  destruct (axis_weights _ mode (lorentzian_axis bank) _) as [e | wl] eqn:Hl;
    [discriminate |].
  intros H. inversion H. subst ws. clear H.
  destruct (axis_weights_shape _ _ _ _ Hg) as [-> | (i & a & ->)];
    destruct (axis_weights_shape _ _ _ _ Hl) as [-> | (j & b & ->)];
    unfold total_weight; simpl; ring.
Qed.

(** C7. Degenerate template bank: for a non-empty line set with fewer
    than two distinct pairs of broadening widths (a single line in
    particular), [build_templates] succeeds with a bank of exactly one
    template, and the weights of every line are computed without error,
    in either mode: the line weighs exactly 1 on that template. *)
Theorem degenerate_template_bank (points_per_decade : nat)
    (mode : optimization_mode) (widths : list (R * R)) :
  widths <> [] ->
  (forall p q, In p widths -> In q widths -> p = q) ->
  exists bank,
    build_templates points_per_decade (List.map fst widths) (List.map snd widths)
    = inr bank
    /\ List.length (templates bank) = 1%nat
    /\ forall p, In p widths ->
         ldm_weights min_rms_weight mode bank p = inr [((0%nat, 0%nat), 1)].
Proof.
  intros Hne Hsame.
  destruct widths as [| [g0 l0] rest]; [contradiction |].
  assert (Hg : forall x, In x (List.map fst rest) -> x = g0).
  { intros x Hx. apply in_map_iff in Hx. destruct Hx as (p & <- & Hp).
    by rewrite (Hsame p (g0, l0)) by (simpl; auto). }
  assert (Hl : forall x, In x (List.map snd rest) -> x = l0).
  { intros x Hx. apply in_map_iff in Hx. destruct Hx as (p & <- & Hp).
    by rewrite (Hsame p (g0, l0)) by (simpl; auto). }
  exists {| gaussian_axis := [g0]; lorentzian_axis := [l0] |}.
  split; [| split].
  - unfold build_templates. simpl List.map.
    by rewrite (width_axis_degenerate _ g0 _ Hg), (width_axis_degenerate _ l0 _ Hl).
  - reflexivity.
  - intros p Hp. unfold ldm_weights. simpl.
    by rewrite Rmult_1_l.
Qed.

End TemplateBankFacts.

Lemma degenerate_template_bank_witness :
  exists bank,
    LDM.build_templates 4 [0.05%R] [0.07%R] = inr bank
    /\ List.length (LDM.templates bank) = 1%nat
    /\ LDM.ldm_weights (fun t _ => t) LDM.MinRMS bank (0.05%R, 0.07%R)
       = inr [((0%nat, 0%nat), 1%R)].
Proof.
  assert (Hne : [(0.05%R, 0.07%R)] <> []) by discriminate.
  assert (Hsame : forall p q : R * R,
             In p [(0.05%R, 0.07%R)] -> In q [(0.05%R, 0.07%R)] -> p = q).
  { intros p q [<- | []] [<- | []]. reflexivity. }
  destruct (degenerate_template_bank (fun t _ => t) 4 LDM.MinRMS
              [(0.05%R, 0.07%R)] Hne Hsame) as (bank & Hb & Hn & Hw).
  exists bank. split; [exact Hb | split; [exact Hn |]].
  apply Hw. left. reflexivity.
Defined.

(** ** The public entry point on a contradictory range *)

Section PublicEntry.
Context `{C : Collaborators}.

Lemma molecule_call_range (a a' : calc_args) mol dict_arguments :
  molecule_call a mol dict_arguments = inr a' ->
  wavenum_min a' = wavenum_min a /\ wavenum_max a' = wavenum_max a
  /\ wavelength_min a' = wavelength_min a
  /\ wavelength_max a' = wavelength_max a.
Proof.
  unfold molecule_call.
  destruct (required _ "overpopulation"); [discriminate |].
  destruct (required _ "isotope"); [discriminate |].
  destruct (required _ "mole_fraction"); [discriminate |].
  destruct (required _ "databank"); [discriminate |].
  intros H. inversion H. simpl. auto.
Qed.

(** With a contradictory range, the loop over the molecules stops at the
    first molecule, before any call to a collaborator. *)
Lemma calc_all_contradictory (a : calc_args) molecule_dict :
  (is_Some (wavelength_min a) \/ is_Some (wavelength_max a)) ->
  (is_Some (wavenum_min a) \/ is_Some (wavenum_max a)) ->
  match molecule_dict with
  | [] => calc_all a molecule_dict = ([], inr [])
  | _ :: _ => exists e, calc_all a molecule_dict = ([], inl e)
  end.
Proof.
  intros Hwl Hwn. destruct molecule_dict as [| [mol dict_arguments] rest];
    [reflexivity |].
  change (calc_all a ((mol, dict_arguments) :: rest))
    with (lift (molecule_call a mol dict_arguments) ≫= fun a' =>
          _calc_spectrum a' ≫= fun s =>
          calc_all a rest ≫= fun s_list => mret (s :: s_list)).
  destruct (molecule_call a mol dict_arguments) as [e | a'] eqn:Hcall.
  - exists e. reflexivity.
  - exists ValueError. rewrite bind_lift_ok.
    destruct (molecule_call_range a a' mol dict_arguments Hcall)
      as (H1 & H2 & H3 & H4).
    rewrite (calc_spectrum_stops_at_range a' ValueError); [reflexivity |].
    apply wavenum_range_contradictory.
    + by rewrite H3, H4.
    + by rewrite H1, H2.
Qed.

(** [calc_spectrum] on a contradictory range: no factory is built, no
    database is loaded and no spectrum is synthesized, whatever the
    other arguments are. *)
Lemma calc_spectrum_contradictory_range
    (molecule : option molecule_arg) (save_to : pyval) (a : calc_args) :
  (is_Some (wavelength_min a) \/ is_Some (wavelength_max a)) ->
  (is_Some (wavenum_min a) \/ is_Some (wavenum_max a)) ->
  Forall (fun ev => match ev with
                    | EvMergeSlabs 0 | EvStore _ => True
                    | _ => False
                    end)
         (trace (calc_spectrum molecule save_to a)).
Proof.
  intros Hwl Hwn. unfold calc_spectrum.
  destruct (parse_inputs _ _ _) as [e | [[r |] n]]; [constructor | | constructor].
  rewrite bind_lift_ok. cbn [fst].
  destruct (fill_master _ _ _) as [e | md]; [constructor |].
  rewrite bind_lift_ok.
  destruct (fill_dict_arguments _ _ _) as [e | md']; [constructor |].
  rewrite bind_lift_ok.
  pose proof (calc_all_contradictory a md' Hwl Hwn) as Hall.
  destruct md' as [| x rest].
  - rewrite Hall. rewrite trace_bind. cbn [trace outcome fst snd app].
    rewrite trace_bind. apply Forall_app. split; [repeat constructor |].
    cbn [outcome call snd].
    destruct (MergeSlabs []) as [e | s]; [constructor |].
    rewrite trace_bind. apply Forall_app. split.
    + destruct (truthy save_to); repeat constructor.
    + destruct (outcome _); constructor.
  - destruct Hall as [e ->]. constructor.
Qed.

End PublicEntry.

(** ** More facts about [_calc_spectrum] *)

#[local] Set Warnings "-clear-no-such-hyp".

Section RangeChecks.
Context `{C : Collaborators}.

Lemma is_Some_None_false {A} : ~ is_Some (@None A).
Proof. intros [x Hx]. discriminate. Qed.

Lemma bind_pair_ok {A B} (r1 : res A) (r2 : res B) (p : A * B) :
  (x ← r1; y ← r2; ok (x, y)) = inr p
  <-> exists x y, r1 = inr x /\ r2 = inr y /\ p = (x, y).
Proof.
  destruct r1 as [e1 | x], r2 as [e2 | y]; cbn; split.
  all: try discriminate.
  all: try (intros (x' & y' & H1 & H2 & _); discriminate).
  - intros H. inversion H. eauto.
  - intros (x' & y' & H1 & H2 & ->). by inversion H1; inversion H2.
Qed.

Lemma bind_pair_err {A B} (r1 : res A) (r2 : res B) (e : exn) :
  (x ← r1; y ← r2; ok (x, y)) = inl e
  <-> r1 = inl e \/ exists x, r1 = inr x /\ r2 = inl e.
Proof.
  destruct r1 as [e1 | x], r2 as [e2 | y]; cbn; split.
  all: try discriminate.
  all: try (intros [H | (x' & H1 & H2)]; try discriminate; congruence).
  all: try (intros H; inversion H; eauto).
Qed.

(** Both wavelength bounds and no wavenumber bound, in air or in
    vacuum: the range is made of the converted bounds, exchanged. *)
Lemma wavelength_range (a : calc_args) (wl_min wl_max : Q) :
  wavenum_min a = None -> wavenum_max a = None ->
  wavelength_min a = Some wl_min -> wavelength_max a = Some wl_max ->
  valid_medium (medium a) ->
  wavenum_range a
  = (wn_min ← to_wavenumber (medium a) wl_max;
     wn_max ← to_wavenumber (medium a) wl_min;
     ok (wn_min, wn_max)).
Proof.
  intros Hn1 Hn2 Hl1 Hl2 Hmed.
  unfold wavenum_range, to_wavenumber, vacuum_wavelength.
  rewrite Hn1, Hn2, Hl1, Hl2.
  destruct Hmed as [-> | ->]; cbn [String.eqb Ascii.eqb Bool.eqb andb orb negb].
  - destruct (air2vacuum wl_max) as [x | v1]; [reflexivity |].
    cbn. destruct (nm2cm v1) as [x | w1]; [reflexivity |].
    cbn. destruct (air2vacuum wl_min) as [x | v2]; reflexivity.
  - reflexivity.
Qed.

(** The outcome of the range checks, case by case. *)
Lemma wavenum_range_tree (a : calc_args) :
  (units_mixed a /\ wavenum_range a = inl ValueError)
  \/ (~ units_mixed a /\ ~ valid_medium (medium a)
      /\ wavenum_range a = inl NotImplementedError)
  \/ (~ units_mixed a /\ valid_medium (medium a)
      /\ ~ (is_Some (wavenum_min a) /\ is_Some (wavenum_max a))
      /\ ~ (is_Some (wavelength_min a) /\ is_Some (wavelength_max a))
      /\ wavenum_range a = inl AssertionError)
  \/ (~ units_mixed a /\ valid_medium (medium a)
      /\ exists lo hi,
           wavenum_min a = Some lo /\ wavenum_max a = Some hi
           /\ wavelength_min a = None /\ wavelength_max a = None
           /\ wavenum_range a = inr (lo, hi))
  \/ (~ units_mixed a /\ valid_medium (medium a)
      /\ exists wl_min wl_max,
           wavenum_min a = None /\ wavenum_max a = None
           /\ wavelength_min a = Some wl_min
           /\ wavelength_max a = Some wl_max).
Proof.
  pose proof (@is_Some_None_false Q) as Hnone.
  assert (Hsome : forall q : Q, is_Some (Some q)) by (intros q; by exists q).
  unfold wavenum_range, units_mixed, valid_medium.
  destruct (wavelength_min a) as [wl1 |], (wavelength_max a) as [wl2 |],
           (wavenum_min a) as [wn1 |], (wavenum_max a) as [wn2 |];
    destruct (String.eqb_spec (medium a) "air") as [Ha | Ha];
    destruct (String.eqb_spec (medium a) "vacuum") as [Hv | Hv];
    try (rewrite Ha in Hv; discriminate);
    cbn [opt_none negb orb andb]; unfold throw, ok.
  all: first
    [ left; split; [by auto | reflexivity]
    | right; left; split; [tauto |]; split; [tauto | reflexivity]
    | right; right; left; split; [tauto |]; split; [tauto |];
      split; [tauto |]; split; [tauto | reflexivity]
    | right; right; right; left; split; [tauto |]; split; [tauto |];
      by eauto 10
    | right; right; right; right; split; [tauto |]; split; [tauto |];
      by eauto 10 ].
Qed.

(** X1. The range checks accept a request exactly when the medium is
    "air" or "vacuum", both bounds are given in exactly one unit and,
    for wavelengths, both conversions return.  Wavenumber bounds are
    used as they are, whatever the medium; wavelength bounds are
    converted and exchanged. *)
Theorem wavenum_range_accepts (a : calc_args) (wn : Q * Q) :
  wavenum_range a = inr wn
  <-> valid_medium (medium a)
      /\ ((exists lo hi,
             wavenum_min a = Some lo /\ wavenum_max a = Some hi
             /\ wavelength_min a = None /\ wavelength_max a = None
             /\ wn = (lo, hi))
          \/ (exists wl_min wl_max wn_min wn_max,
                wavenum_min a = None /\ wavenum_max a = None
                /\ wavelength_min a = Some wl_min
                /\ wavelength_max a = Some wl_max
                /\ to_wavenumber (medium a) wl_max = inr wn_min
                /\ to_wavenumber (medium a) wl_min = inr wn_max
                /\ wn = (wn_min, wn_max))).
Proof.
  destruct (wavenum_range_tree a)
    as [(Hm & Hr) | [(Hm & Hv & Hr) | [(Hm & Hv & Hn & Hl & Hr)
       | [(Hm & Hv & lo & hi & Hn1 & Hn2 & Hl1 & Hl2 & Hr)
         | (Hm & Hv & wl1 & wl2 & Hn1 & Hn2 & Hl1 & Hl2)]]]].
  - rewrite Hr. split; [discriminate |]. intros [_ H].
    destruct Hm as [Hwl Hwn].
    destruct H as [(lo & hi & H1 & H2 & H3 & H4 & _)
                  | (w1 & w2 & u & v & H1 & H2 & H3 & H4 & _)].
    + rewrite H3, H4 in Hwl. destruct Hwl as [[x Hx] | [x Hx]]; discriminate.
    + rewrite H1, H2 in Hwn. destruct Hwn as [[x Hx] | [x Hx]]; discriminate.
  - rewrite Hr. split; [discriminate | tauto].
  - rewrite Hr. split; [discriminate |]. intros [_ H]. exfalso.
    destruct H as [(lo & hi & H1 & H2 & _)
                  | (w1 & w2 & u & v & _ & _ & H3 & H4 & _)].
    + apply Hn. rewrite H1, H2. eauto.
    + apply Hl. rewrite H3, H4. eauto.
  - rewrite Hr. split.
    + intros H. inversion H. split; [done |]. left. eauto 10.
    + intros [_ [(lo' & hi' & H1 & H2 & _ & _ & ->)
                | (w1 & w2 & u & v & H1 & _)]]; [| congruence].
      congruence.
  - rewrite (wavelength_range a wl1 wl2 Hn1 Hn2 Hl1 Hl2 Hv), bind_pair_ok.
    split.
    + intros (u & v & Hu & Hv' & ->). split; [done |]. right.
      exists wl1, wl2, u, v. done.
    + intros [_ [(lo & hi & H1 & _) | (w1 & w2 & u & v & _ & _ & H3 & H4
                                       & Hu & Hv' & ->)]]; [congruence |].
      rewrite Hl1 in H3. rewrite Hl2 in H4. inversion H3; inversion H4; subst.
      eauto.
Qed.

(** X2. How the range checks fail: with [ValueError] when both units
    are used; with [NotImplementedError] when the units are not mixed
    and the medium is neither "air" nor "vacuum"; with [AssertionError]
    when, past these two checks, neither unit has both of its bounds;
    and otherwise only with the exception of a conversion, that of the
    upper wavelength bound first.  These are all the ways. *)
Theorem wavenum_range_errors (a : calc_args) (e : exn) :
  wavenum_range a = inl e
  <-> (units_mixed a /\ e = ValueError)
      \/ (~ units_mixed a /\ ~ valid_medium (medium a)
          /\ e = NotImplementedError)
      \/ (~ units_mixed a /\ valid_medium (medium a)
          /\ ~ (is_Some (wavenum_min a) /\ is_Some (wavenum_max a))
          /\ ~ (is_Some (wavelength_min a) /\ is_Some (wavelength_max a))
          /\ e = AssertionError)
      \/ (valid_medium (medium a)
          /\ exists wl_min wl_max,
               wavenum_min a = None /\ wavenum_max a = None
               /\ wavelength_min a = Some wl_min
               /\ wavelength_max a = Some wl_max
               /\ (to_wavenumber (medium a) wl_max = inl e
                   \/ exists wn_min,
                        to_wavenumber (medium a) wl_max = inr wn_min
                        /\ to_wavenumber (medium a) wl_min = inl e)).
Proof.
  destruct (wavenum_range_tree a)
    as [(Hm & Hr) | [(Hm & Hv & Hr) | [(Hm & Hv & Hn & Hl & Hr)
       | [(Hm & Hv & lo & hi & Hn1 & Hn2 & Hl1 & Hl2 & Hr)
         | (Hm & Hv & wl1 & wl2 & Hn1 & Hn2 & Hl1 & Hl2)]]]].
  - rewrite Hr. split.
    + intros H. inversion H. by left.
    + intros [[_ ->] | [[H _] | [[H _] | (_ & w1 & w2 & H1 & H2 & H3 & _)]]];
        try done.
      destruct Hm as [_ [[x Hx] | [x Hx]]]; congruence.
  - rewrite Hr. split.
    + intros H. inversion H. right. left. done.
    + intros [[H _] | [(_ & _ & ->) | [(_ & H & _) | (H & _)]]]; done.
  - rewrite Hr. split.
    + intros H. inversion H. right. right. left. done.
    + intros [[H _] | [(_ & H & _) | [(_ & _ & _ & _ & ->)
                                    | (_ & w1 & w2 & _ & _ & H3 & H4 & _)]]];
        try done.
      destruct Hl. rewrite H3, H4. eauto.
  - rewrite Hr. split; [discriminate |].
    intros [[H _] | [(_ & H & _) | [(_ & _ & H & _)
                                  | (_ & w1 & w2 & H1 & _)]]];
      try done; [| congruence].
    destruct H. rewrite Hn1, Hn2. eauto.
  - rewrite (wavelength_range a wl1 wl2 Hn1 Hn2 Hl1 Hl2 Hv), bind_pair_err.
    split.
    + intros H. right. right. right. split; [done |].
      exists wl1, wl2. done.
    + intros [[H _] | [(_ & H & _) | [(_ & _ & _ & H & _)
                                    | (_ & w1 & w2 & _ & _ & H3 & H4 & H)]]];
        try done.
      * destruct H. rewrite Hl1, Hl2. eauto.
      * rewrite Hl1 in H3. rewrite Hl2 in H4.
        inversion H3; inversion H4; subst. done.
Qed.

End RangeChecks.

Section Validation.
Context `{C : Collaborators}.

Lemma is_none_iff (v : pyval) : is_none v = true <-> v = PyNone.
Proof. destruct v; simpl; split; intros H; done. Qed.

(** The three tests of lines 530-540, as one boolean. *)
Lemma conditions_given_test (a : calc_args) :
  (opt_none (Tgas a) && opt_none (Trot a)
   || (opt_none (Tvib a) && negb (opt_none (Trot a))
       || negb (opt_none (Tvib a)) && opt_none (Trot a))
   || is_none (databank a)) = false
  <-> conditions_given a.
Proof.
  unfold conditions_given. rewrite <- is_none_iff.
  destruct (is_none (databank a));
    destruct (Tgas a) as [tg |], (Tvib a) as [tv |], (Trot a) as [tr |];
    cbn [opt_none negb orb andb]; split; intros H;
    try discriminate; try reflexivity;
    try (destruct H as (H1 & H2 & H3); exfalso;
         first [by apply H3
               | by apply H1
               | by (destruct H2 as [H2 H2']; first [discriminate (H2 eq_refl)
                                                    | discriminate (H2' eq_refl)])]).
  all: repeat split; try discriminate; try (intros [? ?]; discriminate).
Qed.

Lemma check_conditions_unfold (a : calc_args) :
  check_conditions a
  = if opt_none (Tgas a) && opt_none (Trot a)
       || (opt_none (Tvib a) && negb (opt_none (Trot a))
           || negb (opt_none (Tvib a)) && opt_none (Trot a))
       || is_none (databank a)
    then inl ValueError
    else match kwargs a !! "chunksize" with
         | Some _ => inl DeprecationWarning
         | None =>
             inr match kwargs a !! "save_memory" with
                 | Some _ => kwargs a
                 | None => <["save_memory" := PyBool true]> (kwargs a)
                 end
         end.
Proof.
  unfold check_conditions.
  destruct (opt_none (Tgas a) && opt_none (Trot a)); [reflexivity |].
  destruct (opt_none (Tvib a) && negb (opt_none (Trot a))
            || negb (opt_none (Tvib a)) && opt_none (Trot a)); [reflexivity |].
  destruct (is_none (databank a)); [reflexivity |].
  cbn [orb].
  destruct (kwargs a !! "save_memory"); [reflexivity |].
  by rewrite lookup_insert_ne.
Qed.

(** The keyword arguments after line 545. *)
Lemma check_conditions_ok (a : calc_args) (kw : gmap string pyval) :
  check_conditions a = inr kw
  <-> conditions_given a
      /\ kwargs a !! "chunksize" = None
      /\ kw = match kwargs a !! "save_memory" with
              | Some _ => kwargs a
              | None => <["save_memory" := PyBool true]> (kwargs a)
              end.
Proof.
  rewrite check_conditions_unfold, <- conditions_given_test.
  destruct (_ || _ || is_none _).
  - split; [discriminate | intros [H _]; discriminate].
  - destruct (kwargs a !! "chunksize").
    + split; [discriminate | intros (_ & H & _); discriminate].
    + split; [intros H; by inversion H | intros (_ & _ & ->); reflexivity].
Qed.


(** [prepare], one step at a time. *)
Lemma prepare_unfold (a : calc_args) :
  prepare a
  = match wavenum_range a with
    | inl e => ([], inl e)
    | inr wn =>
        match check_conditions a with
        | inl e => ([], inl e)
        | inr kw =>
            match drop_columns_for kw (_is_at_equilibrium a kw) with
            | inl e => ([], inl e)
            | inr dc =>
                call (EvSpectrumFactory (factory_args_of a wn kw))
                     (SpectrumFactory (factory_args_of a wn kw))
                ≫= fun sf =>
                load_lines a (_is_at_equilibrium a kw) dc sf
                ≫= fun sf' =>
                mret (_is_at_equilibrium a kw,
                      if wants_rovib_fraction (overpopulation a)
                      then export_rovib_fraction sf' else sf')
            end
        end
    end.
Proof.
  unfold prepare.
  destruct (wavenum_range a) as [e | wn]; [reflexivity |].
  rewrite bind_lift_ok.
  destruct (check_conditions a) as [e | kw]; [reflexivity |].
  rewrite bind_lift_ok.
  destruct (drop_columns_for kw (_is_at_equilibrium a kw)) as [e | dc];
    [reflexivity |].
  by rewrite bind_lift_ok.
Qed.


End Validation.

Section Loading.
Context `{C : Collaborators}.

(** [file_conditions] on a file name. *)
Lemma file_conditions_str (a : calc_args) (e : bool) (dc : pyval) (s : string) :
  databank a = PyStr s ->
  file_conditions a e dc
  = let base :=
      <["db_use_cached" := use_cached a]>
        (<["levelsfmt" := PyNone]>
           (<["parfuncfmt" := PyStr "hapi"]>
              (<["drop_columns" := dc]> (<["path" := PyStr s]> ∅)))) in
    let said msg := if truthy (verbose a) then [EvPrint msg] else [] in
    if str_endswith s ".par" then
      (said ("Infered " +:+ s +:+ " is a HITRAN-format file."),
       inr (<["load_energies" := PyBool (negb e)]>
              (if negb e
               then <["lvl_use_cached" := use_cached a]>
                      (<["levelsfmt" := PyStr "radis"]>
                         (<["format" := PyStr "hitran"]> base))
               else <["format" := PyStr "hitran"]> base)))
    else if str_endswith s ".h5" || str_endswith s ".hdf5" then
      (said ("Infered " +:+ s +:+ " is a HDF5 file with RADISDB columns format"),
       inr (<["load_energies" := PyBool (negb e)]>
              (if negb e
               then <["levelsfmt" := PyStr "radis"]>
                      (<["format" := PyStr "hdf5-radisdb"]> base)
               else <["format" := PyStr "hdf5-radisdb"]> base)))
    else ([], inl ValueError).
Proof.
  intros Hdb. unfold file_conditions, print_if. rewrite Hdb.
  cbn [endswith databank_text]. unfold ok. cbv zeta.
  destruct (str_endswith s ".par"), (str_endswith s ".h5"),
    (str_endswith s ".hdf5"), (truthy (verbose a)), e; reflexivity.
Qed.

Lemma file_conditions_other (a : calc_args) (e : bool) (dc : pyval) :
  (forall s, databank a <> PyStr s) ->
  file_conditions a e dc = ([], inl AttributeError).
Proof.
  intros Hdb. unfold file_conditions.
  destruct (databank a) as [| b | n | q | s | l | l | d]; try reflexivity.
  by destruct (Hdb s).
Qed.

Lemma M_pair {A} (m : M A) : m = (trace m, outcome m).
Proof. by destruct m. Qed.

(** [load_lines], branch by branch. *)
Lemma load_lines_unfold (a : calc_args) (e : bool) (dc : pyval) (sf : Factory) :
  load_lines a e dc sf
  = match is_fetched_databank (databank a) with
    | inl x => ([], inl x)
    | inr true =>
        match fetch_conditions a e with
        | inl x => ([], inl x)
        | inr c => ([EvFetchDatabank c], fetch_databank sf c)
        end
    | inr false =>
        match path_exists (databank a) with
        | inl x => ([EvExists (databank a)], inl x)
        | inr true =>
            match outcome (file_conditions a e dc) with
            | inl x =>
                (EvExists (databank a) :: trace (file_conditions a e dc), inl x)
            | inr c =>
                (EvExists (databank a) :: trace (file_conditions a e dc)
                   ++ [EvLoadDatabank None c],
                 load_databank sf None c)
            end
        | inr false =>
            let c := <["drop_columns" := dc]>
                       (<["load_energies" := PyBool (negb e)]> ∅) in
            ([EvExists (databank a); EvLoadDatabank (Some (databank a)) c],
             load_databank sf (Some (databank a)) c)
        end
    end.
Proof.
  unfold load_lines.
  destruct (is_fetched_databank (databank a)) as [x | [|]]; [reflexivity | |].
  - rewrite bind_lift_ok.
    destruct (fetch_conditions a e) as [x | c]; [reflexivity |].
    by rewrite bind_lift_ok.
  - rewrite bind_lift_ok.
    destruct (path_exists (databank a)) as [x | [|]]; [reflexivity | | reflexivity].
    destruct (file_conditions a e dc) as [t [x | c]]; reflexivity.
Qed.

(** [_calc_spectrum], step by step. *)
Lemma calc_spectrum_unfold (a : calc_args) :
  _calc_spectrum a
  = match wavenum_range a with
    | inl x => ([], inl x)
    | inr wn =>
        match check_conditions a with
        | inl x => ([], inl x)
        | inr kw =>
            let eq := _is_at_equilibrium a kw in
            match drop_columns_for kw eq with
            | inl x => ([], inl x)
            | inr dc =>
                let fa := factory_args_of a wn kw in
                match SpectrumFactory fa with
                | inl x => ([EvSpectrumFactory fa], inl x)
                | inr sf =>
                    let ll := load_lines a eq dc sf in
                    match outcome ll with
                    | inl x => (EvSpectrumFactory fa :: trace ll, inl x)
                    | inr sf' =>
                        let sf'' := if wants_rovib_fraction (overpopulation a)
                                    then export_rovib_fraction sf' else sf' in
                        (EvSpectrumFactory fa :: trace ll
                           ++ trace (synthesize a eq sf''),
                         outcome (synthesize a eq sf''))
                    end
                end
            end
        end
    end.
Proof.
  unfold _calc_spectrum. rewrite prepare_unfold.
  destruct (wavenum_range a) as [x | wn]; [reflexivity |].
  destruct (check_conditions a) as [x | kw]; [reflexivity |].
  destruct (drop_columns_for kw (_is_at_equilibrium a kw)) as [x | dc];
    [reflexivity |].
  cbv zeta.
  rewrite (M_pair (_ ≫= _)), !trace_bind, !outcome_bind.
  cbn [trace outcome call fst snd].
  destruct (SpectrumFactory (factory_args_of a wn kw)) as [x | sf];
    [reflexivity |].
  rewrite !trace_bind, !outcome_bind.
  destruct (outcome (load_lines a (_is_at_equilibrium a kw) dc sf)) as [x | sf'].
  - cbn [app]. by rewrite !app_nil_r.
  - cbn [trace outcome mret M_ret fst snd app]. by rewrite app_nil_r.
Qed.

(** What [fetch_conditions] always asks for. *)
Lemma fetch_conditions_lookups (a : calc_args) (e : bool)
    (c : gmap string pyval) :
  fetch_conditions a e = inr c ->
  c !! "load_energies" = Some (PyBool (negb e))
  /\ c !! "levelsfmt" = Some (if e then PyNone else PyStr "radis")
  /\ c !! "lvl_use_cached" = (if e then None else Some (use_cached a))
  /\ c !! "db_use_cached" = Some (use_cached a)
  /\ c !! "parse_local_global_quanta"
     = Some (if e then export_lines a else PyBool true)
  /\ c !! "drop_columns" = None
  /\ c !! "path" = None.
Proof.
  unfold fetch_conditions.
  destruct (in_strs (databank a) ["fetch"; "hitran"]);
    [| destruct (in_strs (databank a) ["hitemp"]);
       [| destruct (in_strs (databank a) ["exomol"]);
          [| destruct (match databank a with
                       | PyTuple _ =>
                           x ← tuple_item (databank a) 0; ok (eq_str x "exomol")
                       | _ => ok false
                       end) as [x | [|]];
             [discriminate
             | destruct (tuple_item (databank a) 1) as [x | v]; [discriminate |]
             | discriminate]]]];
    intros H; inversion H; subst c; destruct e;
    repeat split; reflexivity.
Qed.

End Loading.

Section Runs.
Context `{C : Collaborators}.

(** Line 684 holds for every value of [overpopulation], [None]
    included. *)
Lemma wants_rovib_always (ov : pyval) : wants_rovib_fraction ov = true.
Proof. by destruct ov. Qed.

(** The calls of [load_lines]: look-ups and prints, then at most one call
    to the database, which carries [load_energies = not _equilibrium];
    a factory comes back only from that call. *)
Lemma load_lines_shape (a : calc_args) (e : bool) (dc : pyval) (sf : Factory) :
  exists pre db,
    trace (load_lines a e dc sf) = pre ++ db
    /\ Forall (fun ev => is_quiet ev = true) pre
    /\ ((db = [] /\ exists x, outcome (load_lines a e dc sf) = inl x)
        \/ exists ev c,
             db = [ev] /\ is_database_call ev = true
             /\ call_conditions ev = Some c
             /\ c !! "load_energies" = Some (PyBool (negb e))).
Proof.
  rewrite load_lines_unfold.
  assert (Hq : forall v msg,
            Forall (fun ev => is_quiet ev = true)
              (EvExists (databank a)
                 :: (if truthy v then [EvPrint msg] else [])))
    by (intros v msg; destruct (truthy v); by repeat constructor).
  destruct (is_fetched_databank (databank a)) as [x | [|]].
  - exists [], []. split; [reflexivity |]. split; [constructor |]. left. eauto.
  - destruct (fetch_conditions a e) as [x | c] eqn:Hc.
    + exists [], []. split; [reflexivity |]. split; [constructor |].
      left. eauto.
    + exists [], [EvFetchDatabank c]. split; [reflexivity |].
      split; [constructor |].
      right. exists (EvFetchDatabank c), c. repeat split.
      by destruct (fetch_conditions_lookups a e c Hc) as [H _].
  - destruct (path_exists (databank a)) as [x | [|]].
    + exists [EvExists (databank a)], []. split; [reflexivity |].
      split; [by repeat constructor |]. left. eauto.
    + destruct (databank a) as [| b | n | q | s | l | l | d] eqn:Hdb;
        try (rewrite file_conditions_other by (rewrite Hdb; discriminate);
             eexists [_], []; split; [reflexivity |];
             split; [by repeat constructor |]; left; eauto).
      rewrite (file_conditions_str a e dc s Hdb). cbv zeta.
      rewrite <- Hdb in *.
      destruct (str_endswith s ".par");
        [| destruct (str_endswith s ".h5" || str_endswith s ".hdf5")];
        cbn [outcome trace fst snd].
      * eexists (_ :: _), [_]. split; [by rewrite app_comm_cons |].
        split; [apply Hq |].
        right. eexists _, _. repeat split. by rewrite lookup_insert_eq.
      * eexists (_ :: _), [_]. split; [by rewrite app_comm_cons |].
        split; [apply Hq |].
        right. eexists _, _. repeat split. by rewrite lookup_insert_eq.
      * eexists [_], []. split; [reflexivity |].
        split; [by repeat constructor |]. left. eauto.
    + cbv zeta. eexists [_], [_]. split; [reflexivity |].
      split; [by repeat constructor |].
      right. eexists _, _. by repeat split.
Qed.

(** A run of [_calc_spectrum]: it stops before any call, or builds the
    factory and goes on with [load_lines] and [synthesize]. *)
Lemma calc_run (a : calc_args) :
  (exists x, _calc_spectrum a = ([], inl x))
  \/ exists wn kw dc,
       wavenum_range a = inr wn
       /\ check_conditions a = inr kw
       /\ drop_columns_for kw (_is_at_equilibrium a kw) = inr dc
       /\ let eq := _is_at_equilibrium a kw in
          let fa := factory_args_of a wn kw in
          (exists x, SpectrumFactory fa = inl x
                     /\ _calc_spectrum a = ([EvSpectrumFactory fa], inl x))
          \/ exists sf,
               SpectrumFactory fa = inr sf
               /\ ((exists x,
                      outcome (load_lines a eq dc sf) = inl x
                      /\ _calc_spectrum a
                         = (EvSpectrumFactory fa :: trace (load_lines a eq dc sf),
                            inl x))
                   \/ exists sf',
                        outcome (load_lines a eq dc sf) = inr sf'
                        /\ _calc_spectrum a
                           = (EvSpectrumFactory fa
                                :: trace (load_lines a eq dc sf)
                                ++ trace (synthesize a eq (export_rovib_fraction sf')),
                              outcome (synthesize a eq (export_rovib_fraction sf')))).
Proof.
  rewrite calc_spectrum_unfold.
  destruct (wavenum_range a) as [x | wn] eqn:Hwn; [left; eauto |].
  destruct (check_conditions a) as [x | kw] eqn:Hkw; [left; eauto |].
  cbv zeta.
  destruct (drop_columns_for kw (_is_at_equilibrium a kw)) as [x | dc] eqn:Hdc;
    [left; eauto |].
  right. exists wn, kw, dc.
  split; [reflexivity | split; [reflexivity | split; [exact Hdc |]]].
  destruct (SpectrumFactory (factory_args_of a wn kw)) as [x | sf];
    [left; eauto |].
  right. exists sf. split; [reflexivity |].
  destruct (outcome (load_lines a (_is_at_equilibrium a kw) dc sf)) as [x | sf'].
  - left. eauto.
  - right. exists sf'. rewrite wants_rovib_always. eauto.
Qed.

End Runs.

Section Events.
Context `{C : Collaborators}.

Lemma str_or_not (v : pyval) : (exists s, v = PyStr s) \/ (forall s, v <> PyStr s).
Proof. destruct v; try (right; discriminate). left. eauto. Qed.

(** Where a call to the database comes from. *)
Lemma load_lines_database_call (a : calc_args) (e : bool) (dc : pyval)
    (sf : Factory) (ev : event) :
  In ev (trace (load_lines a e dc sf)) -> is_database_call ev = true ->
  (exists c, ev = EvFetchDatabank c
             /\ is_fetched_databank (databank a) = inr true
             /\ fetch_conditions a e = inr c)
  \/ (exists c s, ev = EvLoadDatabank None c
                  /\ is_fetched_databank (databank a) = inr false
                  /\ path_exists (databank a) = inr true
                  /\ databank a = PyStr s
                  /\ outcome (file_conditions a e dc) = inr c)
  \/ (ev = EvLoadDatabank (Some (databank a))
             (<["drop_columns" := dc]>
                (<["load_energies" := PyBool (negb e)]> ∅))
      /\ is_fetched_databank (databank a) = inr false
      /\ path_exists (databank a) = inr false).
Proof.
  rewrite load_lines_unfold.
  destruct (is_fetched_databank (databank a)) as [x | [|]]; [intros [] | |].
  - destruct (fetch_conditions a e) as [x | c]; [intros [] |].
    intros [<- | []] _. left. eauto.
  - destruct (path_exists (databank a)) as [x | [|]].
    + intros [<- | []]. discriminate.
    + destruct (str_or_not (databank a)) as [[s Hdb] | Hdb];
        [| rewrite file_conditions_other by done;
           intros [<- | []]; discriminate].
      destruct (outcome (file_conditions a e dc)) as [x | c] eqn:Hout.
      * rewrite (file_conditions_str a e dc s Hdb) in *. cbv zeta in *.
        destruct (str_endswith s ".par");
          [| destruct (str_endswith s ".h5" || str_endswith s ".hdf5")];
          cbn [outcome trace fst snd] in *; try discriminate.
        intros [<- | []]. discriminate.
      * intros Hin Hdb'. right. left. exists c, s.
        cbn [trace fst] in Hin. destruct Hin as [<- | Hin]; [discriminate |].
        apply in_app_or in Hin. destruct Hin as [Hin | [<- | []]]; [| done].
        rewrite (file_conditions_str a e dc s Hdb) in Hin. cbv zeta in Hin.
        destruct (str_endswith s ".par");
          [| destruct (str_endswith s ".h5" || str_endswith s ".hdf5")];
          cbn [trace fst] in Hin;
          try (destruct (truthy (verbose a));
               [destruct Hin as [<- | []]; discriminate | destruct Hin]).
        destruct Hin.
    + cbv zeta. intros [<- | [<- | []]]; [discriminate |]. intros _.
      right. right. done.
Qed.

(** Where a look-up on disk or a print comes from. *)
Lemma load_lines_quiet_call (a : calc_args) (e : bool) (dc : pyval)
    (sf : Factory) (ev : event) :
  In ev (trace (load_lines a e dc sf)) -> is_quiet ev = true ->
  is_fetched_databank (databank a) = inr false
  /\ (ev = EvExists (databank a)
      \/ exists msg s,
           ev = EvPrint msg
           /\ truthy (verbose a) = true
           /\ path_exists (databank a) = inr true
           /\ databank a = PyStr s
           /\ (str_endswith s ".par" || str_endswith s ".h5"
               || str_endswith s ".hdf5") = true).
Proof.
  rewrite load_lines_unfold.
  destruct (is_fetched_databank (databank a)) as [x | [|]]; [intros [] | |].
  - destruct (fetch_conditions a e) as [x | c]; [intros [] |].
    intros [<- | []]. discriminate.
  - intros Hin Hq. split; [reflexivity |].
    destruct (path_exists (databank a)) as [x | [|]] eqn:Hpe.
    + destruct Hin as [<- | []]. by left.
    + destruct (str_or_not (databank a)) as [[s Hdb] | Hdb];
        [| rewrite file_conditions_other in Hin by done;
           destruct Hin as [<- | []]; by left].
      assert (Hin' : ev = EvExists (databank a)
                     \/ In ev (trace (file_conditions a e dc))).
      { destruct (outcome (file_conditions a e dc)).
        - destruct Hin as [<- | Hin]; auto.
        - destruct Hin as [<- | Hin]; auto.
          apply in_app_or in Hin. destruct Hin as [Hin | [<- | []]]; auto.
          discriminate. }
      destruct Hin' as [-> | Hin']; [by left |]. right.
      rewrite (file_conditions_str a e dc s Hdb) in Hin'. cbv zeta in Hin'.
      destruct (str_endswith s ".par") eqn:Hpar;
        [| destruct (str_endswith s ".h5" || str_endswith s ".hdf5") eqn:Hh5];
        cbn [trace fst] in Hin'; try destruct Hin'.
      * destruct (truthy (verbose a)) eqn:Hv; [| destruct Hin'].
        destruct Hin' as [<- | []]. eexists _, s. repeat split; try done.
        by rewrite Hpar.
      * destruct (truthy (verbose a)) eqn:Hv; [| destruct Hin'].
        destruct Hin' as [<- | []]. eexists _, s. repeat split; try done.
        rewrite Hpar. exact Hh5.
    + cbv zeta in Hin. destruct Hin as [<- | [<- | []]]; [by left | discriminate].
Qed.

(** Where an event of [_calc_spectrum] comes from. *)
Lemma calc_events (a : calc_args) (ev : event) :
  In ev (trace (_calc_spectrum a)) ->
  exists wn kw dc,
    wavenum_range a = inr wn
    /\ check_conditions a = inr kw
    /\ drop_columns_for kw (_is_at_equilibrium a kw) = inr dc
    /\ (ev = EvSpectrumFactory (factory_args_of a wn kw)
        \/ exists sf,
             SpectrumFactory (factory_args_of a wn kw) = inr sf
             /\ (In ev (trace (load_lines a (_is_at_equilibrium a kw) dc sf))
                 \/ exists sf',
                      outcome (load_lines a (_is_at_equilibrium a kw) dc sf)
                      = inr sf'
                      /\ In ev (trace (synthesize a (_is_at_equilibrium a kw)
                                         (export_rovib_fraction sf'))))).
Proof.
  intros Hin.
  destruct (calc_run a) as [[x Hx] | (wn & kw & dc & Hwn & Hkw & Hdc & Hrun)].
  - rewrite Hx in Hin. destruct Hin.
  - exists wn, kw, dc. split; [done | split; [done | split; [done |]]].
    cbv zeta in Hrun.
    destruct Hrun as [(x & Hsf & Hrun) | (sf & Hsf & Hrun)].
    + rewrite Hrun in Hin. destruct Hin as [<- | []]. by left.
    + destruct Hrun as [(x & Hll & Hrun) | (sf' & Hll & Hrun)];
        rewrite Hrun in Hin; cbn [trace fst] in Hin;
        (destruct Hin as [<- | Hin]; [by left |]);
        right; exists sf; split; try done.
      * by left.
      * apply in_app_or in Hin. destruct Hin as [Hin | Hin]; [by left |].
        right. exists sf'. done.
Qed.

End Events.

Section MoreProperties.
Context `{C : Collaborators}.

Lemma not_loading_factory (a : calc_args) e dc sf fa :
  ~ In (EvSpectrumFactory fa) (trace (load_lines a e dc sf)).
Proof.
  intros Hin. pose proof (load_lines_trace a e dc sf) as Hl.
  rewrite Forall_forall in Hl. specialize (Hl (EvSpectrumFactory fa)).
  rewrite list_elem_of_In in Hl. specialize (Hl Hin). discriminate.
Qed.

Lemma synthesize_only_synthesis (a : calc_args) e sf ev :
  In ev (trace (synthesize a e sf)) -> is_synthesis ev = true.
Proof.
  destruct (synthesize_trace a e sf)
    as [Ht | [(_ & _ & Ht) | [(_ & _ & Ht) | (_ & _ & Ht)]]];
    rewrite Ht; intros Hin; try destruct Hin as [<- | []]; done.
Qed.

(** X4. What the factory is built with: the caller's keyword arguments
    with [save_memory=True] added when the caller gave none (a given
    value is kept), never a [chunksize], and the caller's medium,
    molecule, isotope, pressure, wstep, broadening_max_width, cutoff,
    parsum_mode, verbose, optimization and export_lines unchanged. *)
Theorem factory_receives_kwargs (a : calc_args) (fa : factory_args) :
  In (EvSpectrumFactory fa) (trace (_calc_spectrum a)) ->
  fa_kwargs fa !! "save_memory"
  = Some (default (PyBool true) (kwargs a !! "save_memory"))
  /\ (forall k, k <> "save_memory" -> fa_kwargs fa !! k = kwargs a !! k)
  /\ fa_kwargs fa !! "chunksize" = None
  /\ fa_medium fa = medium a /\ fa_molecule fa = molecule a
  /\ fa_isotope fa = isotope a /\ fa_pressure fa = pressure a
  /\ fa_wstep fa = wstep a
  /\ fa_broadening_max_width fa = broadening_max_width a
  /\ fa_cutoff fa = cutoff a /\ fa_parsum_mode fa = parsum_mode a
  /\ fa_verbose fa = verbose a /\ fa_optimization fa = optimization a
  /\ fa_export_lines fa = export_lines a.
Proof.
  intros Hin.
  destruct (calc_events a _ Hin) as (wn & kw & dc & Hwn & Hkw & Hdc & Hev).
  assert (Hfa : fa = factory_args_of a wn kw).
  { destruct Hev as [Hev | (sf & _ & [Hev | (sf' & _ & Hev)])].
    - by inversion Hev.
    - by destruct (not_loading_factory _ _ _ _ _ Hev).
    - apply synthesize_only_synthesis in Hev. discriminate. }
  subst fa. cbn [factory_args_of fa_kwargs fa_medium fa_molecule fa_isotope
                 fa_pressure fa_wstep fa_broadening_max_width fa_cutoff
                 fa_parsum_mode fa_verbose fa_optimization fa_export_lines].
  apply check_conditions_ok in Hkw. destruct Hkw as (_ & Hchunk & ->).
  split; [| split; [| split]]; [| | | by repeat split].
  - destruct (kwargs a !! "save_memory") eqn:Hsm; [exact Hsm |].
    by rewrite lookup_insert_eq.
  - intros k Hk. destruct (kwargs a !! "save_memory"); [reflexivity |].
    by rewrite lookup_insert_ne.
  - destruct (kwargs a !! "save_memory"); [exact Hchunk |].
    by rewrite lookup_insert_ne.
Qed.


(** X6. Energy levels are loaded exactly away from equilibrium: every
    call to [fetch_databank] or [load_databank] carries
    [load_energies=False] under the equilibrium conditions and
    [load_energies=True] otherwise, whichever way the databank is
    given. *)
Theorem energies_loaded_off_equilibrium (a : calc_args) (ev : event)
    (c : gmap string pyval) :
  In ev (trace (_calc_spectrum a)) -> call_conditions ev = Some c ->
  (equilibrium_conditions a -> c !! "load_energies" = Some (PyBool false))
  /\ (~ equilibrium_conditions a -> c !! "load_energies" = Some (PyBool true)).
Proof.
  intros Hin Hc.
  destruct (calc_events a _ Hin) as (wn & kw & dc & Hwn & Hkw & Hdc & Hev).
  pose proof (is_at_equilibrium_iff a kw Hkw) as Heq.
  assert (Hle : c !! "load_energies"
                = Some (PyBool (negb (_is_at_equilibrium a kw)))).
  { destruct Hev as [-> | (sf & _ & [Hev | (sf' & _ & Hev)])].
    - discriminate.
    - destruct (load_lines_shape a (_is_at_equilibrium a kw) dc sf)
        as (pre & db & Hll & Hpre & Hdb).
      rewrite Hll in Hev. apply in_app_or in Hev.
      destruct Hev as [Hev | Hev].
      + rewrite Forall_forall in Hpre. specialize (Hpre ev).
        rewrite list_elem_of_In in Hpre. specialize (Hpre Hev).
        destruct ev; discriminate.
      + destruct Hdb as [[-> _] | (ev' & c' & -> & _ & Hc' & Hle)];
          [destruct Hev |].
        destruct Hev as [<- | []]. rewrite Hc in Hc'. by inversion Hc'.
    - apply synthesize_only_synthesis in Hev. destruct ev; discriminate. }
  rewrite Hle. split.
  - intros H. apply Heq in H. by rewrite H.
  - intros H. destruct (_is_at_equilibrium a kw); [| reflexivity].
    exfalso. apply H. by apply Heq.
Qed.

End MoreProperties.

Section Databanks.
Context `{C : Collaborators}.

Lemma is_fetched_iff (db : pyval) :
  is_fetched_databank db = inr true <-> fetched_databank db.
Proof.
  unfold is_fetched_databank, fetched_databank, in_strs.
  destruct db as [| b | n | q | s | l | l | d]; cbn [existsb eq_str orb];
    try (split; [discriminate | intros [H | [H | [H | [H | [r H]]]]]; discriminate]).
  - destruct (String.eqb_spec s "fetch") as [-> | H1]; [split; auto |].
    destruct (String.eqb_spec s "hitran") as [-> | H2]; [split; auto |].
    destruct (String.eqb_spec s "hitemp") as [-> | H3]; [split; auto |].
    destruct (String.eqb_spec s "exomol") as [-> | H4]; [split; auto 6 |].
    cbn [orb]. split; [discriminate |].
    intros [H | [H | [H | [H | [r H]]]]]; inversion H; congruence.
  - destruct l as [| x rest]; cbn.
    + split; [discriminate | intros [H | [H | [H | [H | [r H]]]]]; discriminate].
    + destruct x as [| b | n | q | s | l' | l' | d]; cbn;
        try (split; [discriminate
                    | intros [H | [H | [H | [H | [r H]]]]]; discriminate]).
      destruct (String.eqb_spec s "exomol") as [-> | Hs].
      * split; [| done]. intros _. do 4 right. eauto.
      * split; [discriminate |].
        intros [H | [H | [H | [H | [r H]]]]]; inversion H; congruence.
Qed.

Lemma is_fetched_false (db : pyval) :
  is_fetched_databank db = inr false -> ~ fetched_databank db.
Proof.
  intros H Hf. apply is_fetched_iff in Hf. rewrite H in Hf. discriminate.
Qed.


(** X8. [databank="fetch"] is another name for [databank="hitran"]: the
    two requests make the same calls and give the same result. *)
Theorem fetch_is_hitran (a : calc_args) :
  databank a = PyStr "fetch" ->
  _calc_spectrum a = _calc_spectrum (set_databank a (PyStr "hitran")).
Proof.
  intros Hdb. destruct a. cbn [databank] in Hdb. subst. reflexivity.
Qed.

(** X9. An "exomol" tuple: the second item is forwarded as
    [exomol_database], with the ExoMol source and partition functions;
    a tuple that is empty or holds "exomol" alone raises [IndexError]
    once the factory is built, and the database is never called. *)
Theorem exomol_tuple (a : calc_args) :
  (forall x rest c,
     databank a = PyTuple (PyStr "exomol" :: x :: rest) ->
     In (EvFetchDatabank c) (trace (_calc_spectrum a)) ->
     c !! "exomol_database" = Some x
     /\ c !! "source" = Some (PyStr "exomol")
     /\ c !! "parfuncfmt" = Some (PyStr "exomol"))
  /\ (forall fa sf,
        databank a = PyTuple [] \/ databank a = PyTuple [PyStr "exomol"] ->
        In (EvSpectrumFactory fa) (trace (_calc_spectrum a)) ->
        SpectrumFactory fa = inr sf ->
        _calc_spectrum a = ([EvSpectrumFactory fa], inl IndexError)).
Proof.
  split.
  - intros x rest c Hdb Hin.
    destruct (calc_events a _ Hin) as (wn & kw & dc & Hwn & Hkw & Hdc & Hev).
    destruct Hev as [Hev | (sf & _ & [Hev | (sf' & _ & Hev)])];
      [discriminate | | apply synthesize_only_synthesis in Hev; discriminate].
    destruct (load_lines_database_call _ _ _ _ _ Hev eq_refl)
      as [(c' & Hc & Hf & Hfc) | [(c' & s & Hc & _) | (Hc & _)]];
      try discriminate.
    inversion Hc; subst c'. revert Hfc. unfold fetch_conditions.
    rewrite Hdb. cbn. intros Hfc. inversion Hfc.
    destruct (_is_at_equilibrium a kw); repeat split; reflexivity.
  - intros fa sf Hdb Hin Hsf.
    destruct (calc_run a) as [[x Hx] | (wn & kw & dc & Hwn & Hkw & Hdc & Hrun)].
    { rewrite Hx in Hin. destruct Hin. }
    cbv zeta in Hrun.
    assert (Hfa : fa = factory_args_of a wn kw).
    { destruct (calc_events a _ Hin) as (wn' & kw' & dc' & Hwn' & Hkw' & _ & Hev).
      rewrite Hwn in Hwn'. rewrite Hkw in Hkw'.
      inversion Hwn'; inversion Hkw'; subst wn' kw'.
      destruct Hev as [Hev | (sf0 & _ & [Hev | (sf' & _ & Hev)])].
      - by inversion Hev.
      - by destruct (not_loading_factory _ _ _ _ _ Hev).
      - apply synthesize_only_synthesis in Hev. discriminate. }
    subst fa.
    assert (Hll : forall sf0, load_lines a (_is_at_equilibrium a kw) dc sf0
                              = ([], inl IndexError)).
    { intros sf0. rewrite load_lines_unfold. unfold fetch_conditions.
      destruct Hdb as [-> | ->]; reflexivity. }
    destruct Hrun as [(x & Hsf' & Hrun) | (sf0 & Hsf' & Hrun)].
    { rewrite Hsf in Hsf'. discriminate. }
    destruct Hrun as [(x & Hout & Hrun) | (sf' & Hout & Hrun)].
    + rewrite Hrun, Hll. rewrite Hll in Hout. cbn in Hout.
      by inversion Hout.
    + rewrite Hll in Hout. discriminate.
Qed.

End Databanks.

Section Suffixes.

Lemma length_append (p q : string) :
  String.length (p +:+ q) = (String.length p + String.length q)%nat.
Proof. induction p as [| c p IH]; simpl; [reflexivity | by rewrite IH]. Qed.

Lemma substring_all (q : string) : substring 0 (String.length q) q = q.
Proof. induction q as [| c q IH]; simpl; [reflexivity | by rewrite IH]. Qed.

Lemma substring_skip (p q : string) :
  substring (String.length p) (String.length q) (p +:+ q) = q.
Proof. induction p as [| c p IH]; simpl; [apply substring_all | exact IH]. Qed.

Lemma substring_split (s : string) (n : nat) :
  (n <= String.length s)%nat ->
  s = substring 0 n s +:+ substring n (String.length s - n) s.
Proof.
  revert n. induction s as [| c s IH]; intros n Hn.
  - destruct n; [reflexivity | simpl in Hn; lia].
  - destruct n as [| n]; simpl.
    + by rewrite substring_all.
    + change (String c s
              = String c (substring 0 n s
                            +:+ substring n (String.length s - n) s)).
      f_equal. apply IH. simpl in Hn. lia.
Qed.

(** [str_endswith] is the suffix test. *)
Lemma str_endswith_spec (s suffix : string) :
  str_endswith s suffix = true <-> exists p, s = p +:+ suffix.
Proof.
  unfold str_endswith. rewrite andb_true_iff, Nat.leb_le, String.eqb_eq.
  split.
  - intros [Hle Hsub].
    exists (substring 0 (String.length s - String.length suffix) s).
    assert (Hcut : (String.length s - String.length suffix
                    <= String.length s)%nat) by lia.
    pose proof (substring_split s _ Hcut) as Hs.
    replace (String.length s - (String.length s - String.length suffix))%nat
      with (String.length suffix) in Hs by lia.
    by rewrite Hsub in Hs.
  - intros [p ->]. rewrite length_append. split; [lia |].
    replace (String.length p + String.length suffix - String.length suffix)%nat
      with (String.length p) by lia.
    apply substring_skip.
Qed.

End Suffixes.

Section Files.
Context `{C : Collaborators}.

(** What follows a factory that was built. *)
Lemma after_factory (a : calc_args) (fa : factory_args) (sf : Factory) :
  In (EvSpectrumFactory fa) (trace (_calc_spectrum a)) ->
  SpectrumFactory fa = inr sf ->
  exists kw dc,
    check_conditions a = inr kw
    /\ drop_columns_for kw (_is_at_equilibrium a kw) = inr dc
    /\ _calc_spectrum a
       = match outcome (load_lines a (_is_at_equilibrium a kw) dc sf) with
         | inl x =>
             (EvSpectrumFactory fa
                :: trace (load_lines a (_is_at_equilibrium a kw) dc sf),
              inl x)
         | inr sf' =>
             (EvSpectrumFactory fa
                :: trace (load_lines a (_is_at_equilibrium a kw) dc sf)
                ++ trace (synthesize a (_is_at_equilibrium a kw)
                            (export_rovib_fraction sf')),
              outcome (synthesize a (_is_at_equilibrium a kw)
                         (export_rovib_fraction sf')))
         end.
Proof.
  intros Hin Hsf.
  destruct (calc_run a) as [[x Hx] | (wn & kw & dc & Hwn & Hkw & Hdc & Hrun)].
  { rewrite Hx in Hin. destruct Hin. }
  cbv zeta in Hrun.
  assert (Hfa : fa = factory_args_of a wn kw).
  { destruct (calc_events a _ Hin) as (wn' & kw' & dc' & Hwn' & Hkw' & _ & Hev).
    rewrite Hwn in Hwn'. rewrite Hkw in Hkw'.
    inversion Hwn'; inversion Hkw'; subst wn' kw'.
    destruct Hev as [Hev | (sf0 & _ & [Hev | (sf' & _ & Hev)])].
    - by inversion Hev.
    - by destruct (not_loading_factory _ _ _ _ _ Hev).
    - apply synthesize_only_synthesis in Hev. discriminate. }
  subst fa. exists kw, dc. split; [done | split; [done |]].
  destruct Hrun as [(x & Hsf' & Hrun) | (sf0 & Hsf' & Hrun)].
  { rewrite Hsf in Hsf'. discriminate. }
  rewrite Hsf in Hsf'. inversion Hsf'; subst sf0.
  destruct Hrun as [(x & Hout & Hrun) | (sf' & Hout & Hrun)];
    by rewrite Hrun, Hout.
Qed.

Lemma not_fetched_str (s : string) :
  ~ fetched_databank (PyStr s) -> is_fetched_databank (PyStr s) = inr false.
Proof.
  intros Hn. destruct (is_fetched_databank (PyStr s)) as [x | [|]] eqn:H.
  - revert H. unfold is_fetched_databank.
    destruct (in_strs _ _); discriminate.
  - by destruct Hn; apply is_fetched_iff.
  - reflexivity.
Qed.

(** X10. A file of unknown format: when the databank is a path that
    exists on disk and ends neither in ".par" nor in ".h5" nor in
    ".hdf5", the call raises [ValueError] after the factory was built
    and the disk consulted; nothing is loaded and nothing is printed. *)
Theorem unknown_file_format (a : calc_args) (s : string)
    (fa : factory_args) (sf : Factory) :
  databank a = PyStr s ->
  ~ fetched_databank (databank a) ->
  path_exists (databank a) = inr true ->
  (forall p, s <> p +:+ ".par") ->
  (forall p, s <> p +:+ ".h5") ->
  (forall p, s <> p +:+ ".hdf5") ->
  In (EvSpectrumFactory fa) (trace (_calc_spectrum a)) ->
  SpectrumFactory fa = inr sf ->
  _calc_spectrum a
  = ([EvSpectrumFactory fa; EvExists (databank a)], inl ValueError).
Proof.
  intros Hdb Hnf Hpe Hpar Hh5 Hhdf5 Hin Hsf.
  destruct (after_factory a fa sf Hin Hsf) as (kw & dc & _ & _ & ->).
  assert (Hno : forall suffix, (forall p, s <> p +:+ suffix) ->
                               str_endswith s suffix = false).
  { intros suffix Hs. destruct (str_endswith s suffix) eqn:He; [| done].
    apply str_endswith_spec in He. destruct He as [p ->]. by destruct (Hs p). }
  assert (Hll : load_lines a (_is_at_equilibrium a kw) dc sf
                = ([EvExists (databank a)], inl ValueError)).
  { rewrite load_lines_unfold, Hpe.
    rewrite Hdb in Hnf. rewrite Hdb at 1. rewrite (not_fetched_str s Hnf).
    rewrite (file_conditions_str a _ dc s Hdb). cbv zeta.
    by rewrite (Hno _ Hpar), (Hno _ Hh5), (Hno _ Hhdf5). }
  by rewrite Hll.
Qed.

(** X11. The test of line 684 holds for every value of
    [overpopulation], [None] and the empty dictionary included: every
    factory that reaches the synthesis step has had
    [export_rovib_fraction] set. *)
Theorem rovib_fraction_always_exported (a : calc_args) :
  (forall ov, wants_rovib_fraction ov = true)
  /\ (forall tr e sf, prepare a = (tr, inr (e, sf)) ->
        exists sf', sf = export_rovib_fraction sf').
Proof.
  split; [exact wants_rovib_always |].
  intros tr e sf. rewrite prepare_unfold.
  destruct (wavenum_range a) as [x | wn]; [discriminate |].
  destruct (check_conditions a) as [x | kw]; [discriminate |].
  destruct (drop_columns_for kw (_is_at_equilibrium a kw)) as [x | dc];
    [discriminate |].
  rewrite wants_rovib_always.
  rewrite (M_pair (_ ≫= _)), !outcome_bind. cbn [outcome call snd].
  destruct (SpectrumFactory _) as [x | sf0]; [discriminate |].
  rewrite outcome_bind.
  destruct (outcome (load_lines _ _ _ _)) as [x | sf']; [discriminate |].
  cbn. intros H. inversion H. eauto.
Qed.

(** X12. Printing: a message is printed only when [verbose] is truthy,
    and only for a databank that is a path found on disk and ends in
    ".par", ".h5" or ".hdf5"; a quiet call, a downloaded databank and a
    registered databank never print. *)
Theorem prints_only_for_files (a : calc_args) (msg : string) :
  In (EvPrint msg) (trace (_calc_spectrum a)) ->
  truthy (verbose a) = true
  /\ ~ fetched_databank (databank a)
  /\ path_exists (databank a) = inr true
  /\ exists s, databank a = PyStr s
       /\ ((exists p, s = p +:+ ".par") \/ (exists p, s = p +:+ ".h5")
           \/ (exists p, s = p +:+ ".hdf5")).
Proof.
  intros Hin.
  destruct (calc_events a _ Hin) as (wn & kw & dc & Hwn & Hkw & Hdc & Hev).
  destruct Hev as [Hev | (sf & _ & [Hev | (sf' & _ & Hev)])];
    [discriminate | | apply synthesize_only_synthesis in Hev; discriminate].
  destruct (load_lines_quiet_call _ _ _ _ _ Hev eq_refl)
    as (Hf & [Hp | (msg' & s & _ & Hv & Hpe & Hdb & Hsuf)]); [discriminate |].
  split; [done |]. split; [by apply is_fetched_false |]. split; [done |].
  exists s. split; [done |].
  apply orb_true_iff in Hsuf. destruct Hsuf as [Hsuf | Hsuf].
  - apply orb_true_iff in Hsuf. destruct Hsuf as [Hsuf | Hsuf].
    + left. by apply str_endswith_spec.
    + right; left. by apply str_endswith_spec.
  - right; right. by apply str_endswith_spec.
Qed.

End Files.

Section DropColumns.
Context `{C : Collaborators}.

Lemma drop_columns_for_spec (kw : gmap string pyval) (e : bool) (dc : pyval) :
  drop_columns_for kw e = inr dc ->
  (dc = PyStr "all" \/ dc = PyStr "auto")
  /\ (dc = PyStr "all"
      <-> e = true
          /\ exists v, kw !! "save_memory" = Some v /\ ge_two v = inr true).
Proof.
  unfold drop_columns_for.
  destruct (kw !! "save_memory") as [v |]; [| discriminate].
  destruct (ge_two v) as [x | b] eqn:Hv; [discriminate |].
  cbn. intros H. inversion H. subst dc. clear H.
  assert (Hiff : b && e = true
                 <-> e = true
                     /\ exists v', Some v = Some v' /\ ge_two v' = inr true).
  { rewrite andb_true_iff. split.
    - intros [-> ->]. eauto.
    - intros [-> (v' & Hv' & Hg)]. inversion Hv'; subst v'.
      rewrite Hv in Hg. by inversion Hg. }
  rewrite <- Hiff.
  destruct (b && e); split; auto; split; intros H; done.
Qed.

Lemma file_conditions_drop_columns (a : calc_args) (e : bool) (dc : pyval)
    (s : string) (c : gmap string pyval) :
  databank a = PyStr s ->
  outcome (file_conditions a e dc) = inr c ->
  c !! "drop_columns" = Some dc.
Proof.
  intros Hdb. rewrite (file_conditions_str a e dc s Hdb). cbv zeta.
  destruct (str_endswith s ".par");
    [| destruct (str_endswith s ".h5" || str_endswith s ".hdf5")];
    cbn [outcome snd]; intros H; inversion H; destruct e; reflexivity.
Qed.

(** X13. [drop_columns]: every call to [load_databank] carries "all" or
    "auto", and it is "all" exactly when the equilibrium conditions hold
    and the caller passed a [save_memory] that is at least 2; with
    [save_memory] left out it is always "auto". *)
Theorem drop_columns_forwarded (a : calc_args) (n : option pyval)
    (c : gmap string pyval) :
  In (EvLoadDatabank n c) (trace (_calc_spectrum a)) ->
  (c !! "drop_columns" = Some (PyStr "all")
   \/ c !! "drop_columns" = Some (PyStr "auto"))
  /\ (c !! "drop_columns" = Some (PyStr "all")
      <-> equilibrium_conditions a
          /\ exists v, kwargs a !! "save_memory" = Some v
                       /\ ge_two v = inr true).
Proof.
  intros Hin.
  destruct (calc_events a _ Hin) as (wn & kw & dc & Hwn & Hkw & Hdc & Hev).
  pose proof (is_at_equilibrium_iff a kw Hkw) as Heq.
  assert (Hc : c !! "drop_columns" = Some dc).
  { destruct Hev as [Hev | (sf & _ & [Hev | (sf' & _ & Hev)])];
      [discriminate | | apply synthesize_only_synthesis in Hev; discriminate].
    destruct (load_lines_database_call _ _ _ _ _ Hev eq_refl)
      as [(c' & Hc & _) | [(c' & s & Hc & _ & _ & Hdb & Hout) | (Hc & _)]].
    - discriminate.
    - inversion Hc; subst c'.
      exact (file_conditions_drop_columns a _ dc s c Hdb Hout).
    - inversion Hc. reflexivity. }
  destruct (drop_columns_for_spec _ _ _ Hdc) as [Hcases Hall].
  apply check_conditions_ok in Hkw. destruct Hkw as (_ & _ & Hkw).
  assert (Hsm : (exists v, kw !! "save_memory" = Some v /\ ge_two v = inr true)
                <-> (exists v, kwargs a !! "save_memory" = Some v
                               /\ ge_two v = inr true)).
  { rewrite Hkw. destruct (kwargs a !! "save_memory") as [v |] eqn:Hv.
    - by rewrite Hv.
    - rewrite lookup_insert_eq. split.
      + intros (v & Hv' & Hg). inversion Hv'; subst. discriminate.
      + intros (v & Hv' & _). discriminate. }
  rewrite Hc. split.
  - destruct Hcases as [-> | ->]; auto.
  - rewrite <- Heq, <- Hsm, <- Hall. split; intros H; [by inversion H | by rewrite H].
Qed.

(** X14. A [save_memory] that is neither a boolean nor a number cannot
    be compared with 2: the call raises [TypeError] before the factory
    is built. *)
Theorem save_memory_must_be_a_number (a : calc_args) (wn : Q * Q) (v : pyval) :
  wavenum_range a = inr wn ->
  conditions_given a ->
  kwargs a !! "chunksize" = None ->
  kwargs a !! "save_memory" = Some v ->
  (forall b, v <> PyBool b) -> (forall n, v <> PyInt n) ->
  (forall q, v <> PyFloat q) ->
  _calc_spectrum a = ([], inl TypeError).
Proof.
  intros Hwn Hgiven Hchunk Hsm Hb Hn Hq.
  rewrite calc_spectrum_unfold, Hwn.
  assert (Hkw : check_conditions a = inr (kwargs a)).
  { apply check_conditions_ok. by rewrite Hsm. }
  rewrite Hkw. cbv zeta. unfold drop_columns_for. rewrite Hsm.
  destruct v; try reflexivity;
    [by destruct (Hb b) | by destruct (Hn n) | by destruct (Hq q)].
Qed.

End DropColumns.

(** ** More facts about [calc_spectrum] *)

Section Stage1.
Context `{C : Collaborators}.

Lemma dict_or_not (v : pyval) : (exists d, v = PyDict d) \/ (forall d, v <> PyDict d).
Proof. destruct v; try (right; discriminate). left. eauto. Qed.

Lemma established_after_plain (established : option molecule_set) (v : pyval) :
  (forall d, v <> PyDict d) -> established_after established v = established.
Proof. intros H. destruct v; try reflexivity. by destruct (H d). Qed.

(** When the three arguments pass, the set of molecules is the one
    established by the last dictionary, or by [molecule]. *)
Lemma parse_inputs_ok (a : calc_args) (e0 : option molecule_set)
    (r : option molecule_set) (n : string) :
  parse_inputs (DICT_INPUT_ARGUMENTS a) e0 "molecule" = inr (r, n) ->
  let e1 := established_after e0 (isotope a) in
  let e2 := established_after e1 (mole_fraction a) in
  r = established_after e2 (databank a)
  /\ ~ keys_differ e0 (isotope a)
  /\ ~ keys_differ e1 (mole_fraction a)
  /\ ~ keys_differ e2 (databank a).
Proof.
  intros Hp e1 e2. subst e1 e2.
  assert (Hno : ~ (keys_differ e0 (isotope a)
                   \/ keys_differ (established_after e0 (isotope a))
                        (mole_fraction a)
                   \/ keys_differ
                        (established_after (established_after e0 (isotope a))
                           (mole_fraction a))
                        (databank a))).
  { intros H. rewrite (parse_inputs_differ a e0 H) in Hp. discriminate. }
  split; [| tauto].
  revert Hp. unfold DICT_INPUT_ARGUMENTS. rewrite parse_inputs_cons.
  destruct (check_agrees e0 "molecule" (isotope a) "isotope")
    as [Hc | [n1 Hc]]; rewrite Hc; [discriminate |].
  unfold res_bind. cbn [fst snd]. rewrite parse_inputs_cons.
  destruct (check_agrees (established_after e0 (isotope a)) n1
              (mole_fraction a) "mole_fraction")
    as [Hc' | [n2 Hc']]; rewrite Hc'; [discriminate |].
  unfold res_bind. cbn [fst snd]. rewrite parse_inputs_cons.
  destruct (check_agrees
              (established_after (established_after e0 (isotope a))
                 (mole_fraction a)) n2 (databank a) "databank")
    as [Hc'' | [n3 Hc'']]; rewrite Hc''; [discriminate |].
  cbn. intros H. by inversion H.
Qed.

Lemma not_differ_dict (established : option molecule_set) (d : gmap key pyval)
    (r : molecule_set) :
  ~ keys_differ established (PyDict d) -> established = Some r ->
  dom d = as_set r.
Proof.
  intros Hn ->. destruct (decide (dom d = as_set r)) as [H | H]; [done |].
  destruct Hn. exists d, r. done.
Qed.

Lemma parse_inputs_keys (e0 : option molecule_set)
    (a : calc_args) (r : molecule_set) (n : string) :
  parse_inputs (DICT_INPUT_ARGUMENTS a) e0 "molecule" = inr (Some r, n) ->
  (forall d, isotope a = PyDict d \/ mole_fraction a = PyDict d
             \/ databank a = PyDict d -> dom d = as_set r)
  /\ (forall r0, e0 = Some r0 -> as_set r0 = as_set r).
Proof.
  intros Hp. destruct (parse_inputs_ok a _ _ _ Hp) as (Hr & H0 & H1 & H2).
  cbv zeta in *.
  destruct (dict_or_not (isotope a)) as [[d1 Hd1] | Hd1];
    destruct (dict_or_not (mole_fraction a)) as [[d2 Hd2] | Hd2];
    destruct (dict_or_not (databank a)) as [[d3 Hd3] | Hd3];
    rewrite ?Hd1, ?Hd2, ?Hd3 in *;
    rewrite ?(established_after_plain _ _ Hd1),
            ?(established_after_plain _ _ Hd2),
            ?(established_after_plain _ _ Hd3) in *;
    cbn [established_after] in *.
  all: repeat match goal with
         | H : ~ keys_differ (Some ?x) (PyDict ?d) |- _ =>
             apply (fun Hn => not_differ_dict _ d x Hn eq_refl) in H;
             cbn [as_set] in H
         end.
  all: try (inversion Hr; subst r; cbn [as_set]).
  all: split;
    [ intros d [Hd | [Hd | Hd]];
      try (inversion Hd; subst d); try congruence;
      try (exfalso; by first [eapply Hd1 | eapply Hd2 | eapply Hd3])
    | intros r0 Hr0 ].
  all: try (destruct e0 as [r1 |]; [| discriminate];
            inversion Hr0; subst r0).
  all: try match goal with
         | H : ~ keys_differ (Some ?x) (PyDict ?d) |- _ =>
             apply (fun Hn => not_differ_dict _ d x Hn eq_refl) in H
         end.
  all: try (inversion Hr; subst); cbn [as_set] in *; try congruence.
Qed.

(** X15. The molecules after stage 1: when the consistency checks pass
    and a set of molecules is established, every dictionary among
    [isotope], [mole_fraction] and [databank] has exactly that set as
    its keys, and so has the [molecule] argument when it was given. *)
Theorem molecules_established (molecule : option molecule_arg)
    (a : calc_args) (r : molecule_set) (n : string) :
  parse_inputs (DICT_INPUT_ARGUMENTS a) (initial_reference molecule) "molecule"
  = inr (Some r, n) ->
  (forall d, isotope a = PyDict d \/ mole_fraction a = PyDict d
             \/ databank a = PyDict d -> dom d = as_set r)
  /\ (forall r0, initial_reference molecule = Some r0 -> as_set r0 = as_set r).
Proof.
  apply parse_inputs_keys.
Qed.

(** X16. With no [molecule] argument and no dictionary among
    [isotope], [mole_fraction] and [databank], there is nothing to
    compute: [calc_spectrum] raises [ValueError] before any call. *)
Theorem molecules_required (save_to : pyval) (a : calc_args) :
  (forall d, isotope a <> PyDict d) ->
  (forall d, mole_fraction a <> PyDict d) ->
  (forall d, databank a <> PyDict d) ->
  calc_spectrum None save_to a = ([], inl ValueError).
Proof.
  intros H1 H2 H3. unfold calc_spectrum.
  assert (Hp : parse_inputs (DICT_INPUT_ARGUMENTS a) (initial_reference None)
                 "molecule" = inr (None, "molecule")).
  { unfold DICT_INPUT_ARGUMENTS, parse_inputs,
      _check_molecules_are_consistent. cbn.
    destruct (isotope a); try (by edestruct H1);
      destruct (mole_fraction a); try (by edestruct H2);
      destruct (databank a); try (by edestruct H3); reflexivity. }
  rewrite Hp. reflexivity.
Qed.

End Stage1.

Section Stage2.
Context `{C : Collaborators}.

Lemma members_as_set (r : molecule_set) (mol : key) :
  mol ∈ members r <-> mol ∈ as_set r.
Proof.
  destruct r; cbn [members as_set].
  - by rewrite elem_of_list_to_set.
  - by rewrite (set_iteration_elements s), elem_of_elements.
Qed.

Lemma value_for_lookup (d : gmap key pyval) (mol : key) :
  mol ∈ dom d -> d !! mol = Some (value_for (PyDict d) mol).
Proof.
  intros H. apply elem_of_dom in H as [v Hv]. cbn [value_for].
  by rewrite Hv.
Qed.

Lemma molecule_arguments_ok (a : calc_args) (mol : key) :
  (forall d, isotope a = PyDict d \/ mole_fraction a = PyDict d
             \/ databank a = PyDict d -> mol ∈ dom d) ->
  molecule_arguments (DICT_INPUT_ARGUMENTS a) mol ∅ = inr (entry_of a mol).
Proof.
  intros H. unfold DICT_INPUT_ARGUMENTS, entry_of.
  cbn [molecule_arguments].
  destruct (dict_or_not (isotope a)) as [[d1 Hd1] | Hd1].
  - rewrite Hd1, (value_for_lookup d1 mol) by (apply H; auto).
    destruct (dict_or_not (mole_fraction a)) as [[d2 Hd2] | Hd2].
    + rewrite Hd2, (value_for_lookup d2 mol) by (apply H; auto).
      destruct (dict_or_not (databank a)) as [[d3 Hd3] | Hd3].
      * rewrite Hd3, (value_for_lookup d3 mol) by (apply H; auto). done.
      * destruct (databank a); try done. by edestruct Hd3.
    + destruct (mole_fraction a) eqn:E2; try (by edestruct Hd2);
        (destruct (dict_or_not (databank a)) as [[d3 Hd3] | Hd3];
         [ rewrite Hd3, (value_for_lookup d3 mol) by (apply H; auto); done
         | destruct (databank a); try done; by edestruct Hd3 ]).
  - destruct (isotope a) eqn:E1; try (by edestruct Hd1);
      (destruct (dict_or_not (mole_fraction a)) as [[d2 Hd2] | Hd2];
       [ rewrite Hd2, (value_for_lookup d2 mol) by (apply H; auto);
         (destruct (dict_or_not (databank a)) as [[d3 Hd3] | Hd3];
          [ rewrite Hd3, (value_for_lookup d3 mol) by (apply H; auto); done
          | destruct (databank a); try done; by edestruct Hd3 ])
       | destruct (mole_fraction a) eqn:E2; try (by edestruct Hd2);
         (destruct (dict_or_not (databank a)) as [[d3 Hd3] | Hd3];
          [ rewrite Hd3, (value_for_lookup d3 mol) by (apply H; auto); done
          | destruct (databank a); try done; by edestruct Hd3 ]) ]).
Qed.

Lemma dict_set_present {V} (g : key -> V) (mol : key) (ks : list key) :
  mol ∈ ks ->
  dict_set mol (g mol) (map (fun m => (m, g m)) ks)
  = map (fun m => (m, g m)) ks.
Proof.
  induction ks as [| k ks IH]; intros Hin.
  - by apply elem_of_nil in Hin.
  - cbn [map dict_set]. destruct (decide (k = mol)) as [-> | Hne]; [done |].
    f_equal. apply IH. apply elem_of_cons in Hin as [-> |]; done.
Qed.

Lemma dict_set_absent {V} (g : key -> V) (mol : key) (ks : list key) :
  mol ∉ ks ->
  dict_set mol (g mol) (map (fun m => (m, g m)) ks)
  = map (fun m => (m, g m)) (ks ++ [mol]).
Proof.
  induction ks as [| k ks IH]; intros Hin; [done |].
  cbn [map dict_set app]. apply not_elem_of_cons in Hin as [Hne Hin].
  destruct (decide (k = mol)) as [-> | _]; [done |].
  f_equal. by apply IH.
Qed.

Lemma distinct_elem (l : list key) (x : key) : x ∈ distinct l <-> x ∈ l.
Proof.
  induction l as [| y l IH]; [done |]. cbn [distinct].
  rewrite !elem_of_cons, list_elem_of_filter, IH.
  destruct (decide (x = y)); naive_solver.
Qed.

Lemma distinct_NoDup (l : list key) : NoDup (distinct l).
Proof.
  induction l as [| y l IH]; cbn [distinct]; constructor.
  - rewrite list_elem_of_filter. naive_solver.
  - by apply NoDup_filter.
Qed.

Lemma distinct_id (l : list key) : NoDup l -> distinct l = l.
Proof.
  induction 1 as [| x l Hx Hl IH]; [done |]. cbn [distinct]. f_equal.
  rewrite IH. clear IH Hl. induction l as [| y l IH]; [done |].
  apply not_elem_of_cons in Hx as [Hne Hx].
  rewrite filter_cons_True by done. f_equal. by apply IH.
Qed.

(** The keys after inserting [mols] behind [ks]. *)
Lemma fill_master_from (a : calc_args) (mols ks : list key) :
  (forall mol, mol ∈ mols ->
     molecule_arguments (DICT_INPUT_ARGUMENTS a) mol ∅
     = inr (entry_of a mol)) ->
  fill_master (DICT_INPUT_ARGUMENTS a) mols
    (map (fun m => (m, entry_of a m)) ks)
  = inr (map (fun m => (m, entry_of a m))
           (ks ++ filter (fun m => m ∉ ks) (distinct mols))).
Proof.
  revert ks. induction mols as [| mol mols IH]; intros ks Hm.
  - cbn. by rewrite app_nil_r.
  - cbn [fill_master distinct]. rewrite Hm by left.
    change (inr (entry_of a mol) ≫= ?k) with (k (entry_of a mol)).
    cbv beta. destruct (decide (mol ∈ ks)) as [Hin | Hin].
    + rewrite (dict_set_present (entry_of a) mol ks Hin).
      rewrite IH by (intros; apply Hm; by right).
      rewrite filter_cons_False by (intros H; by apply H).
      rewrite list_filter_filter. do 3 f_equal.
      apply list_filter_iff. intros m. split; [intros H | naive_solver].
      split; [done |]. by intros ->.
    + rewrite (dict_set_absent (entry_of a) mol ks Hin).
      rewrite IH by (intros; apply Hm; by right).
      rewrite filter_cons_True by done.
      rewrite <- app_assoc. cbn [app]. rewrite list_filter_filter.
      do 4 f_equal. apply list_filter_iff. intros m.
      rewrite elem_of_app, list_elem_of_singleton. naive_solver.
Qed.

Lemma filter_all (l : list key) : filter (fun m : key => m ∉ @nil key) l = l.
Proof.
  induction l as [| x l IH]; [done |].
  rewrite filter_cons_True by apply not_elem_of_nil. by rewrite IH.
Qed.

Lemma fill_master_ok (a : calc_args) (mols : list key) :
  (forall mol d, mol ∈ mols ->
     isotope a = PyDict d \/ mole_fraction a = PyDict d
     \/ databank a = PyDict d -> mol ∈ dom d) ->
  fill_master (DICT_INPUT_ARGUMENTS a) mols []
  = inr (map (fun m => (m, entry_of a m)) (distinct mols)).
Proof.
  intros H.
  change (@nil (key * gmap string pyval))
    with (map (fun m => (m, entry_of a m)) []).
  rewrite (fill_master_from a mols []), filter_all; [done |].
  intros mol Hin. apply molecule_arguments_ok. intros d. by apply H.
Qed.

Lemma entry_set_entries (n : string) (h : key -> pyval)
    (g : key -> gmap string pyval) (seen : list key) (mol : key)
    (ks : list key) :
  entry_set mol n (h mol) (map (fun m => (m, entries_with n h g seen m)) ks)
  = map (fun m => (m, entries_with n h g (mol :: seen) m)) ks.
Proof.
  unfold entry_set. rewrite map_map. apply map_ext. intros m. cbn [fst snd].
  unfold entries_with.
  destruct (decide (m = mol)) as [-> | Hne].
  - rewrite (decide_True (P := mol ∈ mol :: seen)) by left.
    destruct (decide (mol ∈ seen)); [by rewrite insert_insert_eq | done].
  - destruct (decide (m ∈ seen)) as [Hin | Hin].
    + by rewrite (decide_True (P := m ∈ mol :: seen)) by by right.
    + rewrite (decide_False (P := m ∈ mol :: seen)); [done |].
      rewrite elem_of_cons. naive_solver.
Qed.

Lemma fill_dict_argument_from (same : bool) (n : string) (arg : pyval)
    (h : key -> pyval) (g : key -> gmap string pyval)
    (mols seen ks : list key) :
  (forall mol, mol ∈ mols ->
     (if same then ok arg
      else match arg with
           | PyDict d => match d !! mol with
                         | Some v => ok v
                         | None => throw KeyError
                         end
           | _ => throw TypeError
           end) = inr (h mol)) ->
  fill_dict_argument same n arg mols
    (map (fun m => (m, entries_with n h g seen m)) ks)
  = inr (map (fun m => (m, entries_with n h g (rev mols ++ seen) m)) ks).
Proof.
  revert seen. induction mols as [| mol mols IH]; intros seen Hv; [done |].
  cbn [fill_dict_argument]. rewrite Hv by left.
  change (inr (h mol) ≫= ?k) with (k (h mol)). cbv beta.
  rewrite entry_set_entries, IH by (intros; apply Hv; by right).
  cbn [rev]. by rewrite <- app_assoc.
Qed.

Lemma fill_dict_argument_ok (same : bool) (n : string) (arg : pyval)
    (h : key -> pyval) (g : key -> gmap string pyval) (mols ks : list key) :
  (forall mol, mol ∈ mols ->
     (if same then ok arg
      else match arg with
           | PyDict d => match d !! mol with
                         | Some v => ok v
                         | None => throw KeyError
                         end
           | _ => throw TypeError
           end) = inr (h mol)) ->
  (forall m, m ∈ ks -> m ∈ mols) ->
  fill_dict_argument same n arg mols (map (fun m => (m, g m)) ks)
  = inr (map (fun m => (m, <[n := h m]> (g m))) ks).
Proof.
  intros Hv Hks.
  rewrite (map_ext_in _ (fun m => (m, entries_with n h g [] m)));
    [| intros m _; unfold entries_with;
       by rewrite decide_False by apply not_elem_of_nil ].
  rewrite (fill_dict_argument_from same n arg h g mols [] ks Hv).
  f_equal. apply map_ext_in. intros m Hin. unfold entries_with.
  rewrite decide_True; [done |].
  rewrite app_nil_r, list_elem_of_In, <- in_rev, <- list_elem_of_In.
  apply Hks. by apply list_elem_of_In.
Qed.

Lemma fill_dict_argument_missing (n : string) (d : gmap key pyval)
    (mols : list key) (md : list (key * gmap string pyval)) :
  (exists mol, mol ∈ mols /\ mol ∉ dom d) ->
  fill_dict_argument false n (PyDict d) mols md = inl KeyError.
Proof.
  revert md. induction mols as [| mol mols IH]; intros md [m [Hin Hm]].
  - by apply elem_of_nil in Hin.
  - cbn [fill_dict_argument]. destruct (d !! mol) as [v |] eqn:Hv; [| done].
    change (ok v ≫= ?k) with (k v). cbv beta. apply IH. exists m.
    split; [| done]. apply elem_of_cons in Hin as [-> | Hin]; [| done].
    destruct Hm. apply elem_of_dom. eauto.
Qed.

End Stage2.

Section Stage3.
Context `{C : Collaborators}.

Lemma overpopulation_step (r : molecule_set) (a : calc_args) (mol : key) :
  (forall d, overpopulation a = PyDict d -> dom d ⊆ as_set r ->
             as_set r ⊆ dom d) ->
  mol ∈ members r ->
  (if is_same_for_all_molecules r (overpopulation a)
   then ok (overpopulation a)
   else match overpopulation a with
        | PyDict d => match d !! mol with
                      | Some v => ok v
                      | None => throw KeyError
                      end
        | _ => throw TypeError
        end) = inr (overpopulation_for r a mol).
Proof.
  intros Hcov Hin. unfold is_same_for_all_molecules, overpopulation_for.
  destruct (overpopulation a) as [| | | | | | | d] eqn:Hov; try done.
  destruct (bool_decide (dom d ⊆ as_set r)) eqn:Hsub; cbn [negb]; [| done].
  apply bool_decide_eq_true in Hsub.
  assert (Hd : mol ∈ dom d).
  { apply (Hcov d eq_refl Hsub). by apply members_as_set. }
  apply elem_of_dom in Hd as [v Hv]. by rewrite Hv.
Qed.

Lemma molecule_call_ok (r : molecule_set) (a : calc_args) (mol : key) :
  named_apart (kwargs a) ->
  molecule_call a mol
    (<["overpopulation" := overpopulation_for r a mol]> (entry_of a mol))
  = inr (request_for r a mol).
Proof.
  intros (Hk1 & Hk2 & Hk3 & Hk4). unfold molecule_call, required, entry_of.
  cbv zeta.
  rewrite (lookup_union_Some_l _ _ "overpopulation"
             (overpopulation_for r a mol)) by by simplify_map_eq.
  change (ok ?v ≫= ?k) with (k v). cbv beta.
  rewrite (lookup_union_Some_l _ _ "isotope" (value_for (isotope a) mol))
    by by simplify_map_eq.
  change (ok ?v ≫= ?k) with (k v). cbv beta.
  rewrite (lookup_union_Some_l _ _ "mole_fraction"
             (value_for (mole_fraction a) mol)) by by simplify_map_eq.
  change (ok ?v ≫= ?k) with (k v). cbv beta.
  rewrite (lookup_union_Some_l _ _ "databank" (value_for (databank a) mol))
    by by simplify_map_eq.
  change (ok ?v ≫= ?k) with (k v). cbv beta.
  unfold ok, request_for. do 2 f_equal.
  apply map_eq. intros i.
  destruct (decide (i = "databank")) as [-> | H4];
    [by rewrite lookup_delete_eq |].
  rewrite lookup_delete_ne by done.
  destruct (decide (i = "mole_fraction")) as [-> | H3];
    [by rewrite lookup_delete_eq |].
  rewrite lookup_delete_ne by done.
  destruct (decide (i = "isotope")) as [-> | H2];
    [by rewrite lookup_delete_eq |].
  rewrite lookup_delete_ne by done.
  destruct (decide (i = "overpopulation")) as [-> | H1];
    [by rewrite lookup_delete_eq |].
  rewrite lookup_delete_ne by done.
  apply lookup_union_r. by rewrite !lookup_insert_ne by done.
Qed.

Lemma calc_all_requests (r : molecule_set) (a : calc_args) (ks : list key) :
  named_apart (kwargs a) ->
  calc_all a
    (map (fun m => (m, <["overpopulation" := overpopulation_for r a m]>
                         (entry_of a m))) ks)
  = spectra_of (map (request_for r a) ks).
Proof.
  intros Hk. induction ks as [| k ks IH]; [done |].
  cbn [map calc_all spectra_of].
  rewrite (molecule_call_ok r a k Hk), bind_lift_ok, IH. done.
Qed.

Lemma stage2_master (r : molecule_set) (a : calc_args) (n : string)
    (e0 : option molecule_set) :
  parse_inputs (DICT_INPUT_ARGUMENTS a) e0 "molecule" = inr (Some r, n) ->
  fill_master (DICT_INPUT_ARGUMENTS a) (members r) []
  = inr (map (fun m => (m, entry_of a m)) (distinct (members r))).
Proof.
  intros Hp. apply fill_master_ok. intros mol d Hin Hd.
  destruct (parse_inputs_keys e0 a r n Hp) as [Hk _].
  rewrite (Hk d Hd). by apply members_as_set.
Qed.

Lemma stage2_overpopulation (r : molecule_set) (a : calc_args) :
  (forall d, overpopulation a = PyDict d -> dom d ⊆ as_set r ->
             as_set r ⊆ dom d) ->
  fill_dict_arguments r (DICT_INPUT_DICT_ARGUMENTS a)
    (map (fun m => (m, entry_of a m)) (distinct (members r)))
  = inr (map (fun m => (m, <["overpopulation" := overpopulation_for r a m]>
                             (entry_of a m)))
           (distinct (members r))).
Proof.
  intros Hcov. unfold DICT_INPUT_DICT_ARGUMENTS. cbn [fill_dict_arguments].
  rewrite (fill_dict_argument_ok _ "overpopulation" (overpopulation a)
             (overpopulation_for r a) (entry_of a)); [done | |].
  - intros mol Hin. by apply overpopulation_step.
  - intros m. by rewrite distinct_elem.
Qed.

Lemma calc_spectrum_stages (molecule : option molecule_arg) (save_to : pyval)
    (a : calc_args) (r : molecule_set) (n : string) :
  parse_inputs (DICT_INPUT_ARGUMENTS a) (initial_reference molecule) "molecule"
  = inr (Some r, n) ->
  named_apart (kwargs a) ->
  (forall d, overpopulation a = PyDict d -> dom d ⊆ as_set r ->
             as_set r ⊆ dom d) ->
  calc_spectrum molecule save_to a
  = merged save_to
      (spectra_of (map (request_for r a) (distinct (members r)))).
Proof.
  intros Hp Hk Hcov. unfold calc_spectrum, merged.
  rewrite Hp, bind_lift_ok. cbn [fst].
  rewrite (stage2_master r a n _ Hp), bind_lift_ok.
  rewrite (stage2_overpopulation r a Hcov), bind_lift_ok.
  by rewrite (calc_all_requests r a _ Hk).
Qed.

(** X17. The master dictionary: once the molecules are established,
    lines 383-397 never raise the [KeyError] that the comment at line
    392 allows for.  Every distinct molecule gets one entry, with its
    own value of each of [isotope], [mole_fraction] and [databank]
    that is a dictionary and the common value of each that is not.
    The entries come in the order in which the molecules are iterated
    ([members]: the order of the list given as [molecule=], whatever
    order the interpreter iterates a key set in); a molecule that is
    listed twice is entered at its first occurrence. *)
Theorem master_dictionary (molecule : option molecule_arg) (a : calc_args)
    (r : molecule_set) (n : string) :
  parse_inputs (DICT_INPUT_ARGUMENTS a) (initial_reference molecule) "molecule"
  = inr (Some r, n) ->
  fill_master (DICT_INPUT_ARGUMENTS a) (members r) []
  = inr (map (fun mol => (mol, entry_of a mol)) (distinct (members r))).
Proof. apply stage2_master. Qed.

(** X18. An [overpopulation] dictionary whose keys are all molecules of
    the request, but which misses one of them, makes [calc_spectrum]
    raise [KeyError] before any call; [overpopulation={}] is the
    smallest such dictionary. *)
Theorem overpopulation_misses_a_molecule (molecule : option molecule_arg)
    (save_to : pyval) (a : calc_args) (r : molecule_set) (n : string)
    (d : gmap key pyval) (mol : key) :
  parse_inputs (DICT_INPUT_ARGUMENTS a) (initial_reference molecule) "molecule"
  = inr (Some r, n) ->
  overpopulation a = PyDict d ->
  dom d ⊆ as_set r -> mol ∈ as_set r -> mol ∉ dom d ->
  calc_spectrum molecule save_to a = ([], inl KeyError).
Proof.
  intros Hp Hov Hsub Hin Hout. unfold calc_spectrum.
  rewrite Hp, bind_lift_ok. cbn [fst].
  rewrite (stage2_master r a n _ Hp), bind_lift_ok.
  unfold DICT_INPUT_DICT_ARGUMENTS. cbn [fill_dict_arguments].
  unfold is_same_for_all_molecules. rewrite Hov.
  rewrite (bool_decide_eq_true_2 _ Hsub). cbn [negb].
  rewrite fill_dict_argument_missing; [done |].
  exists mol. split; [| done]. by apply members_as_set.
Qed.

(** X19. One request per molecule: when stage 1 passes and an
    [overpopulation] dictionary keyed by molecules has them all,
    [calc_spectrum] runs [_calc_spectrum] once for each distinct
    molecule, on the caller's arguments with [molecule] set to that
    molecule and each dictionary argument replaced by the molecule's
    entry; it stops at the first failure, and otherwise merges the
    spectra and stores the result when [save_to] is given.  The
    molecules are taken in the order in which they are iterated
    ([members]: the order of the list given as [molecule=], whatever
    order the interpreter iterates a key set in). *)
Theorem one_request_per_molecule (molecule : option molecule_arg)
    (save_to : pyval) (a : calc_args) (r : molecule_set) (n : string) :
  parse_inputs (DICT_INPUT_ARGUMENTS a) (initial_reference molecule) "molecule"
  = inr (Some r, n) ->
  named_apart (kwargs a) ->
  (forall d, overpopulation a = PyDict d -> dom d ⊆ as_set r ->
             as_set r ⊆ dom d) ->
  calc_spectrum molecule save_to a
  = merged save_to
      (spectra_of (map (request_for r a) (distinct (members r)))).
Proof. apply calc_spectrum_stages. Qed.

Lemma value_for_plain (v : pyval) (mol : key) :
  (forall d, v <> PyDict d) -> value_for v mol = v.
Proof. intros H. destruct v; try done. by edestruct H. Qed.

Lemma parse_inputs_plain (a : calc_args) (e0 : option molecule_set) :
  (forall d, isotope a <> PyDict d) ->
  (forall d, mole_fraction a <> PyDict d) ->
  (forall d, databank a <> PyDict d) ->
  parse_inputs (DICT_INPUT_ARGUMENTS a) e0 "molecule" = inr (e0, "molecule").
Proof.
  intros H1 H2 H3.
  unfold DICT_INPUT_ARGUMENTS, parse_inputs, _check_molecules_are_consistent.
  destruct (isotope a); try (by edestruct H1);
    destruct (mole_fraction a); try (by edestruct H2);
    destruct (databank a); try (by edestruct H3); reflexivity.
Qed.

(** X20. The usual call, for one molecule and without dictionaries:
    [calc_spectrum] is [_calc_spectrum] on the same arguments, followed
    by [MergeSlabs] on that single spectrum and by [store] when
    [save_to] is given.  An [overpopulation] dictionary is passed on
    as it is, unless it is empty or has the molecule as its only
    key. *)
Theorem single_molecule (k : key) (save_to : pyval) (a : calc_args) :
  (forall d, isotope a <> PyDict d) ->
  (forall d, mole_fraction a <> PyDict d) ->
  (forall d, databank a <> PyDict d) ->
  (forall d, overpopulation a = PyDict d -> ~ dom d ⊆ {[k]}) ->
  named_apart (kwargs a) ->
  calc_spectrum (Some (OneMolecule k)) save_to a
  = merged save_to (spectra_of [set_molecule a (key_val k)]).
Proof.
  intros H1 H2 H3 Hov Hk.
  assert (Hset : as_set (MolList [k]) = {[k]}).
  { cbn [as_set list_to_set]. set_solver. }
  rewrite (calc_spectrum_stages _ save_to a (MolList [k]) "molecule").
  - cbn [members distinct filter list_filter map]. do 3 f_equal.
    unfold request_for, set_molecule.
    rewrite !value_for_plain by done. f_equal.
    unfold overpopulation_for.
    destruct (overpopulation a) as [| | | | | | | d] eqn:Hd; try done.
    rewrite bool_decide_eq_false_2; [done |].
    rewrite Hset. by apply Hov.
  - by apply parse_inputs_plain.
  - exact Hk.
  - intros d Hd Hsub. rewrite Hset in Hsub. by destruct (Hov d Hd).
Qed.

End Stage3.

Section Stage4.
Context `{C : Collaborators}.

Lemma calc_no_assembly (a : calc_args) :
  Forall (fun ev => is_assembly ev = false) (trace (_calc_spectrum a)).
Proof.
  apply Forall_forall. intros ev Hin. apply list_elem_of_In in Hin.
  destruct (calc_events a ev Hin) as (wn & kw & dc & _ & _ & _ & Hev).
  destruct Hev as [-> | (sf & _ & [Hev | (sf' & _ & Hev)])]; [done | |].
  - pose proof (load_lines_trace a (_is_at_equilibrium a kw) dc sf) as Hl.
    rewrite Forall_forall in Hl. apply list_elem_of_In in Hev.
    specialize (Hl ev Hev). by destruct ev.
  - apply synthesize_only_synthesis in Hev. by destruct ev.
Qed.

Lemma syntheses_app (t1 t2 : list event) :
  syntheses (t1 ++ t2) = (syntheses t1 + syntheses t2)%nat.
Proof. unfold syntheses. by rewrite List.filter_app, length_app. Qed.

Lemma syntheses_none (t : list event) :
  Forall (fun ev => is_synthesis ev = false) t -> syntheses t = 0%nat.
Proof.
  unfold syntheses. induction 1 as [| ev t Hev _ IH]; [done |].
  cbn [List.filter]. by rewrite Hev.
Qed.

Lemma calc_one_synthesis (a : calc_args) (s : Spectrum) :
  outcome (_calc_spectrum a) = inr s ->
  syntheses (trace (_calc_spectrum a)) = 1%nat.
Proof.
  intros Hs.
  destruct (calc_run a) as [[x Hx] | (wn & kw & dc & Hwn & Hkw & Hdc & Hrun)].
  { rewrite Hx in Hs. discriminate. }
  cbv zeta in Hrun.
  destruct Hrun as [(x & Hsf & Hrun) | (sf & Hsf & Hrun)].
  { rewrite Hrun in Hs. discriminate. }
  destruct Hrun as [(x & Hout & Hrun) | (sf' & Hout & Hrun)].
  { rewrite Hrun in Hs. discriminate. }
  rewrite Hrun in Hs |- *. cbn [trace outcome fst snd] in Hs |- *.
  change (EvSpectrumFactory ?fa :: ?t) with ([EvSpectrumFactory fa] ++ t).
  rewrite !syntheses_app.
  rewrite (syntheses_none (trace (load_lines _ _ _ _))).
  2:{ eapply Forall_impl; [apply load_lines_trace |].
      intros ev Hev. by destruct ev. }
  destruct (synthesize_trace a (_is_at_equilibrium a kw)
              (export_rovib_fraction sf'))
    as [Ht | [(_ & _ & Ht) | [(_ & _ & Ht) | (_ & _ & Ht)]]].
  - exfalso. revert Ht Hs. unfold synthesize.
    destruct (_is_at_equilibrium a kw);
      destruct (String.eqb (mode a) "cpu");
      try destruct (String.eqb (mode a) "gpu");
      cbn [negb trace outcome call raise fst snd];
      intros Ht Hs; discriminate.
  - by rewrite Ht.
  - by rewrite Ht.
  - by rewrite Ht.
Qed.

Lemma calc_all_shape (a : calc_args)
    (molecule_dict : list (key * gmap string pyval)) :
  Forall (fun ev => is_assembly ev = false) (trace (calc_all a molecule_dict))
  /\ forall s_list,
       outcome (calc_all a molecule_dict) = inr s_list ->
       length s_list = length molecule_dict
       /\ syntheses (trace (calc_all a molecule_dict)) = length s_list.
Proof.
  induction molecule_dict as [| [mol da] md [IHt IHs]].
  { split; [constructor |]. intros sl Hsl. cbn in Hsl. by inversion Hsl. }
  cbn [calc_all].
  destruct (molecule_call a mol da) as [x | a'].
  { rewrite bind_lift_err. split; [constructor | discriminate]. }
  rewrite bind_lift_ok.
  pose proof (calc_no_assembly a') as Hna.
  pose proof (calc_one_synthesis a') as Hone.
  destruct (_calc_spectrum a') as [t1 [x | s]].
  { split; [exact Hna | discriminate]. }
  destruct (calc_all a md) as [t2 [x | sl]].
  { split; [| discriminate]. cbn. apply Forall_app. split; [done |].
    exact IHt. }
  split.
  - cbn. rewrite app_nil_r. apply Forall_app. by split.
  - intros s_list Hsl. cbn in Hsl. inversion Hsl; subst s_list.
    destruct (IHs sl eq_refl) as [Hlen Hsyn]. cbn [trace outcome fst snd] in *.
    split; [cbn; by rewrite Hlen |].
    change (syntheses (t1 ++ t2 ++ []) = S (length sl)).
    by rewrite app_nil_r, syntheses_app, (Hone s eq_refl), Hsyn.
Qed.

Lemma calc_spectrum_run (molecule : option molecule_arg) (save_to : pyval)
    (a : calc_args) :
  (exists x, calc_spectrum molecule save_to a = ([], inl x))
  \/ exists molecule_dict,
       calc_spectrum molecule save_to a
       = merged save_to (calc_all a molecule_dict).
Proof.
  unfold calc_spectrum, merged.
  destruct (parse_inputs _ _ _) as [x | [[r |] n]].
  - left. exists x. by rewrite bind_lift_err.
  - rewrite bind_lift_ok. cbn [fst].
    destruct (fill_master _ _ _) as [x | md0].
    { left. exists x. by rewrite bind_lift_err. }
    rewrite bind_lift_ok.
    destruct (fill_dict_arguments _ _ _) as [x | md].
    { left. exists x. by rewrite bind_lift_err. }
    rewrite bind_lift_ok. right. by exists md.
  - rewrite bind_lift_ok. left. by exists ValueError.
Qed.

Lemma merged_shape (save_to : pyval) (m : M (list Spectrum)) :
  merged save_to m
  = match outcome m with
    | inl x => (trace m, inl x)
    | inr s_list =>
        match MergeSlabs s_list with
        | inl x => (trace m ++ [EvMergeSlabs (length s_list)], inl x)
        | inr s =>
            if truthy save_to
            then (trace m ++ [EvMergeSlabs (length s_list); EvStore save_to],
                  match store s save_to with
                  | inl x => inl x
                  | inr _ => inr s
                  end)
            else (trace m ++ [EvMergeSlabs (length s_list)], inr s)
        end
    end.
Proof.
  unfold merged. destruct m as [t [x | sl]]; [done |].
  cbn [trace outcome fst snd].
  destruct (MergeSlabs sl) as [x | s] eqn:Hm.
  - cbn. by rewrite Hm.
  - destruct (truthy save_to).
    + cbn. rewrite Hm. cbn. by destruct (store s save_to) as [x | []].
    + cbn. rewrite Hm. done.
Qed.

(** X21. What a returned spectrum went through: when [calc_spectrum]
    returns, its last calls are [MergeSlabs], whose result it returns,
    and then [store] exactly when [save_to] is given; before them it
    called neither, and it called one synthesis routine for each
    spectrum that was merged. *)
Theorem merged_then_stored (molecule : option molecule_arg) (save_to : pyval)
    (a : calc_args) (s : Spectrum) :
  outcome (calc_spectrum molecule save_to a) = inr s ->
  exists t s_list,
    trace (calc_spectrum molecule save_to a)
    = t ++ EvMergeSlabs (length s_list)
           :: (if truthy save_to then [EvStore save_to] else [])
    /\ MergeSlabs s_list = inr s
    /\ Forall (fun ev => is_assembly ev = false) t
    /\ syntheses t = length s_list.
Proof.
  intros Hs.
  destruct (calc_spectrum_run molecule save_to a) as [[x Hx] | [md Hmd]].
  { rewrite Hx in Hs. discriminate. }
  rewrite Hmd in Hs |- *. rewrite merged_shape in Hs |- *.
  destruct (calc_all_shape a md) as [Hna Hsl].
  destruct (outcome (calc_all a md)) as [x | sl]; [discriminate |].
  destruct (Hsl sl eq_refl) as [_ Hsyn].
  exists (trace (calc_all a md)), sl.
  destruct (MergeSlabs sl) as [x | s'] eqn:Hm; [discriminate |].
  destruct (truthy save_to).
  - cbn [trace outcome fst snd] in Hs |- *.
    destruct (store s' save_to); [discriminate |]. by inversion Hs.
  - cbn [trace outcome fst snd] in Hs |- *. by inversion Hs.
Qed.

(** X22. Nothing is stored unless asked for: [store] is called only
    when [save_to] is given, on that path, as the last call and right
    after [MergeSlabs]. *)
Theorem stored_on_request (molecule : option molecule_arg) (save_to : pyval)
    (a : calc_args) (path : pyval) :
  In (EvStore path) (trace (calc_spectrum molecule save_to a)) ->
  truthy save_to = true /\ path = save_to
  /\ exists t n,
       trace (calc_spectrum molecule save_to a)
       = t ++ [EvMergeSlabs n; EvStore save_to]
       /\ Forall (fun ev => is_assembly ev = false) t.
Proof.
  intros Hin.
  destruct (calc_spectrum_run molecule save_to a) as [[x Hx] | [md Hmd]].
  { rewrite Hx in Hin. destruct Hin. }
  rewrite Hmd in Hin |- *. rewrite merged_shape in Hin |- *.
  destruct (calc_all_shape a md) as [Hna _].
  assert (Hno : ~ In (EvStore path) (trace (calc_all a md))).
  { intros H. rewrite Forall_forall in Hna. apply list_elem_of_In in H.
    by specialize (Hna _ H). }
  destruct (outcome (calc_all a md)) as [x | sl]; [done |].
  destruct (MergeSlabs sl) as [x | s'].
  { cbn [trace fst] in Hin. apply in_app_or in Hin as [H | [H | []]];
      [done | discriminate]. }
  destruct (truthy save_to).
  - cbn [trace fst] in Hin |- *.
    apply in_app_or in Hin as [H | [H | [H | []]]];
      [done | discriminate |].
    inversion H; subst path. eauto 10.
  - cbn [trace fst] in Hin. apply in_app_or in Hin as [H | [H | []]];
      [done | discriminate].
Qed.

End Stage4.

(** ** The facts above, on concrete requests *)

Section Witnesses.
Import Requests.


Lemma equilibrium_by_default : @equilibrium_conditions Offline.defaults.
Proof.
  split; [by left |]. split; [by left |]. split; [reflexivity |].
  intros v Hv. vm_compute in Hv. discriminate.
Qed.

Lemma factory_receives_kwargs_witness :
  exists fa,
    In (EvSpectrumFactory fa)
      (trace (@_calc_spectrum Offline.world Offline.defaults))
    /\ fa_kwargs fa !! "save_memory" = Some (PyBool true)
    /\ fa_medium fa = "air".
Proof.
  eexists. split; [vm_compute; left; reflexivity |].
  match goal with
  | |- fa_kwargs ?fa !! _ = _ /\ _ =>
      destruct (@factory_receives_kwargs Offline.world Offline.defaults fa)
        as (H1 & _ & _ & H2 & _); [vm_compute; left; reflexivity |]
  end.
  split; [exact H1 | exact H2].
Defined.

Lemma energies_loaded_off_equilibrium_witness :
  exists c,
    In (EvFetchDatabank c)
      (trace (@_calc_spectrum Offline.world Offline.defaults))
    /\ c !! "load_energies" = Some (PyBool false).
Proof.
  eexists. split; [vm_compute; right; left; reflexivity |].
  match goal with
  | |- ?c !! _ = _ =>
      destruct (@energies_loaded_off_equilibrium Offline.world
                  Offline.defaults (EvFetchDatabank c) c) as [H _];
      [vm_compute; right; left; reflexivity | reflexivity |]
  end.
  exact (H equilibrium_by_default).
Defined.


Lemma fetch_is_hitran_witness :
  databank fetch = PyStr "fetch"
  /\ @_calc_spectrum Offline.world fetch
     = @_calc_spectrum Offline.world (set_databank fetch (PyStr "hitran")).
Proof.
  split; [reflexivity |].
  apply (@fetch_is_hitran Offline.world fetch). reflexivity.
Defined.

Lemma exomol_tuple_witness :
  exists c,
    In (EvFetchDatabank c) (trace (@_calc_spectrum Offline.world exomol_EBJT))
    /\ c !! "exomol_database" = Some (PyStr "EBJT")
    /\ c !! "source" = Some (PyStr "exomol")
    /\ c !! "parfuncfmt" = Some (PyStr "exomol").
Proof.
  eexists. split; [vm_compute; right; left; reflexivity |].
  destruct (@exomol_tuple Offline.world exomol_EBJT) as [H _].
  apply (H (PyStr "EBJT") []); [reflexivity |].
  vm_compute. right. left. reflexivity.
Defined.

Lemma unknown_file_format_witness :
  exists fa,
    @_calc_spectrum OnDisk.disk_world txt_file
    = ([EvSpectrumFactory fa; EvExists (PyStr "CO.txt")], inl ValueError).
Proof.
  eexists.
  apply (@unknown_file_format OnDisk.disk_world txt_file "CO.txt" _ tt).
  - reflexivity.
  - intros [H | [H | [H | [H | [rest H]]]]]; discriminate.
  - reflexivity.
  - intros p Hp.
    assert (H : str_endswith "CO.txt" ".par" = true)
      by (apply str_endswith_spec; eauto).
    vm_compute in H. discriminate.
  - intros p Hp.
    assert (H : str_endswith "CO.txt" ".h5" = true)
      by (apply str_endswith_spec; eauto).
    vm_compute in H. discriminate.
  - intros p Hp.
    assert (H : str_endswith "CO.txt" ".hdf5" = true)
      by (apply str_endswith_spec; eauto).
    vm_compute in H. discriminate.
  - vm_compute. left. reflexivity.
  - reflexivity.
Defined.

Lemma prints_only_for_files_witness :
  exists msg,
    In (EvPrint msg) (trace (@_calc_spectrum OnDisk.disk_world par_file))
    /\ truthy (verbose par_file) = true
    /\ exists p, "CO.par" = p +:+ ".par".
Proof.
  eexists. split; [vm_compute; do 2 right; left; reflexivity |].
  match goal with
  | |- context [String.append _ _] =>
      destruct (@prints_only_for_files OnDisk.disk_world par_file
                  "Infered CO.par is a HITRAN-format file.")
        as (Hv & _ & _ & s & Hs & Hend);
      [vm_compute; do 2 right; left; reflexivity |]
  end.
  split; [exact Hv |].
  inversion Hs; subst s.
  destruct Hend as [Hp | [[p Hp] | [p Hp]]]; [exact Hp | |].
  - assert (H : str_endswith "CO.par" ".h5" = true)
      by (apply str_endswith_spec; eauto).
    vm_compute in H. discriminate.
  - assert (H : str_endswith "CO.par" ".hdf5" = true)
      by (apply str_endswith_spec; eauto).
    vm_compute in H. discriminate.
Defined.

Lemma drop_columns_forwarded_witness :
  exists n c,
    In (EvLoadDatabank n c) (trace (@_calc_spectrum OnDisk.disk_world par_file))
    /\ (c !! "drop_columns" = Some (PyStr "all")
        \/ c !! "drop_columns" = Some (PyStr "auto")).
Proof.
  eexists _, _. split; [vm_compute; do 3 right; left; reflexivity |].
  match goal with
  | |- ?c !! _ = _ \/ _ =>
      destruct (@drop_columns_forwarded OnDisk.disk_world par_file None c)
        as [H _]; [vm_compute; do 3 right; left; reflexivity |]
  end.
  exact H.
Defined.

Lemma save_memory_must_be_a_number_witness :
  kwargs save_memory_yes !! "save_memory" = Some (PyStr "yes")
  /\ @_calc_spectrum Offline.world save_memory_yes = ([], inl TypeError).
Proof.
  split; [reflexivity |].
  apply (@save_memory_must_be_a_number Offline.world save_memory_yes
           (1900%Q, 2300%Q) (PyStr "yes")).
  - vm_compute. reflexivity.
  - split; [intros [H _]; discriminate |].
    split; [split; reflexivity | discriminate].
  - reflexivity.
  - reflexivity.
  - discriminate.
  - discriminate.
  - discriminate.
Defined.

Lemma parse_isotopes_by_molecule :
  parse_inputs (DICT_INPUT_ARGUMENTS isotopes_by_molecule)
    (initial_reference CO_and_CO2) "molecule"
  = inr (Some (MolKeys (dom isotopes_of_both)), "isotope").
Proof. vm_compute. reflexivity. Qed.

Lemma molecules_established_witness :
  parse_inputs (DICT_INPUT_ARGUMENTS isotopes_by_molecule)
    (initial_reference CO_and_CO2) "molecule"
  = inr (Some (MolKeys (dom isotopes_of_both)), "isotope")
  /\ as_set (MolList [KStr "CO"; KStr "CO2"]) = dom isotopes_of_both.
Proof.
  split; [exact parse_isotopes_by_molecule |].
  destruct (molecules_established CO_and_CO2 isotopes_by_molecule
              (MolKeys (dom isotopes_of_both)) "isotope"
              parse_isotopes_by_molecule) as [_ H].
  exact (H _ eq_refl).
Defined.

Lemma molecules_required_witness :
  @calc_spectrum Offline.world None PyNone Offline.defaults
  = ([], inl ValueError).
Proof.
  apply (@molecules_required Offline.world); discriminate.
Defined.

Lemma master_dictionary_witness :
  fill_master (DICT_INPUT_ARGUMENTS isotopes_by_molecule)
    (@members Offline.world (MolKeys (dom isotopes_of_both))) []
  = inr (map (fun mol => (mol, entry_of isotopes_by_molecule mol))
           (distinct (@members Offline.world
                        (MolKeys (dom isotopes_of_both))))).
Proof.
  exact (@master_dictionary Offline.world CO_and_CO2 isotopes_by_molecule
           (MolKeys (dom isotopes_of_both)) "isotope"
           parse_isotopes_by_molecule).
Defined.

Lemma parse_defaults (molecule : option molecule_arg) (ov : pyval) :
  parse_inputs (DICT_INPUT_ARGUMENTS (with_overpopulation Offline.defaults ov))
    (initial_reference molecule) "molecule"
  = inr (initial_reference molecule, "molecule").
Proof. reflexivity. Qed.

Lemma overpopulation_misses_a_molecule_witness :
  @calc_spectrum Offline.world (Some (OneMolecule (KStr "CO"))) PyNone
    overpopulation_empty
  = ([], inl KeyError).
Proof.
  apply (@overpopulation_misses_a_molecule Offline.world
           (Some (OneMolecule (KStr "CO"))) PyNone overpopulation_empty
           (MolList [KStr "CO"]) "molecule" ∅ (KStr "CO")).
  - exact (parse_defaults _ _).
  - reflexivity.
  - rewrite dom_empty_L. apply empty_subseteq.
  - cbn [as_set list_to_set]. set_solver.
  - rewrite dom_empty_L. apply not_elem_of_empty.
Defined.

Lemma named_apart_empty : named_apart ∅.
Proof. repeat split. Qed.

Lemma one_request_per_molecule_witness :
  @calc_spectrum Offline.world CO_and_CO2 PyNone Offline.defaults
  = @merged Offline.world PyNone
      (@spectra_of Offline.world
         (map (request_for (MolList [KStr "CO"; KStr "CO2"]) Offline.defaults)
            (distinct [KStr "CO"; KStr "CO2"]))).
Proof.
  apply (@one_request_per_molecule Offline.world CO_and_CO2 PyNone
           Offline.defaults (MolList [KStr "CO"; KStr "CO2"]) "molecule").
  - reflexivity.
  - exact named_apart_empty.
  - discriminate.
Defined.

Lemma single_molecule_witness :
  @calc_spectrum Offline.world (Some (OneMolecule (KStr "CO"))) PyNone
    Offline.defaults
  = @merged Offline.world PyNone
      (@spectra_of Offline.world
         [set_molecule Offline.defaults (PyStr "CO")]).
Proof.
  apply (@single_molecule Offline.world (KStr "CO") PyNone Offline.defaults);
    try discriminate.
  exact named_apart_empty.
Defined.

Lemma run_and_store :
  @calc_spectrum Offline.world (Some (OneMolecule (KStr "CO")))
    (PyStr "CO.spec") Offline.defaults
  = (trace (@_calc_spectrum Offline.world Offline.defaults)
       ++ [EvMergeSlabs 1; EvStore (PyStr "CO.spec")],
     inr "eq_spectrum").
Proof. vm_compute. reflexivity. Qed.

Lemma merged_then_stored_witness :
  outcome (@calc_spectrum Offline.world (Some (OneMolecule (KStr "CO")))
             (PyStr "CO.spec") Offline.defaults)
  = inr "eq_spectrum"
  /\ exists t s_list,
       trace (@calc_spectrum Offline.world (Some (OneMolecule (KStr "CO")))
                (PyStr "CO.spec") Offline.defaults)
       = t ++ [EvMergeSlabs (length s_list); EvStore (PyStr "CO.spec")]
       /\ @MergeSlabs Offline.world s_list = inr "eq_spectrum"
       /\ syntheses t = length s_list.
Proof.
  assert (H : outcome (@calc_spectrum Offline.world
                         (Some (OneMolecule (KStr "CO")))
                         (PyStr "CO.spec") Offline.defaults)
              = inr "eq_spectrum") by (rewrite run_and_store; reflexivity).
  split; [exact H |].
  destruct (@merged_then_stored Offline.world _ _ _ _ H)
    as (t & sl & Ht & Hm & _ & Hs).
  exists t, sl. by repeat split.
Defined.

Lemma stored_on_request_witness :
  In (EvStore (PyStr "CO.spec"))
    (trace (@calc_spectrum Offline.world (Some (OneMolecule (KStr "CO")))
              (PyStr "CO.spec") Offline.defaults))
  /\ truthy (PyStr "CO.spec") = true.
Proof.
  assert (H : In (EvStore (PyStr "CO.spec"))
                (trace (@calc_spectrum Offline.world
                          (Some (OneMolecule (KStr "CO")))
                          (PyStr "CO.spec") Offline.defaults))).
  { rewrite run_and_store. apply in_or_app. right. right. left. reflexivity. }
  split; [exact H |].
  destruct (@stored_on_request Offline.world _ _ _ _ H) as [Ht _].
  exact Ht.
Defined.

End Witnesses.
